(** * ProctoringSystem: calibration, hysteresis and session accounting

    A shallow embedding of the class [ProctoringSystem] of
    [ProctoringSystem.js] and of its helper [GeometryUtils].

    Conventions of the embedding.
    - The object [this] is the record [ProctoringSystem]; every method is a
      function from the record (and the method's inputs) to the record.
    - JavaScript numbers that carry measurements (landmark coordinates,
      baselines, smoothed deviations, distances) are rationals [Q]: the
      arithmetic is the exact one, rounding of IEEE doubles is not modelled.
      Counters and array lengths are [nat]; [Date.now()] readings are [Z]
      (milliseconds), one reading per handler invocation: where a
      method reads the clock twice ([logEvent] does, for the event and for
      its log entry), the two readings are taken to be equal. Only the
      arithmetic of calibration is written a second time on doubles
      ([Doubles]).
    - Calls that leave the object ([onLogEvent], [onViolationUpdate],
      [canvas.toBlob], [console.error]) are recorded, in order, in the
      field [external]; [console.log] output is not.
    - The MediaPipe mesh always carries the 468 base landmarks; the iris
      landmarks 468 and 473 exist only with refinement, hence are optional.
    - [faceapi.euclideanDistance] and the decoding of the persisted
      descriptors ([JSON.parse] followed by [map]) are library code: they
      are the variables of [Section Collaborators].
    - The asynchronous methods are cut at their awaits: a turn of
      [processVideo] is one operation that receives what the two MediaPipe
      sends and the face detection delivered, and the callback given to
      [canvas.toBlob] is an operation of its own.
    - Input validation and the MediaPipe set-up change none of the fields
      below and are left out. [dispose], which releases the canvas and the
      detectors and ends the use of the object, is a function of its own
      after the class and not one of the operations of [Op].
    - The two download methods only read the object; they come after the
      class, followed by the two components around it: the monitoring
      widget of [CornerWebcam.jsx], which receives the callbacks, and the
      images of the enrolment page. *)

From Stdlib Require Import ZArith QArith Qabs Qround Qminmax.
From Stdlib Require Import List String Ascii Bool Arith Lia Lqa.
From Stdlib Require PrimFloat FloatOps.
Import ListNotations.

Set Implicit Arguments.

(** ** Configuration constants *)

Module CONFIG.
Module FACE_RECOGNITION.
Definition THRESHOLD : Q := 0.50.
Definition MIN_CONFIDENCE : Q := 0.5.
Definition INTERVAL_MS : Z := 10000.
Definition INITIAL_DELAY_MS : Z := 1000.
End FACE_RECOGNITION.
Module CALIBRATION.
Definition MAX_FRAMES : nat := 45.
Definition EMA_ALPHA : Q := 0.1.
End CALIBRATION.
Module STABILIZATION.
Definition THRESHOLD : nat := 3.
Definition EMA_ALPHA : Q := 0.25.
End STABILIZATION.
Module ATTENTION.
Definition MIN_DISTRACTION_DURATION : Z := 2000.
Definition HISTORY_SIZE : nat := 8.
Definition YAW_THRESHOLD_BASE : Q := 0.08.
Definition YAW_THRESHOLD_MULTIPLIER : Q := 2.
Definition YAW_THRESHOLD_OFFSET : Q := 0.05.
Definition PITCH_THRESHOLD_BASE : Q := 0.12.
Definition PITCH_THRESHOLD_MULTIPLIER : Q := 2.
Definition PITCH_THRESHOLD_OFFSET : Q := 0.06.
End ATTENTION.
Module GAZE.
Definition MIN_EYE_WIDTH : Q := 0.01.
Definition THRESHOLD_BASE : Q := 0.18.
Definition THRESHOLD_MULTIPLIER : Q := 0.5.
Definition THRESHOLD_OFFSET : Q := 0.12.
End GAZE.
Module FRAME_CAPTURE.
Definition SAVE_INTERVAL : Z := 4000.
End FRAME_CAPTURE.
End CONFIG.

(** ** Comparisons of JavaScript numbers, as booleans *)

Definition Qltb (a b : Q) : bool := negb (Qle_bool b a).
Definition Qgtb (a b : Q) : bool := Qltb b a.

(** ** Geometry *)

Record Point : Type := mkPoint { x : Q; y : Q }.

(** The landmarks the class reads, named by their mesh index. *)
Record Landmarks : Type := mkLandmarks {
  lm1 : Point;            (* nose tip *)
  lm33 : Point;           (* left eye, outer corner *)
  lm133 : Point;          (* left eye, inner corner *)
  lm263 : Point;          (* right eye, outer corner *)
  lm362 : Point;          (* right eye, inner corner *)
  lm468 : option Point;   (* left iris, with refinement only *)
  lm473 : option Point    (* right iris, with refinement only *)
}.

Record HeadAngles : Type := mkHeadAngles { yaw : Q; pitch : Q }.

Module GeometryUtils.

Definition calculateEyeCenter (leftEye rightEye : Point) : Point :=
  {| x := (x leftEye + x rightEye) / 2;
     y := (y leftEye + y rightEye) / 2 |}.

Definition calculateHeadAngles (noseTip eyeCenter : Point) : HeadAngles :=
  {| yaw := x noseTip - x eyeCenter;
     pitch := y noseTip - y eyeCenter |}.

(** [None] is JavaScript's [null]. *)
Definition calculateGaze (iris eyeInner eyeOuter : Point) : option Q :=
  let eyeWidth := Qabs (x eyeInner - x eyeOuter) in
  if Qltb eyeWidth CONFIG.GAZE.MIN_EYE_WIDTH then None
  else Some ((x iris - x eyeOuter) / eyeWidth).

End GeometryUtils.

(** ** Data model *)

Inductive AttentionState : Type :=
  | attention_unknown | focused | distracted.

Inductive PersonState : Type :=
  | person_unknown | authorized | unauthorized.

Inductive Severity : Type := info | violation | error | warning.

Inductive Trigger : Type := head_movement | gaze_shift.

Definition AttentionState_eqb (a b : AttentionState) : bool :=
  match a, b with
  | attention_unknown, attention_unknown => true
  | focused, focused => true
  | distracted, distracted => true
  | _, _ => false
  end.

Definition PersonState_eqb (a b : PersonState) : bool :=
  match a, b with
  | person_unknown, person_unknown => true
  | authorized, authorized => true
  | unauthorized, unauthorized => true
  | _, _ => false
  end.

Definition Severity_eqb (a b : Severity) : bool :=
  match a, b with
  | info, info => true
  | violation, violation => true
  | error, error => true
  | warning, warning => true
  | _, _ => false
  end.

(** A face descriptor (a [Float32Array]). *)
Definition Descriptor : Type := list Q.

(** A distance, or the [Infinity] that [bestDistance] starts from. *)
Inductive Dist : Type := Finite (d : Q) | Infinity.

Definition Dist_min (a b : Dist) : Dist :=
  match a, b with
  | Infinity, _ => b
  | _, Infinity => a
  | Finite p, Finite q => Finite (if Qle_bool p q then p else q)
  end.

Definition Dist_gtb (a : Dist) (t : Q) : bool :=
  match a with
  | Infinity => true
  | Finite q => Qgtb q t
  end.

(** An entry of [sessionEvents]; the timestamp is the clock reading that
    [toLocaleTimeString] renders. *)
Record Event : Type := mkEvent {
  ev_timestamp : Z;
  ev_message : string;
  ev_type : Severity
}.

(** The kinds of structured log entries, with their kind-specific fields. *)
Inductive LogBody : Type :=
  | session_start (id : option Z)
  | session_end (session_duration : Z)
      (total_violations attention_violations : nat)
  | calibration_complete (baseline_yaw baseline_pitch baseline_gaze : Q)
  | face_count_change (previous_count current_count : nat)
  | attention_change (state : AttentionState) (duration : option Z)
      (trigger : option Trigger)
  | face_recognition (result : PersonState) (distance : Dist) (threshold : Q)
  | event (event_type : Severity) (message : string)
  | frame_saved (reason : string) (frame_timestamp : Z).

Record LogEntry : Type := mkLogEntry {
  body : LogBody;
  timestamp : Z;
  session_id : option Z
}.

Definition Blob : Type := string.

Record ViolationFrame : Type := mkViolationFrame {
  vf_blob : Blob;
  vf_message : string;
  vf_timestamp : Z
}.

(** Calls out of the object, in the order they are made. [console.log]
    output is not recorded. *)
Inductive ExternalCall : Type :=
  | onLogEvent (e : Event)
  | onViolationUpdate (total attention : nat)
  | canvas_toBlob (message : string)
  | console_error (what : string).

(** The fields of [this] that the monitoring logic reads or writes. *)
Record ProctoringSystem : Type := mkProctoringSystem {
  isMonitoring : bool;
  enrolledDescriptors : option (list Descriptor);
  sessionStartTime : option Z;
  totalViolations : nat;
  attentionViolations : nat;
  sessionEvents : list Event;
  sessionLogs : list LogEntry;
  lastFaceCount : nat;
  lastAttentionState : AttentionState;
  lastPersonState : PersonState;
  yawHistory : list Q;
  pitchHistory : list Q;
  gazeHistory : list Q;
  distractionCounter : nat;
  focusCounter : nat;
  unauthorizedCounter : nat;
  authorizedCounter : nat;
  lastViolationFrameSave : Z;
  lastFaceRecogTime : Z;
  faceRecognitionStarted : bool;
  calibrationFrames : nat;
  baselineYaw : Q;
  baselinePitch : Q;
  baselineGaze : Q;
  distractionStartTime : option Z;
  violationFrames : list ViolationFrame;
  external : list ExternalCall
}.

Definition set_isMonitoring (v : bool)
  (s : ProctoringSystem) : ProctoringSystem :=
  mkProctoringSystem v (enrolledDescriptors s) (sessionStartTime s)
    (totalViolations s) (attentionViolations s) (sessionEvents s)
    (sessionLogs s) (lastFaceCount s) (lastAttentionState s)
    (lastPersonState s) (yawHistory s) (pitchHistory s) (gazeHistory s)
    (distractionCounter s) (focusCounter s) (unauthorizedCounter s)
    (authorizedCounter s) (lastViolationFrameSave s) (lastFaceRecogTime s)
    (faceRecognitionStarted s) (calibrationFrames s) (baselineYaw s)
    (baselinePitch s) (baselineGaze s) (distractionStartTime s)
    (violationFrames s) (external s).

Definition set_enrolledDescriptors (v : option (list Descriptor))
  (s : ProctoringSystem) : ProctoringSystem :=
  mkProctoringSystem (isMonitoring s) v (sessionStartTime s)
    (totalViolations s) (attentionViolations s) (sessionEvents s)
    (sessionLogs s) (lastFaceCount s) (lastAttentionState s)
    (lastPersonState s) (yawHistory s) (pitchHistory s) (gazeHistory s)
    (distractionCounter s) (focusCounter s) (unauthorizedCounter s)
    (authorizedCounter s) (lastViolationFrameSave s) (lastFaceRecogTime s)
    (faceRecognitionStarted s) (calibrationFrames s) (baselineYaw s)
    (baselinePitch s) (baselineGaze s) (distractionStartTime s)
    (violationFrames s) (external s).

Definition set_sessionStartTime (v : option Z)
  (s : ProctoringSystem) : ProctoringSystem :=
  mkProctoringSystem (isMonitoring s) (enrolledDescriptors s) v
    (totalViolations s) (attentionViolations s) (sessionEvents s)
    (sessionLogs s) (lastFaceCount s) (lastAttentionState s)
    (lastPersonState s) (yawHistory s) (pitchHistory s) (gazeHistory s)
    (distractionCounter s) (focusCounter s) (unauthorizedCounter s)
    (authorizedCounter s) (lastViolationFrameSave s) (lastFaceRecogTime s)
    (faceRecognitionStarted s) (calibrationFrames s) (baselineYaw s)
    (baselinePitch s) (baselineGaze s) (distractionStartTime s)
    (violationFrames s) (external s).

Definition set_totalViolations (v : nat)
  (s : ProctoringSystem) : ProctoringSystem :=
  mkProctoringSystem (isMonitoring s) (enrolledDescriptors s)
    (sessionStartTime s) v (attentionViolations s) (sessionEvents s)
    (sessionLogs s) (lastFaceCount s) (lastAttentionState s)
    (lastPersonState s) (yawHistory s) (pitchHistory s) (gazeHistory s)
    (distractionCounter s) (focusCounter s) (unauthorizedCounter s)
    (authorizedCounter s) (lastViolationFrameSave s) (lastFaceRecogTime s)
    (faceRecognitionStarted s) (calibrationFrames s) (baselineYaw s)
    (baselinePitch s) (baselineGaze s) (distractionStartTime s)
    (violationFrames s) (external s).

Definition set_attentionViolations (v : nat)
  (s : ProctoringSystem) : ProctoringSystem :=
  mkProctoringSystem (isMonitoring s) (enrolledDescriptors s)
    (sessionStartTime s) (totalViolations s) v (sessionEvents s)
    (sessionLogs s) (lastFaceCount s) (lastAttentionState s)
    (lastPersonState s) (yawHistory s) (pitchHistory s) (gazeHistory s)
    (distractionCounter s) (focusCounter s) (unauthorizedCounter s)
    (authorizedCounter s) (lastViolationFrameSave s) (lastFaceRecogTime s)
    (faceRecognitionStarted s) (calibrationFrames s) (baselineYaw s)
    (baselinePitch s) (baselineGaze s) (distractionStartTime s)
    (violationFrames s) (external s).

Definition set_sessionEvents (v : list Event)
  (s : ProctoringSystem) : ProctoringSystem :=
  mkProctoringSystem (isMonitoring s) (enrolledDescriptors s)
    (sessionStartTime s) (totalViolations s) (attentionViolations s) v
    (sessionLogs s) (lastFaceCount s) (lastAttentionState s)
    (lastPersonState s) (yawHistory s) (pitchHistory s) (gazeHistory s)
    (distractionCounter s) (focusCounter s) (unauthorizedCounter s)
    (authorizedCounter s) (lastViolationFrameSave s) (lastFaceRecogTime s)
    (faceRecognitionStarted s) (calibrationFrames s) (baselineYaw s)
    (baselinePitch s) (baselineGaze s) (distractionStartTime s)
    (violationFrames s) (external s).

Definition set_sessionLogs (v : list LogEntry)
  (s : ProctoringSystem) : ProctoringSystem :=
  mkProctoringSystem (isMonitoring s) (enrolledDescriptors s)
    (sessionStartTime s) (totalViolations s) (attentionViolations s)
    (sessionEvents s) v (lastFaceCount s) (lastAttentionState s)
    (lastPersonState s) (yawHistory s) (pitchHistory s) (gazeHistory s)
    (distractionCounter s) (focusCounter s) (unauthorizedCounter s)
    (authorizedCounter s) (lastViolationFrameSave s) (lastFaceRecogTime s)
    (faceRecognitionStarted s) (calibrationFrames s) (baselineYaw s)
    (baselinePitch s) (baselineGaze s) (distractionStartTime s)
    (violationFrames s) (external s).

Definition set_lastFaceCount (v : nat)
  (s : ProctoringSystem) : ProctoringSystem :=
  mkProctoringSystem (isMonitoring s) (enrolledDescriptors s)
    (sessionStartTime s) (totalViolations s) (attentionViolations s)
    (sessionEvents s) (sessionLogs s) v (lastAttentionState s)
    (lastPersonState s) (yawHistory s) (pitchHistory s) (gazeHistory s)
    (distractionCounter s) (focusCounter s) (unauthorizedCounter s)
    (authorizedCounter s) (lastViolationFrameSave s) (lastFaceRecogTime s)
    (faceRecognitionStarted s) (calibrationFrames s) (baselineYaw s)
    (baselinePitch s) (baselineGaze s) (distractionStartTime s)
    (violationFrames s) (external s).

Definition set_lastAttentionState (v : AttentionState)
  (s : ProctoringSystem) : ProctoringSystem :=
  mkProctoringSystem (isMonitoring s) (enrolledDescriptors s)
    (sessionStartTime s) (totalViolations s) (attentionViolations s)
    (sessionEvents s) (sessionLogs s) (lastFaceCount s) v (lastPersonState s)
    (yawHistory s) (pitchHistory s) (gazeHistory s) (distractionCounter s)
    (focusCounter s) (unauthorizedCounter s) (authorizedCounter s)
    (lastViolationFrameSave s) (lastFaceRecogTime s)
    (faceRecognitionStarted s) (calibrationFrames s) (baselineYaw s)
    (baselinePitch s) (baselineGaze s) (distractionStartTime s)
    (violationFrames s) (external s).

Definition set_lastPersonState (v : PersonState)
  (s : ProctoringSystem) : ProctoringSystem :=
  mkProctoringSystem (isMonitoring s) (enrolledDescriptors s)
    (sessionStartTime s) (totalViolations s) (attentionViolations s)
    (sessionEvents s) (sessionLogs s) (lastFaceCount s) (lastAttentionState s)
    v (yawHistory s) (pitchHistory s) (gazeHistory s) (distractionCounter s)
    (focusCounter s) (unauthorizedCounter s) (authorizedCounter s)
    (lastViolationFrameSave s) (lastFaceRecogTime s)
    (faceRecognitionStarted s) (calibrationFrames s) (baselineYaw s)
    (baselinePitch s) (baselineGaze s) (distractionStartTime s)
    (violationFrames s) (external s).

Definition set_yawHistory (v : list Q)
  (s : ProctoringSystem) : ProctoringSystem :=
  mkProctoringSystem (isMonitoring s) (enrolledDescriptors s)
    (sessionStartTime s) (totalViolations s) (attentionViolations s)
    (sessionEvents s) (sessionLogs s) (lastFaceCount s) (lastAttentionState s)
    (lastPersonState s) v (pitchHistory s) (gazeHistory s)
    (distractionCounter s) (focusCounter s) (unauthorizedCounter s)
    (authorizedCounter s) (lastViolationFrameSave s) (lastFaceRecogTime s)
    (faceRecognitionStarted s) (calibrationFrames s) (baselineYaw s)
    (baselinePitch s) (baselineGaze s) (distractionStartTime s)
    (violationFrames s) (external s).

Definition set_pitchHistory (v : list Q)
  (s : ProctoringSystem) : ProctoringSystem :=
  mkProctoringSystem (isMonitoring s) (enrolledDescriptors s)
    (sessionStartTime s) (totalViolations s) (attentionViolations s)
    (sessionEvents s) (sessionLogs s) (lastFaceCount s) (lastAttentionState s)
    (lastPersonState s) (yawHistory s) v (gazeHistory s)
    (distractionCounter s) (focusCounter s) (unauthorizedCounter s)
    (authorizedCounter s) (lastViolationFrameSave s) (lastFaceRecogTime s)
    (faceRecognitionStarted s) (calibrationFrames s) (baselineYaw s)
    (baselinePitch s) (baselineGaze s) (distractionStartTime s)
    (violationFrames s) (external s).

Definition set_gazeHistory (v : list Q)
  (s : ProctoringSystem) : ProctoringSystem :=
  mkProctoringSystem (isMonitoring s) (enrolledDescriptors s)
    (sessionStartTime s) (totalViolations s) (attentionViolations s)
    (sessionEvents s) (sessionLogs s) (lastFaceCount s) (lastAttentionState s)
    (lastPersonState s) (yawHistory s) (pitchHistory s) v
    (distractionCounter s) (focusCounter s) (unauthorizedCounter s)
    (authorizedCounter s) (lastViolationFrameSave s) (lastFaceRecogTime s)
    (faceRecognitionStarted s) (calibrationFrames s) (baselineYaw s)
    (baselinePitch s) (baselineGaze s) (distractionStartTime s)
    (violationFrames s) (external s).

Definition set_distractionCounter (v : nat)
  (s : ProctoringSystem) : ProctoringSystem :=
  mkProctoringSystem (isMonitoring s) (enrolledDescriptors s)
    (sessionStartTime s) (totalViolations s) (attentionViolations s)
    (sessionEvents s) (sessionLogs s) (lastFaceCount s) (lastAttentionState s)
    (lastPersonState s) (yawHistory s) (pitchHistory s) (gazeHistory s) v
    (focusCounter s) (unauthorizedCounter s) (authorizedCounter s)
    (lastViolationFrameSave s) (lastFaceRecogTime s)
    (faceRecognitionStarted s) (calibrationFrames s) (baselineYaw s)
    (baselinePitch s) (baselineGaze s) (distractionStartTime s)
    (violationFrames s) (external s).

Definition set_focusCounter (v : nat)
  (s : ProctoringSystem) : ProctoringSystem :=
  mkProctoringSystem (isMonitoring s) (enrolledDescriptors s)
    (sessionStartTime s) (totalViolations s) (attentionViolations s)
    (sessionEvents s) (sessionLogs s) (lastFaceCount s) (lastAttentionState s)
    (lastPersonState s) (yawHistory s) (pitchHistory s) (gazeHistory s)
    (distractionCounter s) v (unauthorizedCounter s) (authorizedCounter s)
    (lastViolationFrameSave s) (lastFaceRecogTime s)
    (faceRecognitionStarted s) (calibrationFrames s) (baselineYaw s)
    (baselinePitch s) (baselineGaze s) (distractionStartTime s)
    (violationFrames s) (external s).

Definition set_unauthorizedCounter (v : nat)
  (s : ProctoringSystem) : ProctoringSystem :=
  mkProctoringSystem (isMonitoring s) (enrolledDescriptors s)
    (sessionStartTime s) (totalViolations s) (attentionViolations s)
    (sessionEvents s) (sessionLogs s) (lastFaceCount s) (lastAttentionState s)
    (lastPersonState s) (yawHistory s) (pitchHistory s) (gazeHistory s)
    (distractionCounter s) (focusCounter s) v (authorizedCounter s)
    (lastViolationFrameSave s) (lastFaceRecogTime s)
    (faceRecognitionStarted s) (calibrationFrames s) (baselineYaw s)
    (baselinePitch s) (baselineGaze s) (distractionStartTime s)
    (violationFrames s) (external s).

Definition set_authorizedCounter (v : nat)
  (s : ProctoringSystem) : ProctoringSystem :=
  mkProctoringSystem (isMonitoring s) (enrolledDescriptors s)
    (sessionStartTime s) (totalViolations s) (attentionViolations s)
    (sessionEvents s) (sessionLogs s) (lastFaceCount s) (lastAttentionState s)
    (lastPersonState s) (yawHistory s) (pitchHistory s) (gazeHistory s)
    (distractionCounter s) (focusCounter s) (unauthorizedCounter s) v
    (lastViolationFrameSave s) (lastFaceRecogTime s)
    (faceRecognitionStarted s) (calibrationFrames s) (baselineYaw s)
    (baselinePitch s) (baselineGaze s) (distractionStartTime s)
    (violationFrames s) (external s).

Definition set_lastViolationFrameSave (v : Z)
  (s : ProctoringSystem) : ProctoringSystem :=
  mkProctoringSystem (isMonitoring s) (enrolledDescriptors s)
    (sessionStartTime s) (totalViolations s) (attentionViolations s)
    (sessionEvents s) (sessionLogs s) (lastFaceCount s) (lastAttentionState s)
    (lastPersonState s) (yawHistory s) (pitchHistory s) (gazeHistory s)
    (distractionCounter s) (focusCounter s) (unauthorizedCounter s)
    (authorizedCounter s) v (lastFaceRecogTime s) (faceRecognitionStarted s)
    (calibrationFrames s) (baselineYaw s) (baselinePitch s) (baselineGaze s)
    (distractionStartTime s) (violationFrames s) (external s).

Definition set_lastFaceRecogTime (v : Z)
  (s : ProctoringSystem) : ProctoringSystem :=
  mkProctoringSystem (isMonitoring s) (enrolledDescriptors s)
    (sessionStartTime s) (totalViolations s) (attentionViolations s)
    (sessionEvents s) (sessionLogs s) (lastFaceCount s) (lastAttentionState s)
    (lastPersonState s) (yawHistory s) (pitchHistory s) (gazeHistory s)
    (distractionCounter s) (focusCounter s) (unauthorizedCounter s)
    (authorizedCounter s) (lastViolationFrameSave s) v
    (faceRecognitionStarted s) (calibrationFrames s) (baselineYaw s)
    (baselinePitch s) (baselineGaze s) (distractionStartTime s)
    (violationFrames s) (external s).

Definition set_faceRecognitionStarted (v : bool)
  (s : ProctoringSystem) : ProctoringSystem :=
  mkProctoringSystem (isMonitoring s) (enrolledDescriptors s)
    (sessionStartTime s) (totalViolations s) (attentionViolations s)
    (sessionEvents s) (sessionLogs s) (lastFaceCount s) (lastAttentionState s)
    (lastPersonState s) (yawHistory s) (pitchHistory s) (gazeHistory s)
    (distractionCounter s) (focusCounter s) (unauthorizedCounter s)
    (authorizedCounter s) (lastViolationFrameSave s) (lastFaceRecogTime s) v
    (calibrationFrames s) (baselineYaw s) (baselinePitch s) (baselineGaze s)
    (distractionStartTime s) (violationFrames s) (external s).

Definition set_calibrationFrames (v : nat)
  (s : ProctoringSystem) : ProctoringSystem :=
  mkProctoringSystem (isMonitoring s) (enrolledDescriptors s)
    (sessionStartTime s) (totalViolations s) (attentionViolations s)
    (sessionEvents s) (sessionLogs s) (lastFaceCount s) (lastAttentionState s)
    (lastPersonState s) (yawHistory s) (pitchHistory s) (gazeHistory s)
    (distractionCounter s) (focusCounter s) (unauthorizedCounter s)
    (authorizedCounter s) (lastViolationFrameSave s) (lastFaceRecogTime s)
    (faceRecognitionStarted s) v (baselineYaw s) (baselinePitch s)
    (baselineGaze s) (distractionStartTime s) (violationFrames s) (external s).

Definition set_baselineYaw (v : Q)
  (s : ProctoringSystem) : ProctoringSystem :=
  mkProctoringSystem (isMonitoring s) (enrolledDescriptors s)
    (sessionStartTime s) (totalViolations s) (attentionViolations s)
    (sessionEvents s) (sessionLogs s) (lastFaceCount s) (lastAttentionState s)
    (lastPersonState s) (yawHistory s) (pitchHistory s) (gazeHistory s)
    (distractionCounter s) (focusCounter s) (unauthorizedCounter s)
    (authorizedCounter s) (lastViolationFrameSave s) (lastFaceRecogTime s)
    (faceRecognitionStarted s) (calibrationFrames s) v (baselinePitch s)
    (baselineGaze s) (distractionStartTime s) (violationFrames s) (external s).

Definition set_baselinePitch (v : Q)
  (s : ProctoringSystem) : ProctoringSystem :=
  mkProctoringSystem (isMonitoring s) (enrolledDescriptors s)
    (sessionStartTime s) (totalViolations s) (attentionViolations s)
    (sessionEvents s) (sessionLogs s) (lastFaceCount s) (lastAttentionState s)
    (lastPersonState s) (yawHistory s) (pitchHistory s) (gazeHistory s)
    (distractionCounter s) (focusCounter s) (unauthorizedCounter s)
    (authorizedCounter s) (lastViolationFrameSave s) (lastFaceRecogTime s)
    (faceRecognitionStarted s) (calibrationFrames s) (baselineYaw s) v
    (baselineGaze s) (distractionStartTime s) (violationFrames s) (external s).

Definition set_baselineGaze (v : Q)
  (s : ProctoringSystem) : ProctoringSystem :=
  mkProctoringSystem (isMonitoring s) (enrolledDescriptors s)
    (sessionStartTime s) (totalViolations s) (attentionViolations s)
    (sessionEvents s) (sessionLogs s) (lastFaceCount s) (lastAttentionState s)
    (lastPersonState s) (yawHistory s) (pitchHistory s) (gazeHistory s)
    (distractionCounter s) (focusCounter s) (unauthorizedCounter s)
    (authorizedCounter s) (lastViolationFrameSave s) (lastFaceRecogTime s)
    (faceRecognitionStarted s) (calibrationFrames s) (baselineYaw s)
    (baselinePitch s) v (distractionStartTime s) (violationFrames s)
    (external s).

Definition set_distractionStartTime (v : option Z)
  (s : ProctoringSystem) : ProctoringSystem :=
  mkProctoringSystem (isMonitoring s) (enrolledDescriptors s)
    (sessionStartTime s) (totalViolations s) (attentionViolations s)
    (sessionEvents s) (sessionLogs s) (lastFaceCount s) (lastAttentionState s)
    (lastPersonState s) (yawHistory s) (pitchHistory s) (gazeHistory s)
    (distractionCounter s) (focusCounter s) (unauthorizedCounter s)
    (authorizedCounter s) (lastViolationFrameSave s) (lastFaceRecogTime s)
    (faceRecognitionStarted s) (calibrationFrames s) (baselineYaw s)
    (baselinePitch s) (baselineGaze s) v (violationFrames s) (external s).

Definition set_violationFrames (v : list ViolationFrame)
  (s : ProctoringSystem) : ProctoringSystem :=
  mkProctoringSystem (isMonitoring s) (enrolledDescriptors s)
    (sessionStartTime s) (totalViolations s) (attentionViolations s)
    (sessionEvents s) (sessionLogs s) (lastFaceCount s) (lastAttentionState s)
    (lastPersonState s) (yawHistory s) (pitchHistory s) (gazeHistory s)
    (distractionCounter s) (focusCounter s) (unauthorizedCounter s)
    (authorizedCounter s) (lastViolationFrameSave s) (lastFaceRecogTime s)
    (faceRecognitionStarted s) (calibrationFrames s) (baselineYaw s)
    (baselinePitch s) (baselineGaze s) (distractionStartTime s) v (external s).

Definition set_external (v : list ExternalCall)
  (s : ProctoringSystem) : ProctoringSystem :=
  mkProctoringSystem (isMonitoring s) (enrolledDescriptors s)
    (sessionStartTime s) (totalViolations s) (attentionViolations s)
    (sessionEvents s) (sessionLogs s) (lastFaceCount s) (lastAttentionState s)
    (lastPersonState s) (yawHistory s) (pitchHistory s) (gazeHistory s)
    (distractionCounter s) (focusCounter s) (unauthorizedCounter s)
    (authorizedCounter s) (lastViolationFrameSave s) (lastFaceRecogTime s)
    (faceRecognitionStarted s) (calibrationFrames s) (baselineYaw s)
    (baselinePitch s) (baselineGaze s) (distractionStartTime s)
    (violationFrames s) v.

(** ** Strings *)

(** [String.prototype.includes]: [needle] occurs in [s]. *)
Fixpoint includes (s needle : string) : bool :=
  String.prefix needle s ||
  match s with
  | EmptyString => false
  | String _ rest => includes rest needle
  end.

(** Decimal digits of a natural number, most significant first. *)
Definition digit (n : nat) : ascii := ascii_of_nat (48 + n mod 10).

Fixpoint digits_fuel (fuel n : nat) (acc : string) : string :=
  match fuel with
  | O => acc
  | S fuel' =>
      let acc' := String (digit n) acc in
      if n / 10 =? 0 then acc' else digits_fuel fuel' (n / 10) acc'
  end.

Definition decimal (n : nat) : string := digits_fuel (S n) n EmptyString.

(** [Number.prototype.toFixed(3)] on the values [bestDistance] takes: the
    nearest multiple of 1/1000, the larger one on a tie. *)
Definition toFixed3 (d : Dist) : string :=
  match d with
  | Infinity => "Infinity"%string
  | Finite q =>
      let a := Qabs q in
      let n := Z.to_nat (Qfloor (a * 1000 + (1 # 2))%Q) in
      let sign := if Qltb q 0 then "-"%string else ""%string in
      (sign ++ decimal (n / 1000) ++ "." ++
       String (digit (n / 100)) (String (digit (n / 10))
         (String (digit n) EmptyString)))%string
  end.

(** ** Session log and event bus *)

Definition addToSessionLog (logEntry : LogBody) (now : Z)
  (s : ProctoringSystem) : ProctoringSystem :=
  set_sessionLogs
    (sessionLogs s ++ [mkLogEntry logEntry now (sessionStartTime s)]) s.

(** The synchronous part of [saveViolationFrame]: the throttle and the
    request to the canvas. *)
Definition saveViolationFrame (message : string) (now : Z)
  (s : ProctoringSystem) : ProctoringSystem :=
  if (now - lastViolationFrameSave s <? CONFIG.FRAME_CAPTURE.SAVE_INTERVAL)%Z
  then s
  else
    let s := set_lastViolationFrameSave now s in
    set_external (external s ++ [canvas_toBlob message]) s.

(** The callback that [saveViolationFrame] hands to [canvas.toBlob]. *)
Definition toBlobCallback (message : string) (blob : option Blob) (now : Z)
  (s : ProctoringSystem) : ProctoringSystem :=
  match blob with
  | None => s
  | Some b =>
      let s := set_violationFrames
                 (violationFrames s ++ [mkViolationFrame b message now]) s in
      addToSessionLog (frame_saved message now) now s
  end.

Definition isAttentionMessage (message : string) : bool :=
  includes message "distraction" || includes message "looking away".

Definition logEvent (message : string) (type : Severity) (now : Z)
  (s : ProctoringSystem) : ProctoringSystem :=
  let ev := mkEvent now message type in
  let s := set_sessionEvents (sessionEvents s ++ [ev]) s in
  let s :=
    if Severity_eqb type violation then
      let s := set_totalViolations (S (totalViolations s)) s in
      let s :=
        if isAttentionMessage message
        then set_attentionViolations (S (attentionViolations s)) s
        else s in
      let s := saveViolationFrame message now s in
      set_external
        (external s ++
           [onViolationUpdate (totalViolations s) (attentionViolations s)]) s
    else s in
  let s := set_external (external s ++ [onLogEvent ev]) s in
  addToSessionLog (event type message) now s.

(** ** Attention analysis *)

(** [h[h.length - 1]] when [h] is not empty, [dflt] otherwise. *)
Definition lastOr (h : list Q) (dflt : Q) : Q := last h dflt.

(** [push] followed by the bounded [shift]. *)
Definition pushHistory (h : list Q) (v : Q) : list Q :=
  let h := h ++ [v] in
  if (CONFIG.ATTENTION.HISTORY_SIZE <? List.length h)%nat then tl h else h.

Definition ema (alpha sample previous : Q) : Q :=
  alpha * sample + (1 - alpha) * previous.

Definition analyzeAttention (landmarks : Landmarks) (s : ProctoringSystem)
  : AttentionState * ProctoringSystem :=
  let noseTip := lm1 landmarks in
  let leftEye := lm33 landmarks in
  let rightEye := lm263 landmarks in
  let eyeCenter := GeometryUtils.calculateEyeCenter leftEye rightEye in
  let angles := GeometryUtils.calculateHeadAngles noseTip eyeCenter in
  let yawDeviation := Qabs (yaw angles - baselineYaw s) in
  let pitchDeviation := Qabs (pitch angles - baselinePitch s) in
  let lastYaw := lastOr (yawHistory s) yawDeviation in
  let lastPitch := lastOr (pitchHistory s) pitchDeviation in
  let smoothedYaw := ema CONFIG.STABILIZATION.EMA_ALPHA yawDeviation lastYaw in
  let smoothedPitch :=
    ema CONFIG.STABILIZATION.EMA_ALPHA pitchDeviation lastPitch in
  let s := set_yawHistory (pushHistory (yawHistory s) smoothedYaw) s in
  let s := set_pitchHistory (pushHistory (pitchHistory s) smoothedPitch) s in
  let yawThreshold :=
    Qmax CONFIG.ATTENTION.YAW_THRESHOLD_BASE
      (baselineYaw s * CONFIG.ATTENTION.YAW_THRESHOLD_MULTIPLIER
       + CONFIG.ATTENTION.YAW_THRESHOLD_OFFSET) in
  let pitchThreshold :=
    Qmax CONFIG.ATTENTION.PITCH_THRESHOLD_BASE
      (baselinePitch s * CONFIG.ATTENTION.PITCH_THRESHOLD_MULTIPLIER
       + CONFIG.ATTENTION.PITCH_THRESHOLD_OFFSET) in
  (if Qgtb smoothedYaw yawThreshold || Qgtb smoothedPitch pitchThreshold
   then distracted else focused, s).

Definition analyzeGaze (landmarks : Landmarks) (s : ProctoringSystem)
  : AttentionState * ProctoringSystem :=
  match lm468 landmarks, lm473 landmarks with
  | Some leftIris, Some rightIris =>
      let leftGaze :=
        GeometryUtils.calculateGaze leftIris (lm133 landmarks)
          (lm33 landmarks) in
      let rightGaze :=
        GeometryUtils.calculateGaze rightIris (lm362 landmarks)
          (lm263 landmarks) in
      match leftGaze, rightGaze with
      | Some leftGaze, Some rightGaze =>
          let avgGaze := (leftGaze + rightGaze) / 2 in
          let gazeDeviation := Qabs (avgGaze - baselineGaze s) in
          let lastGaze := lastOr (gazeHistory s) gazeDeviation in
          let smoothedGaze :=
            ema CONFIG.STABILIZATION.EMA_ALPHA gazeDeviation lastGaze in
          let s :=
            set_gazeHistory (pushHistory (gazeHistory s) smoothedGaze) s in
          let gazeThreshold :=
            Qmax CONFIG.GAZE.THRESHOLD_BASE
              (baselineGaze s * CONFIG.GAZE.THRESHOLD_MULTIPLIER
               + CONFIG.GAZE.THRESHOLD_OFFSET) in
          (if Qgtb smoothedGaze gazeThreshold then distracted else focused, s)
      | _, _ => (focused, s)
      end
  | _, _ => (focused, s)
  end.

(** ** Calibration *)

(** The combined gaze sample of a frame, when both eyes give one. *)
Definition avgGazeOf (landmarks : Landmarks) : option Q :=
  match lm468 landmarks, lm473 landmarks with
  | Some leftIris, Some rightIris =>
      match GeometryUtils.calculateGaze leftIris (lm133 landmarks)
              (lm33 landmarks),
            GeometryUtils.calculateGaze rightIris (lm362 landmarks)
              (lm263 landmarks) with
      | Some leftGaze, Some rightGaze => Some ((leftGaze + rightGaze) / 2)
      | _, _ => None
      end
  | _, _ => None
  end.

Definition headAnglesOf (landmarks : Landmarks) : HeadAngles :=
  GeometryUtils.calculateHeadAngles (lm1 landmarks)
    (GeometryUtils.calculateEyeCenter (lm33 landmarks) (lm263 landmarks)).

Definition calibrateBaseline (landmarks : Landmarks) (s : ProctoringSystem)
  : ProctoringSystem :=
  let angles := headAnglesOf landmarks in
  let s :=
    match avgGazeOf landmarks with
    | Some avgGaze =>
        set_baselineGaze
          (baselineGaze s * (1 - CONFIG.CALIBRATION.EMA_ALPHA)
           + avgGaze * CONFIG.CALIBRATION.EMA_ALPHA) s
    | None => s
    end in
  let s :=
    set_baselineYaw
      (baselineYaw s * (1 - CONFIG.CALIBRATION.EMA_ALPHA)
       + yaw angles * CONFIG.CALIBRATION.EMA_ALPHA) s in
  set_baselinePitch
    (baselinePitch s * (1 - CONFIG.CALIBRATION.EMA_ALPHA)
     + pitch angles * CONFIG.CALIBRATION.EMA_ALPHA) s.

(** ** Presence *)

Definition resetFaceRecognitionCounters (s : ProctoringSystem)
  : ProctoringSystem :=
  let s := set_unauthorizedCounter 0 s in
  set_authorizedCounter 0 s.

(** [faceCount] is [results.detections.length]. *)
Definition onFaceDetectionResults (faceCount : nat) (now : Z)
  (s : ProctoringSystem) : ProctoringSystem :=
  if negb (isMonitoring s) then s
  else
    let s :=
      if (faceCount =? 0)%nat then
        let s :=
          if negb (lastFaceCount s =? 0)%nat
          then logEvent "No face detected" violation now s
          else s in
        resetFaceRecognitionCounters s
      else if (1 <? faceCount)%nat then
        let s :=
          if (lastFaceCount s <=? 1)%nat
          then logEvent "Multiple faces detected" violation now s
          else s in
        resetFaceRecognitionCounters s
      else
        if negb (lastFaceCount s =? 1)%nat
        then logEvent "Single face detected - OK" info now s
        else s in
    let s :=
      if negb (lastFaceCount s =? faceCount)%nat
      then addToSessionLog
             (face_count_change (lastFaceCount s) faceCount) now s
      else s in
    set_lastFaceCount faceCount s.

(** ** Attention state machine *)

(** Lines 573-617: the stabilised reaction to the two per-frame verdicts. *)
Definition processDistraction (attention gaze : AttentionState) (now : Z)
  (s : ProctoringSystem) : ProctoringSystem :=
  if AttentionState_eqb attention distracted
     || AttentionState_eqb gaze distracted
  then
    let s := set_distractionCounter (S (distractionCounter s)) s in
    let s := set_focusCounter 0 s in
    let s :=
      match distractionStartTime s with
      | None => set_distractionStartTime (Some now) s
      | Some _ => s
      end in
    if (CONFIG.STABILIZATION.THRESHOLD <=? distractionCounter s)%nat then
      let distractionDuration :=
        (now - match distractionStartTime s with
               | Some t => t
               | None => 0
               end)%Z in
      if (CONFIG.ATTENTION.MIN_DISTRACTION_DURATION <=? distractionDuration)%Z
         && negb (AttentionState_eqb (lastAttentionState s) distracted)
      then
        let s := logEvent "Sustained distraction detected" violation now s in
        let s := set_lastAttentionState distracted s in
        addToSessionLog
          (attention_change distracted (Some distractionDuration)
             (Some (if AttentionState_eqb attention distracted
                    then head_movement else gaze_shift))) now s
      else s
    else s
  else
    let s := set_focusCounter (S (focusCounter s)) s in
    let s := set_distractionCounter 0 s in
    let s := set_distractionStartTime None s in
    if (CONFIG.STABILIZATION.THRESHOLD <=? focusCounter s)%nat
       && negb (AttentionState_eqb (lastAttentionState s) focused)
    then
      let s := logEvent "Focus restored" info now s in
      let s := set_lastAttentionState focused s in
      addToSessionLog (attention_change focused None None) now s
    else s.

(** Lines 555-566: the one-off transition from calibration to monitoring. *)
Definition completeCalibration (now : Z) (s : ProctoringSystem)
  : ProctoringSystem :=
  if (calibrationFrames s =? CONFIG.CALIBRATION.MAX_FRAMES)%nat then
    let s :=
      logEvent "Calibration complete - Monitoring attention" info now s in
    let s :=
      addToSessionLog
        (calibration_complete (baselineYaw s) (baselinePitch s)
           (baselineGaze s)) now s in
    set_calibrationFrames (S (calibrationFrames s)) s
  else s.

(** [multiFaceLandmarks] is [results.multiFaceLandmarks]. *)
Definition onFaceMeshResults (multiFaceLandmarks : list Landmarks) (now : Z)
  (s : ProctoringSystem) : ProctoringSystem :=
  if negb (isMonitoring s) then s
  else
    match multiFaceLandmarks with
    | [] => s
    | landmarks :: _ =>
        if (calibrationFrames s <? CONFIG.CALIBRATION.MAX_FRAMES)%nat then
          let s := calibrateBaseline landmarks s in
          set_calibrationFrames (S (calibrationFrames s)) s
        else
          let s := completeCalibration now s in
          let '(attention, s) := analyzeAttention landmarks s in
          let '(gaze, s) := analyzeGaze landmarks s in
          processDistraction attention gaze now s
    end.

(** ** Session life cycle *)

(** [modelsLoaded] tells whether [loadFaceApiModels] resolved. When it
    did, the method ends by entering the tick loop [processVideo]. *)
Definition startMonitoring (modelsLoaded : bool) (now : Z)
  (s : ProctoringSystem) : ProctoringSystem :=
  let s := set_isMonitoring true s in
  let s := set_sessionStartTime (Some now) s in
  let s := set_lastAttentionState attention_unknown s in
  let s := set_lastPersonState person_unknown s in
  let s := set_calibrationFrames 0 s in
  let s := set_distractionCounter 0 s in
  let s := set_focusCounter 0 s in
  let s := set_unauthorizedCounter 0 s in
  let s := set_authorizedCounter 0 s in
  let s := set_sessionEvents [] s in
  let s := set_sessionLogs [] s in
  let s := set_lastFaceRecogTime 0%Z s in
  let s := set_faceRecognitionStarted false s in
  let s := set_violationFrames [] s in
  let s :=
    logEvent "Monitoring session started - Calibrating..." info now s in
  let s := addToSessionLog (session_start (sessionStartTime s)) now s in
  if modelsLoaded then s
  else
    let s :=
      set_external
        (external s ++ [console_error "Failed to load Face-API models:";
                        console_error "Failed to start monitoring:"]) s in
    logEvent "Failed to start monitoring" error now s.

(** The truthiness test [this.sessionStartTime ? ... : 0]. *)
Definition sessionDuration (now : Z) (s : ProctoringSystem) : Z :=
  match sessionStartTime s with
  | Some t => if (t =? 0)%Z then 0%Z else (now - t)%Z
  | None => 0%Z
  end.

Definition stopMonitoring (now : Z) (s : ProctoringSystem)
  : ProctoringSystem :=
  let s := set_isMonitoring false s in
  let s := logEvent "Monitoring session stopped" info now s in
  addToSessionLog
    (session_end (sessionDuration now s) (totalViolations s)
       (attentionViolations s)) now s.

(** ** Identity verification and the tick loop *)

(** What [faceapi.detectSingleFace(...).withFaceDescriptor()] gave. *)
Inductive DetectResult : Type :=
  | DetectionThrows
  | NoDetection
  | Detected (descriptor : Descriptor).

(** What awaiting a MediaPipe [send] gave: the results handed to the
    registered handler, or a rejection. *)
Inductive SendResult (A : Type) : Type :=
  | SendRejects
  | Delivered (results : A).

Arguments SendRejects {A}.

(** The inputs of one turn of [processVideo]. *)
Record Tick : Type := mkTick {
  tick_now : Z;
  tick_detections : SendResult nat;
  tick_mesh : SendResult (list Landmarks);
  tick_face : DetectResult
}.

(** The operations on a [ProctoringSystem]. *)
Inductive Op : Type :=
  | OpStartMonitoring (modelsLoaded : bool) (now : Z)
  | OpStopMonitoring (now : Z)
  | OpProcessVideo (t : Tick)
  | OpFaceDetectionResults (faceCount : nat) (now : Z)
  | OpFaceMeshResults (multiFaceLandmarks : list Landmarks) (now : Z)
  | OpPerformFaceRecognition (detection : DetectResult) (now : Z)
  | OpLogEvent (message : string) (type : Severity) (now : Z)
  | OpToBlobCallback (message : string) (blob : option Blob) (now : Z).

Section Collaborators.

(** [faceapi.euclideanDistance]. *)
Variable euclideanDistance : Descriptor -> Descriptor -> Q.

(** [JSON.parse(stored).map(d => new Float32Array(d))]; [None] when the
    text is not JSON or the parsed value has no [map]. *)
Variable parseDescriptors : string -> option (list Descriptor).

Definition bestDistanceOf (refs : list Descriptor) (d : Descriptor) : Dist :=
  fold_left
    (fun bestDistance refDescriptor =>
       Dist_min bestDistance (Finite (euclideanDistance refDescriptor d)))
    refs Infinity.

Definition performFaceRecognition (detection : DetectResult) (now : Z)
  (s : ProctoringSystem) : ProctoringSystem :=
  if (lastFaceCount s =? 0)%nat || (1 <? lastFaceCount s)%nat
  then resetFaceRecognitionCounters s
  else
    let caught (s : ProctoringSystem) :=
      resetFaceRecognitionCounters
        (set_external
           (external s ++ [console_error "Face recognition error:"]) s) in
    match detection with
    | DetectionThrows => caught s
    | NoDetection => resetFaceRecognitionCounters s
    | Detected descriptor =>
        match enrolledDescriptors s with
        | None => caught s
        | Some refs =>
            let bestDistance := bestDistanceOf refs descriptor in
            if Dist_gtb bestDistance CONFIG.FACE_RECOGNITION.THRESHOLD then
              let s :=
                set_unauthorizedCounter (S (unauthorizedCounter s)) s in
              let s := set_authorizedCounter 0 s in
              if (CONFIG.STABILIZATION.THRESHOLD <=? unauthorizedCounter s)%nat
                 && negb (PersonState_eqb (lastPersonState s) unauthorized)
              then
                let s :=
                  logEvent
                    ("Wrong person detected (distance: "
                     ++ toFixed3 bestDistance ++ ")")
                    violation now s in
                let s := set_lastPersonState unauthorized s in
                addToSessionLog
                  (face_recognition unauthorized bestDistance
                     CONFIG.FACE_RECOGNITION.THRESHOLD) now s
              else s
            else
              let s := set_authorizedCounter (S (authorizedCounter s)) s in
              let s := set_unauthorizedCounter 0 s in
              if (CONFIG.STABILIZATION.THRESHOLD <=? authorizedCounter s)%nat
                 && negb (PersonState_eqb (lastPersonState s) authorized)
              then
                let s :=
                  logEvent
                    ("Authorized person verified (distance: "
                     ++ toFixed3 bestDistance ++ ")")
                    info now s in
                let s := set_lastPersonState authorized s in
                addToSessionLog
                  (face_recognition authorized bestDistance
                     CONFIG.FACE_RECOGNITION.THRESHOLD) now s
              else s
        end
    end.

(** The test of [processVideo] that lets face recognition run. *)
Definition shouldRunRecognition (now : Z) (s : ProctoringSystem) : bool :=
  match enrolledDescriptors s with
  | Some (_ :: _) =>
      let started :=
        match sessionStartTime s with Some t => t | None => 0%Z end in
      let shouldRunInitial :=
        negb (faceRecognitionStarted s)
        && (CONFIG.FACE_RECOGNITION.INITIAL_DELAY_MS <=? now - started)%Z in
      let shouldRunPeriodic :=
        faceRecognitionStarted s
        && (CONFIG.FACE_RECOGNITION.INTERVAL_MS
            <=? now - lastFaceRecogTime s)%Z in
      shouldRunInitial || shouldRunPeriodic
  | _ => false
  end.

(** One turn of [processVideo]; the next turn is the next [Tick]. *)
Definition processVideo (t : Tick) (s : ProctoringSystem)
  : ProctoringSystem :=
  if negb (isMonitoring s) then s
  else
    let caught (s : ProctoringSystem) :=
      set_external
        (external s ++ [console_error "Error processing video frame:"]) s in
    match tick_detections t with
    | SendRejects => caught s
    | Delivered faceCount =>
        let s := onFaceDetectionResults faceCount (tick_now t) s in
        match tick_mesh t with
        | SendRejects => caught s
        | Delivered multiFaceLandmarks =>
            let s := onFaceMeshResults multiFaceLandmarks (tick_now t) s in
            let now := tick_now t in
            if shouldRunRecognition now s then
              let s := set_lastFaceRecogTime now s in
              let s := set_faceRecognitionStarted true s in
              performFaceRecognition (tick_face t) now s
            else s
        end
    end.

(** [localStorage.getItem] gives [None] for a missing key; the empty
    string is falsy as well. *)
Definition loadEnrolledFace (stored : option string) (now : Z)
  (s : ProctoringSystem) : ProctoringSystem :=
  match stored with
  | Some (String c rest) =>
      match parseDescriptors (String c rest) with
      | Some descriptors => set_enrolledDescriptors (Some descriptors) s
      | None =>
          set_external
            (external s ++ [console_error "Error loading enrolled face:"]) s
      end
  | _ => logEvent "No enrolled face found. Please enroll first." error now s
  end.

(** The object as the constructor leaves it, given the content of the
    storage key [enrolledDescriptors]. *)
Definition fresh : ProctoringSystem :=
  {| isMonitoring := false;
     enrolledDescriptors := None;
     sessionStartTime := None;
     totalViolations := 0;
     attentionViolations := 0;
     sessionEvents := [];
     sessionLogs := [];
     lastFaceCount := 0;
     lastAttentionState := attention_unknown;
     lastPersonState := person_unknown;
     yawHistory := [];
     pitchHistory := [];
     gazeHistory := [];
     distractionCounter := 0;
     focusCounter := 0;
     unauthorizedCounter := 0;
     authorizedCounter := 0;
     lastViolationFrameSave := 0;
     lastFaceRecogTime := 0;
     faceRecognitionStarted := false;
     calibrationFrames := 0;
     baselineYaw := 0;
     baselinePitch := 0;
     baselineGaze := 0;
     distractionStartTime := None;
     violationFrames := [];
     external := [] |}.

Definition constructor (stored : option string) (now : Z)
  : ProctoringSystem :=
  loadEnrolledFace stored now fresh.

Definition step (o : Op) (s : ProctoringSystem) : ProctoringSystem :=
  match o with
  | OpStartMonitoring modelsLoaded now => startMonitoring modelsLoaded now s
  | OpStopMonitoring now => stopMonitoring now s
  | OpProcessVideo t => processVideo t s
  | OpFaceDetectionResults faceCount now =>
      onFaceDetectionResults faceCount now s
  | OpFaceMeshResults multiFaceLandmarks now =>
      onFaceMeshResults multiFaceLandmarks now s
  | OpPerformFaceRecognition detection now =>
      performFaceRecognition detection now s
  | OpLogEvent message type now => logEvent message type now s
  | OpToBlobCallback message blob now => toBlobCallback message blob now s
  end.

(** Running a sequence of operations, oldest first. *)
Definition run (ops : list Op) (s : ProctoringSystem) : ProctoringSystem :=
  fold_left (fun s o => step o s) ops s.

(** The states an object can be in. *)
Inductive reachable : ProctoringSystem -> Prop :=
  | reachable_constructor stored now :
      reachable (constructor stored now)
  | reachable_step o s :
      reachable s -> reachable (step o s).

End Collaborators.

(** ** Disposal.
    [dispose] stops the session, closes the two detectors, removes the
    canvas and empties [violationFrames]. The detectors and the canvas are
    not fields of the record; of the fields it holds, the method changes
    what [stopMonitoring] changes and [violationFrames]. It ends the use
    of the object: it is not one of the operations of [Op], and what a
    disposed object does on a later call is not modelled. *)

Definition dispose (now : Z) (s : ProctoringSystem) : ProctoringSystem :=
  set_violationFrames [] (stopMonitoring now s).

(** ** Downloads.
    The two download methods read the object and change none of its
    fields. [JSZip], [JSON.stringify] and the anchor element are library
    code: of [downloadViolationFrames] the model keeps the calls of
    [zip.file], in order, and of [downloadSessionLogs] the summary object
    that is serialised. Strings are sequences of code units; the messages
    the class produces are ASCII. *)

Close Scope Q_scope.

(** The character class [[a-zA-Z0-9]]. *)
Definition isAlphanumeric (c : ascii) : bool :=
  let n := nat_of_ascii c in
  ((97 <=? n) && (n <=? 122)) || ((65 <=? n) && (n <=? 90))
  || ((48 <=? n) && (n <=? 57)).

(** [message.replace(/[^a-zA-Z0-9]/g, '_')]. *)
Fixpoint sanitize (message : string) : string :=
  match message with
  | EmptyString => EmptyString
  | String c rest =>
      String (if isAlphanumeric c then c else "_"%char) (sanitize rest)
  end.

(** [text.replace(/[:.]/g, '-')]. *)
Fixpoint dashed (text : string) : string :=
  match text with
  | EmptyString => EmptyString
  | String c rest =>
      String (if Ascii.eqb c ":" || Ascii.eqb c "." then "-"%char else c)
        (dashed rest)
  end.

Section Downloads.

(** [Date.prototype.toISOString] on a clock reading. *)
Variable toISOString : Z -> string.

(** The [timestamp] that the capture callback stores with a frame. *)
Definition frameStamp (f : ViolationFrame) : string :=
  dashed (toISOString (vf_timestamp f)).

Definition violationFileName (f : ViolationFrame) : string :=
  ("violation_" ++ sanitize (vf_message f) ++ "_" ++ frameStamp f ++ ".png")
    %string.

(** The calls [zip.file(filename, frame.blob)], or [None] when the method
    returns before creating the archive. *)
Definition downloadViolationFrames (s : ProctoringSystem)
  : option (list (string * Blob)) :=
  match violationFrames s with
  | [] => None
  | frames => Some (map (fun f => (violationFileName f, vf_blob f)) frames)
  end.

End Downloads.

(** The object that [downloadSessionLogs] serialises; [configuration] is
    the constant [CONFIG]. The two times are kept as clock readings:
    [new Date(null)] is the epoch. *)
Record SessionSummary : Type := mkSessionSummary {
  summary_session_id : option Z;
  summary_start_time : Z;
  summary_end_time : Z;
  summary_duration_ms : Z;
  summary_total_violations : nat;
  summary_attention_violations : nat;
  summary_total_events : nat;
  summary_baseline_yaw : Q;
  summary_baseline_pitch : Q;
  summary_baseline_gaze : Q;
  summary_events : list LogEntry
}.

Definition downloadSessionLogs (now : Z) (s : ProctoringSystem)
  : option SessionSummary :=
  match sessionLogs s with
  | [] => None
  | _ :: _ =>
      Some {| summary_session_id := sessionStartTime s;
              summary_start_time :=
                match sessionStartTime s with Some t => t | None => 0%Z end;
              summary_end_time := now;
              summary_duration_ms := sessionDuration now s;
              summary_total_violations := totalViolations s;
              summary_attention_violations := attentionViolations s;
              summary_total_events := List.length (sessionEvents s);
              summary_baseline_yaw := baselineYaw s;
              summary_baseline_pitch := baselinePitch s;
              summary_baseline_gaze := baselineGaze s;
              summary_events := sessionLogs s |}
  end.

(** ** The monitoring widget.
    The component [CornerWebcam] builds the [ProctoringSystem] and gives it
    its two callbacks; [deliver] is what a call out of the object does to
    the state of the component. The component keeps that state for as
    long as the page lives: after Stop it builds a new object, within a
    second, and hands it the same callbacks. *)

Module CornerWebcam.

Record Widget : Type := mkWidget {
  events : list Event;
  violations : nat * nat;
  sessionTime : string
}.

(** The initial values of the three [useState] hooks. *)
Definition initial : Widget :=
  {| events := []; violations := (0, 0); sessionTime := "00:00" |}.

(** [l.slice(-n)]: the last [n] elements, all of them when there are
    fewer. *)
Definition sliceLast (A : Type) (n : nat) (l : list A) : list A :=
  skipn (List.length l - n) l.

(** [setEvents(prev => [...prev.slice(-9), event])]. *)
Definition setEvents (event : Event) (w : Widget) : Widget :=
  {| events := sliceLast 9 (events w) ++ [event];
     violations := violations w;
     sessionTime := sessionTime w |}.

(** [setViolations({ total, attention })]. *)
Definition setViolations (total attention : nat) (w : Widget) : Widget :=
  {| events := events w;
     violations := (total, attention);
     sessionTime := sessionTime w |}.

Definition deliver (w : Widget) (c : ExternalCall) : Widget :=
  match c with
  | onLogEvent e => setEvents e w
  | onViolationUpdate total attention => setViolations total attention w
  | canvas_toBlob _ => w
  | console_error _ => w
  end.

(** [Number.prototype.toString] on an integer. *)
Definition numberToString (n : Z) : string :=
  if (n <? 0)%Z then ("-" ++ decimal (Z.to_nat (- n)))%string
  else decimal (Z.to_nat n).

(** [text.padStart(2, '0')]. *)
Definition padStart2 (text : string) : string :=
  match String.length text with
  | 0 => "00"%string
  | 1 => ("0" ++ text)%string
  | _ => text
  end.

(** The text of the session clock; [%] is the remainder that takes the
    sign of the dividend. *)
Definition formatSessionTime (elapsed : Z) : string :=
  let minutes := (elapsed / 60000)%Z in
  let seconds := (Z.rem elapsed 60000 / 1000)%Z in
  (padStart2 (numberToString minutes) ++ ":"
   ++ padStart2 (numberToString seconds))%string.

(** One firing of the one-second timer. *)
Definition onTimer (now : Z) (s : ProctoringSystem) (w : Widget) : Widget :=
  match sessionStartTime s with
  | Some t =>
      if (t =? 0)%Z then w
      else {| events := events w;
              violations := violations w;
              sessionTime := formatSessionTime (now - t) |}
  | None => w
  end.

End CornerWebcam.

(** ** The enrolment page.
    The state [images] of the component [EnrollmentPage] and its
    handlers; a handler runs against the state the page was last rendered
    with. *)

Module EnrollmentPage.

(** A screenshot, as a data URL. *)
Definition Image : Type := string.

(** [webcamRef.current.getScreenshot()] when there is a webcam;
    [None] stands for no webcam and for [null]. The empty string is falsy
    as well. *)
Definition captureImage (imageSrc : option Image) (images : list Image)
  : list Image :=
  match imageSrc with
  | Some (String c rest) =>
      if List.length images <? 3 then images ++ [String c rest] else images
  | _ => images
  end.

(** [l.filter((_, i) => keep(i))], from position [i]. *)
Fixpoint filterIndex (A : Type) (keep : nat -> bool) (i : nat) (l : list A)
  : list A :=
  match l with
  | [] => []
  | a :: rest =>
      if keep i then a :: filterIndex keep (S i) rest
      else filterIndex keep (S i) rest
  end.

Definition retakeImage (index : nat) (images : list Image) : list Image :=
  filterIndex (fun i => negb (i =? index)) 0 images.

Definition clearAll (images : list Image) : list Image := [].

(** What loading one image and detecting a face in it gave. *)
Inductive ImageOutcome : Type :=
  | Throws
  | NoFace
  | Face (descriptor : Descriptor).

(** How [proceed] ended. *)
Inductive Enrolment : Type :=
  | NotReady
  | Stored (descriptors : list Descriptor) (descriptorCount totalImages : nat)
  | NoFacesDetected
  | EnrolmentError.

(** The loop over the images; [None] when an await rejects. *)
Fixpoint collect (outcomes : list ImageOutcome) (descriptors : list Descriptor)
  : option (list Descriptor) :=
  match outcomes with
  | [] => Some descriptors
  | Throws :: _ => None
  | NoFace :: rest => collect rest descriptors
  | Face d :: rest => collect rest (descriptors ++ [d])
  end.

Definition proceed (modelsLoaded : bool) (analyse : Image -> ImageOutcome)
  (images : list Image) : Enrolment :=
  if (List.length images <? 3) || negb modelsLoaded then NotReady
  else
    match collect (map analyse images) [] with
    | None => EnrolmentError
    | Some descriptors =>
        if 0 <? List.length descriptors
        then Stored descriptors (List.length descriptors) (List.length images)
        else NoFacesDetected
    end.

(** The actions of the page on its images. *)
Inductive Action : Type :=
  | Capture (imageSrc : option Image)
  | Retake (index : nat)
  | ClearAll.

Definition act (images : list Image) (a : Action) : list Image :=
  match a with
  | Capture imageSrc => captureImage imageSrc images
  | Retake index => retakeImage index images
  | ClearAll => clearAll images
  end.

End EnrollmentPage.

(** ** The calibration update on IEEE doubles.
    The record above keeps its measurements as exact rationals. Here the
    arithmetic of [GeometryUtils] and of [calibrateBaseline] is written
    once more on binary64 floats, the numbers the JavaScript code computes
    with: the three baseline fields are the only fields the method reads
    or writes. *)

Module Doubles.

Import PrimFloat.
Local Open Scope float_scope.
Local Set Warnings "-inexact-float".

Record Point : Type := mkPoint { x : float; y : float }.

Record Landmarks : Type := mkLandmarks {
  lm1 : Point;
  lm33 : Point;
  lm133 : Point;
  lm263 : Point;
  lm362 : Point;
  lm468 : option Point;
  lm473 : option Point
}.

Record HeadAngles : Type := mkHeadAngles { yaw : float; pitch : float }.

(** [CONFIG.CALIBRATION.EMA_ALPHA] and [CONFIG.GAZE.MIN_EYE_WIDTH]: the
    doubles nearest to the decimal literals. *)
Definition EMA_ALPHA : float := 0.1.
Definition MIN_EYE_WIDTH : float := 0.01.

Definition calculateEyeCenter (leftEye rightEye : Point) : Point :=
  {| x := (x leftEye + x rightEye) / 2;
     y := (y leftEye + y rightEye) / 2 |}.

Definition calculateHeadAngles (noseTip eyeCenter : Point) : HeadAngles :=
  {| yaw := x noseTip - x eyeCenter;
     pitch := y noseTip - y eyeCenter |}.

Definition calculateGaze (iris eyeInner eyeOuter : Point) : option float :=
  let eyeWidth := abs (x eyeInner - x eyeOuter) in
  if eyeWidth <? MIN_EYE_WIDTH then None
  else Some ((x iris - x eyeOuter) / eyeWidth).

(** The three baseline fields of the object. *)
Record Baseline : Type := mkBaseline {
  baselineYaw : float;
  baselinePitch : float;
  baselineGaze : float
}.

Definition calibrateBaseline (landmarks : Landmarks) (b : Baseline)
  : Baseline :=
  let noseTip := lm1 landmarks in
  let leftEye := lm33 landmarks in
  let rightEye := lm263 landmarks in
  let eyeCenter := calculateEyeCenter leftEye rightEye in
  let angles := calculateHeadAngles noseTip eyeCenter in
  let gaze :=
    match lm468 landmarks, lm473 landmarks with
    | Some leftIris, Some rightIris =>
        match calculateGaze leftIris (lm133 landmarks) (lm33 landmarks),
              calculateGaze rightIris (lm362 landmarks) (lm263 landmarks) with
        | Some leftGaze, Some rightGaze =>
            let avgGaze := (leftGaze + rightGaze) / 2 in
            baselineGaze b * (1 - EMA_ALPHA) + avgGaze * EMA_ALPHA
        | _, _ => baselineGaze b
        end
    | _, _ => baselineGaze b
    end in
  {| baselineYaw := baselineYaw b * (1 - EMA_ALPHA) + yaw angles * EMA_ALPHA;
     baselinePitch :=
       baselinePitch b * (1 - EMA_ALPHA) + pitch angles * EMA_ALPHA;
     baselineGaze := gaze |}.


(** The same quantities as the specification words them (see [specYaw]
    and its companions below, on the rationals). *)
Definition specYaw (landmarks : Landmarks) : float :=
  x (lm1 landmarks) - (x (lm33 landmarks) + x (lm263 landmarks)) / 2.

Definition specPitch (landmarks : Landmarks) : float :=
  y (lm1 landmarks) - (y (lm33 landmarks) + y (lm263 landmarks)) / 2.

Definition specGaze (landmarks : Landmarks) : option float :=
  match lm468 landmarks, lm473 landmarks with
  | Some leftIris, Some rightIris =>
      let leftWidth := abs (x (lm133 landmarks) - x (lm33 landmarks)) in
      let rightWidth := abs (x (lm362 landmarks) - x (lm263 landmarks)) in
      if leftWidth <? 0.01 then None
      else if rightWidth <? 0.01 then None
      else Some (((x leftIris - x (lm33 landmarks)) / leftWidth
                  + (x rightIris - x (lm263 landmarks)) / rightWidth) / 2)
  | _, _ => None
  end.

Definition specUpdate (baseline raw : float) : float :=
  baseline * (1 - 0.1) + raw * 0.1.

Definition specGazes (frames : list Landmarks) : list float :=
  flat_map
    (fun landmarks =>
       match specGaze landmarks with
       | Some g => [g]
       | None => []
       end) frames.

(** The rational a double stands for; [None] for NaN and the
    infinities. *)
Definition exact (f : float) : option Q :=
  match FloatOps.Prim2SF f with
  | SpecFloat.S754_zero _ => Some 0%Q
  | SpecFloat.S754_finite negative mantissa exponent =>
      Some (inject_Z (if negative then Z.neg mantissa else Z.pos mantissa)
            * Qpower 2 exponent)%Q
  | _ => None
  end.


(** A face looking straight at the camera, without iris landmarks. *)
Definition centred : Landmarks :=
  {| lm1 := mkPoint 0.5 0.5;
     lm33 := mkPoint 0.4 0.4;
     lm133 := mkPoint 0.45 0.4;
     lm263 := mkPoint 0.6 0.4;
     lm362 := mkPoint 0.55 0.4;
     lm468 := None;
     lm473 := None |}.


End Doubles.

(** * Vocabulary of the properties *)

Close Scope Q_scope.

(** ** The field-wise form of [logEvent] (vocabulary) *)

(** Whether a violation at [now] passes the capture throttle. *)
Definition captureAccepted (now : Z) (s : ProctoringSystem) : bool :=
  negb (now - lastViolationFrameSave s
        <? CONFIG.FRAME_CAPTURE.SAVE_INTERVAL)%Z.

(** ** Frame-capture throttling (vocabulary) *)

Definition isCaptureRequest (c : ExternalCall) : bool :=
  match c with canvas_toBlob _ => true | _ => false end.

(** The number of frame captures the object has asked the canvas for. *)
Definition captureRequests (s : ProctoringSystem) : nat :=
  List.length (filter isCaptureRequest (external s)).

(** ** The violation counters never cross (vocabulary) *)

(** How the two counters may move in one operation: neither goes down,
    and the attention counter rises by no more than the total. *)
Definition countersStep (s s' : ProctoringSystem) : Prop :=
  totalViolations s <= totalViolations s' /\
  attentionViolations s <= attentionViolations s' /\
  attentionViolations s' + totalViolations s
  <= totalViolations s' + attentionViolations s.

(** ** Concrete collaborators and frames (vocabulary) *)

(** A computable distance between descriptors (sum of the absolute
    differences). *)
Fixpoint l1Distance (a b : Descriptor) : Q :=
  match a, b with
  | p :: a', q :: b' => (Qabs (p - q) + l1Distance a' b')%Q
  | _, _ => 0%Q
  end.

(** A decoder that knows two stored texts: the empty array and one
    enrolled descriptor; it rejects everything else, as [JSON.parse]
    rejects an unterminated text. *)
Definition decodeSample (stored : string) : option (list Descriptor) :=
  if String.eqb stored "[]" then Some []
  else if String.eqb stored "[[0,0]]" then Some [[0%Q; 0%Q]]
  else None.

(** A face looking straight at the camera, without iris landmarks. *)
Definition centred : Landmarks :=
  {| lm1 := mkPoint 0.5 0.5;
     lm33 := mkPoint 0.4 0.4;
     lm133 := mkPoint 0.45 0.4;
     lm263 := mkPoint 0.6 0.4;
     lm362 := mkPoint 0.55 0.4;
     lm468 := None;
     lm473 := None |}.

(** The same face with the nose far to one side. *)
Definition turned : Landmarks :=
  {| lm1 := mkPoint 0.9 0.5;
     lm33 := mkPoint 0.4 0.4;
     lm133 := mkPoint 0.45 0.4;
     lm263 := mkPoint 0.6 0.4;
     lm362 := mkPoint 0.55 0.4;
     lm468 := None;
     lm473 := None |}.

(** ** What [startMonitoring] resets (vocabulary) *)

(** A first session on a new object: 45 calibration frames, one frame
    with the head turned, a second face entering, then stop. *)
Definition firstSession : list Op :=
  [OpStartMonitoring true 1000]
  ++ repeat (OpFaceMeshResults [centred] 2000) 45
  ++ [OpFaceMeshResults [turned] 5000;
      OpFaceDetectionResults 2 6000;
      OpStopMonitoring 7000].

Definition afterFirstSession : ProctoringSystem :=
  run l1Distance firstSession (constructor decodeSample None 0).

(** ** Presence transitions (vocabulary) *)

(** Feeding face counts, each with the clock reading of its frame, to the
    presence handler. *)
Definition feedFaceCounts (frames : list (nat * Z)) (s : ProctoringSystem)
  : ProctoringSystem :=
  fold_left (fun s f => onFaceDetectionResults (fst f) (snd f) s) frames s.

(** The [face_count_change] entries of a log, as (previous, current). *)
Definition faceCountChanges (logs : list LogEntry) : list (nat * nat) :=
  flat_map
    (fun e =>
       match body e with
       | face_count_change previous current => [(previous, current)]
       | _ => []
       end) logs.

(** The event that a frame with [faceCount] faces raises after a frame
    with [previous] faces. *)
Definition presenceEvents (previous faceCount : nat) (now : Z) : list Event :=
  if faceCount =? 0 then
    if negb (previous =? 0)
    then [mkEvent now "No face detected" violation] else []
  else if 1 <? faceCount then
    if previous <=? 1
    then [mkEvent now "Multiple faces detected" violation] else []
  else
    if negb (previous =? 1)
    then [mkEvent now "Single face detected - OK" info] else [].

(** The transitions the sequence [1,1,0,0,1,2,1] is said to raise: the
    four messages, at the third, fifth, sixth and seventh frame, and four
    [face_count_change] entries. *)
Definition presenceScenario (s : ProctoringSystem)
  (t1 t2 t3 t4 t5 t6 t7 : Z) : Prop :=
  let s' :=
    feedFaceCounts
      [(1, t1); (1, t2); (0, t3); (0, t4); (1, t5); (2, t6); (1, t7)] s in
  skipn (List.length (sessionEvents s)) (sessionEvents s') =
    [mkEvent t3 "No face detected" violation;
     mkEvent t5 "Single face detected - OK" info;
     mkEvent t6 "Multiple faces detected" violation;
     mkEvent t7 "Single face detected - OK" info] /\
  skipn (List.length (faceCountChanges (sessionLogs s)))
    (faceCountChanges (sessionLogs s')) =
    [(1, 0); (0, 1); (1, 2); (2, 1)].

(** The events and the count changes of a whole sequence of frames,
    from the count seen before it. *)
Fixpoint presenceTrace (previous : nat) (frames : list (nat * Z))
  : list Event :=
  match frames with
  | [] => []
  | (faceCount, now) :: rest =>
      presenceEvents previous faceCount now ++ presenceTrace faceCount rest
  end.

Fixpoint changeTrace (previous : nat) (frames : list (nat * Z))
  : list (nat * nat) :=
  match frames with
  | [] => []
  | (faceCount, _) :: rest =>
      (if previous =? faceCount then [] else [(previous, faceCount)])
      ++ changeTrace faceCount rest
  end.

(** A monitoring system on which no face has been seen yet: the state
    right after the constructor and [startMonitoring]. *)
Definition freshlyStarted : ProctoringSystem :=
  startMonitoring true 1000 (constructor decodeSample None 0).

(** The same system once a frame with one face has been seen. *)
Definition watchingOneFace : ProctoringSystem :=
  onFaceDetectionResults 1 1500 freshlyStarted.

(** ** Enrolled descriptors that cannot be decoded (vocabulary) *)

(** The enrolled descriptors are written by the constructor only. *)
Definition keepsEnrolled (s s' : ProctoringSystem) : Prop :=
  enrolledDescriptors s' = enrolledDescriptors s.

(** The same tick with another outcome of the face detection that
    recognition would use. *)
Definition withFace (t : Tick) (face : DetectResult) : Tick :=
  {| tick_now := tick_now t;
     tick_detections := tick_detections t;
     tick_mesh := tick_mesh t;
     tick_face := face |}.

(** An [error] event is in the event list. *)
Definition errorEventLogged (s : ProctoringSystem) : Prop :=
  exists e, In e (sessionEvents s) /\ ev_type e = error.

(** ** Identity verification (vocabulary) *)







(** A monitoring system with one enrolled descriptor and one face in
    view. *)
Definition enrolledWatching : ProctoringSystem :=
  run l1Distance
    [OpStartMonitoring true 1000; OpFaceDetectionResults 1 1100]
    (constructor decodeSample (Some "[[0,0]]"%string) 0).

(** ** Calibration (vocabulary) *)

(** A mesh result with at least one face: the landmarks of the first
    face, the other faces, and the clock reading. *)
Record MeshFrame : Type := mkMeshFrame {
  frame_landmarks : Landmarks;
  frame_others : list Landmarks;
  frame_now : Z
}.

Definition feedMesh (frames : list MeshFrame) (s : ProctoringSystem)
  : ProctoringSystem :=
  fold_left
    (fun s f =>
       onFaceMeshResults (frame_landmarks f :: frame_others f)
         (frame_now f) s)
    frames s.

Definition rawYaw (f : MeshFrame) : Q := yaw (headAnglesOf (frame_landmarks f)).
Definition rawPitch (f : MeshFrame) : Q :=
  pitch (headAnglesOf (frame_landmarks f)).

(** The quantities of calibration as the specification words them, on
    the landmark coordinates: the head pose against the midpoint of the
    outer eye corners, the gaze ratio of an eye, undefined below an eye
    width of 0.01, the mean of the two ratios, undefined if either is, and
    the update of a baseline by a raw sample. *)
Definition specYaw (landmarks : Landmarks) : Q :=
  (x (lm1 landmarks) - (x (lm33 landmarks) + x (lm263 landmarks)) / 2)%Q.

Definition specPitch (landmarks : Landmarks) : Q :=
  (y (lm1 landmarks) - (y (lm33 landmarks) + y (lm263 landmarks)) / 2)%Q.

Definition specGaze (landmarks : Landmarks) : option Q :=
  match lm468 landmarks, lm473 landmarks with
  | Some leftIris, Some rightIris =>
      let leftWidth := Qabs (x (lm133 landmarks) - x (lm33 landmarks)) in
      let rightWidth := Qabs (x (lm362 landmarks) - x (lm263 landmarks)) in
      if Qltb leftWidth 0.01 || Qltb rightWidth 0.01 then None
      else Some (((x leftIris - x (lm33 landmarks)) / leftWidth
                  + (x rightIris - x (lm263 landmarks)) / rightWidth) / 2)%Q
  | _, _ => None
  end.

Definition specUpdate (baseline raw : Q) : Q :=
  (baseline * (1 - 0.1) + raw * 0.1)%Q.



(** The gaze samples of the frames on which both eyes give a ratio. *)
Definition specGazes (frames : list MeshFrame) : list Q :=
  flat_map
    (fun f =>
       match specGaze (frame_landmarks f) with
       | Some g => [g]
       | None => []
       end) frames.




(** Forty-five frames of the face looking straight ahead. *)
Definition calibrationFramesSample : list MeshFrame :=
  repeat (mkMeshFrame centred [] 2000) 45.



(** ** Views of the state (vocabulary) *)

(** The baseline snapshots carried by [calibration_complete] entries. *)
Definition completions (logs : list LogEntry) : list (Q * Q * Q) :=
  flat_map
    (fun e =>
       match body e with
       | calibration_complete by_ bp bg => [(by_, bp, bg)]
       | _ => []
       end) logs.

(** The [attention_change] entries. *)
Definition attentionChanges (logs : list LogEntry)
  : list (AttentionState * option Z * option Trigger) :=
  flat_map
    (fun e =>
       match body e with
       | attention_change st duration trigger => [(st, duration, trigger)]
       | _ => []
       end) logs.

Definition isSustainedDistraction (e : Event) : bool :=
  String.eqb (ev_message e) "Sustained distraction detected".

Definition isFocusRestored (e : Event) : bool :=
  String.eqb (ev_message e) "Focus restored".

(** The events raised by the attention state machine. *)
Definition machineEvents (events : list Event) : list Event :=
  filter (fun e => isSustainedDistraction e || isFocusRestored e) events.

Definition calibrationView (s : ProctoringSystem) :=
  (calibrationFrames s, baselineYaw s, baselinePitch s, baselineGaze s,
   completions (sessionLogs s)).

Definition attentionView (s : ProctoringSystem) :=
  (yawHistory s, pitchHistory s, gazeHistory s, distractionCounter s,
   focusCounter s, lastAttentionState s, distractionStartTime s,
   attentionChanges (sessionLogs s), machineEvents (sessionEvents s)).

(** A piece that stays away from both sides. *)
Definition bystander (s s' : ProctoringSystem) : Prop :=
  calibrationView s' = calibrationView s /\
  attentionView s' = attentionView s.

(** ** The attention state machine, frame by frame (vocabulary) *)

(** The two per-frame verdicts (head pose, gaze) on a frame, and the
    state once both analyses have pushed their smoothed values. *)
Definition verdictOf (landmarks : Landmarks) (s : ProctoringSystem)
  : AttentionState * AttentionState :=
  (fst (analyzeAttention landmarks s),
   fst (analyzeGaze landmarks (snd (analyzeAttention landmarks s)))).

Definition afterAnalysis (landmarks : Landmarks) (s : ProctoringSystem)
  : ProctoringSystem :=
  snd (analyzeGaze landmarks (snd (analyzeAttention landmarks s))).

(** The frame is Distracted when either verdict is. *)
Definition perFrameDistracted (landmarks : Landmarks) (s : ProctoringSystem)
  : bool :=
  AttentionState_eqb (fst (verdictOf landmarks s)) distracted
  || AttentionState_eqb (snd (verdictOf landmarks s)) distracted.

(** The stored [distractionStartTime], or [now] when none is stored. *)
Definition episodeStart (now : Z) (s : ProctoringSystem) : Z :=
  match distractionStartTime s with
  | Some t => t
  | None => now
  end.

(** The test that confirms a distraction on a Distracted frame. *)
Definition confirmsDistraction (now : Z) (s : ProctoringSystem) : bool :=
  (CONFIG.STABILIZATION.THRESHOLD <=? S (distractionCounter s))
  && (CONFIG.ATTENTION.MIN_DISTRACTION_DURATION <=? now - episodeStart now s)%Z
  && negb (AttentionState_eqb (lastAttentionState s) distracted).

(** The test that confirms focus on a Focused frame. *)
Definition confirmsFocus (s : ProctoringSystem) : bool :=
  (CONFIG.STABILIZATION.THRESHOLD <=? S (focusCounter s))
  && negb (AttentionState_eqb (lastAttentionState s) focused).

Definition sustainedDistraction (now : Z) : Event :=
  mkEvent now "Sustained distraction detected" violation.

Definition focusRestored (now : Z) : Event :=
  mkEvent now "Focus restored" info.

Definition calibrationCompleteEvent (now : Z) : Event :=
  mkEvent now "Calibration complete - Monitoring attention" info.

(** ** Hysteresis over a sequence of frames (vocabulary) *)

(** The verdict and the clock reading of each frame of a sequence, as
    the handler meets them. *)
Fixpoint verdicts (frames : list MeshFrame) (s : ProctoringSystem)
  : list (bool * Z) :=
  match frames with
  | [] => []
  | f :: rest =>
      (perFrameDistracted (frame_landmarks f) s, frame_now f)
      :: verdicts rest (feedMesh [f] s)
  end.

(** The clock readings of the Distracted frames that end a sequence with
    no Focused frame between them: the run that is still open. *)
Definition extendRun (open : list Z) (v : bool * Z) : list Z :=
  if fst v then open ++ [snd v] else [].

Definition openRunFrom (open : list Z) (vs : list (bool * Z)) : list Z :=
  fold_left extendRun vs open.

Definition openRun (vs : list (bool * Z)) : list Z := openRunFrom [] vs.

(** A distraction is confirmed on the frame that takes [s] to [s']. *)
Definition distractionConfirmed (now : Z) (s s' : ProctoringSystem) : Prop :=
  In (sustainedDistraction now)
    (skipn (List.length (sessionEvents s)) (sessionEvents s')) /\
  lastAttentionState s <> distracted /\
  lastAttentionState s' = distracted.

(** The object of [firstSession] in a second session, past the 45
    calibration frames of that session. *)
Definition secondSession : list Op :=
  firstSession
  ++ [OpStartMonitoring true 9000]
  ++ repeat (OpFaceMeshResults [centred] 10000) 45.

Definition afterSecondCalibration : ProctoringSystem :=
  run l1Distance secondSession (constructor decodeSample None 0).

(** Three frames with the head turned, 10 ms apart: the first two, and
    the third. *)
Definition quickTurn : list MeshFrame :=
  [mkMeshFrame turned [] 11000; mkMeshFrame turned [] 11010].

Definition quickTurnLast : MeshFrame := mkMeshFrame turned [] 11020.

(** ** The hysteresis of a session that starts with no episode open (vocabulary) *)

(** The system when the 45 calibration frames of its first session have
    been processed. *)
Definition calibrated : ProctoringSystem :=
  feedMesh calibrationFramesSample freshlyStarted.

(** ** The calibration phase of a session (vocabulary) *)

(** The operations that the tick loop and its collaborators drive during
    a session. A new [startMonitoring] begins another session, and direct
    calls of [logEvent] by the host are left out: the handlers' own calls
    are inside the operations. *)
Definition isFrameOp (o : Op) : bool :=
  match o with
  | OpStartMonitoring _ _ => false
  | OpLogEvent _ _ _ => false
  | _ => true
  end.

Definition hasLandmarks (multiFaceLandmarks : list Landmarks) : bool :=
  match multiFaceLandmarks with
  | [] => false
  | _ :: _ => true
  end.

(** Whether the operation makes [onFaceMeshResults] process a landmark
    frame. *)
Definition landmarkFrame (o : Op) (s : ProctoringSystem) : bool :=
  match o with
  | OpFaceMeshResults multiFaceLandmarks _ =>
      isMonitoring s && hasLandmarks multiFaceLandmarks
  | OpProcessVideo t =>
      isMonitoring s &&
      match tick_detections t, tick_mesh t with
      | Delivered _, Delivered multiFaceLandmarks =>
          hasLandmarks multiFaceLandmarks
      | _, _ => false
      end
  | _ => false
  end.

(** The number of landmark frames processed in a run. *)
Fixpoint landmarkFramesSeen
  (euclideanDistance : Descriptor -> Descriptor -> Q)
  (ops : list Op) (s : ProctoringSystem) : nat :=
  match ops with
  | [] => 0
  | o :: rest =>
      (if landmarkFrame o s then 1 else 0)
      + landmarkFramesSeen euclideanDistance rest (step euclideanDistance o s)
  end.

(** While the counter is at most 45 the attention side is as the session
    found it and no completion is logged; from 46 on, the log holds one
    completion entry, with the baseline. *)
Definition calibrationInv
  (a0 : list Q * list Q * list Q * nat * nat * AttentionState * option Z
        * list (AttentionState * option Z * option Trigger) * list Event)
  (s : ProctoringSystem) : Prop :=
  calibrationFrames s <= 46 /\
  completions (sessionLogs s) =
    (if calibrationFrames s <=? 45 then []
     else [(baselineYaw s, baselinePitch s, baselineGaze s)]) /\
  (calibrationFrames s <= 45 -> attentionView s = a0).

(** Forty-six landmark frames, as mesh results. *)
Definition fortySixFrames : list Op :=
  repeat (OpFaceMeshResults [centred] 2000) 46.

(** ** The operations piece by piece, with the guards of the calibration frame (vocabulary) *)

Definition sessionStarted (now : Z) : Event :=
  mkEvent now "Monitoring session started - Calibrating..." info.

Definition startFailed (now : Z) : Event :=
  mkEvent now "Failed to start monitoring" error.

(** ** What the host is told (vocabulary) *)

Definition isStart (o : Op) : bool :=
  match o with
  | OpStartMonitoring _ _ => true
  | _ => false
  end.

(** No operation of the list starts a session. *)
Definition withinSession (ops : list Op) : bool :=
  forallb (fun o => negb (isStart o)) ops.

Definition isViolationUpdate (c : ExternalCall) : bool :=
  match c with onViolationUpdate _ _ => true | _ => false end.

(** The number of calls of [onViolationUpdate]. *)
Definition violationUpdates (s : ProctoringSystem) : nat :=
  List.length (filter isViolationUpdate (external s)).

(** What a call of the object tells about the counters. *)
Definition reportOf (last : option (nat * nat)) (c : ExternalCall)
  : option (nat * nat) :=
  match c with
  | onViolationUpdate total attention => Some (total, attention)
  | _ => last
  end.

(** The arguments of the last call of [onViolationUpdate], if any. *)
Definition lastReport (calls : list ExternalCall) : option (nat * nat) :=
  fold_left reportOf calls None.

Definition reportInv (s : ProctoringSystem) : Prop :=
  violationUpdates s = totalViolations s /\
  lastReport (external s)
  = match totalViolations s with
    | 0 => None
    | S _ => Some (totalViolations s, attentionViolations s)
    end /\
  captureRequests s <= totalViolations s /\
  (CONFIG.FRAME_CAPTURE.SAVE_INTERVAL * Z.of_nat (captureRequests s)
   <= lastViolationFrameSave s)%Z.

Definition reportKeeps (s s' : ProctoringSystem) : Prop :=
  reportInv s -> reportInv s'.

(** A session on a new object: the face leaves after the first frame and
    a second face joins the first nine seconds later. *)
Definition twoViolations : list Op :=
  [OpStartMonitoring true 1000;
   OpFaceDetectionResults 1 1500;
   OpFaceDetectionResults 0 6000;
   OpFaceDetectionResults 1 9000;
   OpFaceDetectionResults 2 15000].

Definition afterTwoViolations : ProctoringSystem :=
  run l1Distance twoViolations (constructor decodeSample None 0).

(** The widget of a page whose first object went through
    [twoViolations]. *)
Definition usedWidget : CornerWebcam.Widget :=
  fold_left CornerWebcam.deliver (external afterTwoViolations)
    CornerWebcam.initial.

(** ** Every violation of a session is counted once (vocabulary) *)

Definition isViolationEvent (e : Event) : bool :=
  Severity_eqb (ev_type e) violation.

(** The number of violation events of the current session. *)
Definition violationEvents (s : ProctoringSystem) : nat :=
  List.length (filter isViolationEvent (sessionEvents s)).

Definition isAttentionViolation (e : Event) : bool :=
  Severity_eqb (ev_type e) violation && isAttentionMessage (ev_message e).

(** The number of violation events of the current session that name a
    distraction. *)
Definition attentionEvents (s : ProctoringSystem) : nat :=
  List.length (filter isAttentionViolation (sessionEvents s)).

(** The counters rise by the number of events added. *)
Definition countedOnce (s s' : ProctoringSystem) : Prop :=
  totalViolations s' + violationEvents s
  = totalViolations s + violationEvents s' /\
  attentionViolations s' + attentionEvents s
  = attentionViolations s + attentionEvents s'.

(** The operations of [twoViolations] that follow the start. *)
Definition twoViolationsFrames : list Op :=
  [OpFaceDetectionResults 1 1500;
   OpFaceDetectionResults 0 6000;
   OpFaceDetectionResults 1 9000;
   OpFaceDetectionResults 2 15000].

(** ** The session log (vocabulary) *)

(** The [event] entries of a log, as the events they record. *)
Definition eventEntries (logs : list LogEntry) : list Event :=
  flat_map
    (fun e =>
       match body e with
       | event type message => [mkEvent (timestamp e) message type]
       | _ => []
       end) logs.

(** The [frame_saved] entries of a log, as (reason, frame timestamp). *)
Definition frameEntries (logs : list LogEntry) : list (string * Z) :=
  flat_map
    (fun e =>
       match body e with
       | frame_saved reason frame_timestamp => [(reason, frame_timestamp)]
       | _ => []
       end) logs.

(** Every entry carries the identifier of the session, the [event]
    entries are the events of the session, and the [frame_saved] entries
    are its captured frames. *)
Definition logInv (s : ProctoringSystem) : Prop :=
  Forall (fun e => session_id e = sessionStartTime s) (sessionLogs s) /\
  eventEntries (sessionLogs s) = sessionEvents s /\
  frameEntries (sessionLogs s)
  = map (fun f => (vf_message f, vf_timestamp f)) (violationFrames s).

Definition logKeeps (s s' : ProctoringSystem) : Prop :=
  logInv s -> logInv s'.

(** The [event] entries of a log, as (severity, message). *)
Definition loggedKinds (logs : list LogEntry) : list (Severity * string) :=
  flat_map
    (fun e =>
       match body e with
       | event type message => [(type, message)]
       | _ => []
       end) logs.

(** A session in which a captured frame has come back from the canvas. *)
Definition afterCapture : ProctoringSystem :=
  run l1Distance
    [OpStartMonitoring true 1000;
     OpFaceDetectionResults 1 1500;
     OpFaceDetectionResults 0 6000;
     OpToBlobCallback "No face detected" (Some "png"%string) 6050]
    (constructor decodeSample None 0).

(** ** The records of a session only grow (vocabulary) *)

Definition extends (A : Type) (l l' : list A) : Prop :=
  exists more, l' = l ++ more.

Definition appendOnly (s s' : ProctoringSystem) : Prop :=
  extends (sessionEvents s) (sessionEvents s') /\
  extends (sessionLogs s) (sessionLogs s') /\
  extends (violationFrames s) (violationFrames s') /\
  sessionStartTime s' = sessionStartTime s.

(** ** The smoothing histories and the attention counters (vocabulary) *)

(** A history holds at most [HISTORY_SIZE] values, none negative. *)
Definition historyInv (h : list Q) : Prop :=
  List.length h <= CONFIG.ATTENTION.HISTORY_SIZE /\
  Forall (fun v => (0 <= v)%Q) h.

Definition attentionInv (s : ProctoringSystem) : Prop :=
  historyInv (yawHistory s) /\
  historyInv (pitchHistory s) /\
  historyInv (gazeHistory s) /\
  (distractionCounter s = 0 \/ focusCounter s = 0) /\
  (0 < distractionCounter s -> distractionStartTime s <> None).

Definition attentionKeeps (s s' : ProctoringSystem) : Prop :=
  attentionInv s -> attentionInv s'.

(** A session in which the head is turned on the frame that follows the
    calibration. *)
Definition afterTurnedFrame : ProctoringSystem :=
  run l1Distance
    (OpStartMonitoring true 1000
     :: repeat (OpFaceMeshResults [centred] 2000) 45
     ++ [OpFaceMeshResults [turned] 5000])
    (constructor decodeSample None 0).

(** ** The identity counters and the number of faces (vocabulary) *)

Definition presenceInv (s : ProctoringSystem) : Prop :=
  (lastFaceCount s <> 1 ->
   unauthorizedCounter s = 0 /\ authorizedCounter s = 0) /\
  (unauthorizedCounter s = 0 \/ authorizedCounter s = 0).

Definition presenceKeeps (s s' : ProctoringSystem) : Prop :=
  presenceInv s -> presenceInv s'.

(** The enrolled system after one recognition run on a stranger. *)
Definition afterStranger : ProctoringSystem :=
  step l1Distance (OpPerformFaceRecognition (Detected [1%Q; 1%Q]) 1200)
    enrolledWatching.

(** ** When face recognition runs (vocabulary) *)

(** What the test of [processVideo] reads. *)
Definition recognitionClock (s : ProctoringSystem) :=
  (enrolledDescriptors s, sessionStartTime s, faceRecognitionStarted s,
   lastFaceRecogTime s).

Definition clockKept (s s' : ProctoringSystem) : Prop :=
  isMonitoring s' = isMonitoring s /\
  recognitionClock s' = recognitionClock s.

(** Whether a turn of [processVideo] reaches [performFaceRecognition]. *)
Definition recognitionRuns (t : Tick) (s : ProctoringSystem) : bool :=
  isMonitoring s &&
  match tick_detections t, tick_mesh t with
  | Delivered _, Delivered _ => shouldRunRecognition (tick_now t) s
  | _, _ => false
  end.

(** The operations that come before the clock reads [limit]: no start of
    a session, and no tick at [limit] or later. *)
Definition comesBefore (limit : Z) (o : Op) : bool :=
  match o with
  | OpStartMonitoring _ _ => false
  | OpProcessVideo t => (tick_now t <? limit)%Z
  | _ => true
  end.

(** A tick of the enrolled system, with one face and no landmarks. *)
Definition quietTick (now : Z) : Tick :=
  {| tick_now := now;
     tick_detections := Delivered 1;
     tick_mesh := Delivered [];
     tick_face := Detected [0%Q; 0%Q] |}.

(** The enrolled system after the tick that runs the first recognition. *)
Definition afterFirstRecognition : ProctoringSystem :=
  processVideo l1Distance (quietTick 2500) enrolledWatching.

(** ** After [stopMonitoring] (vocabulary) *)

(** What the detectors and the tick loop deliver. *)
Definition isDelivery (o : Op) : bool :=
  match o with
  | OpProcessVideo _ => true
  | OpFaceDetectionResults _ _ => true
  | OpFaceMeshResults _ _ => true
  | _ => false
  end.

(** ** No enrolled face (vocabulary) *)

Definition noEnrolledFace (now : Z) : Event :=
  mkEvent now "No enrolled face found. Please enroll first." error.

(** Nothing enrolled to compare with. *)
Definition nothingEnrolled (s : ProctoringSystem) : Prop :=
  enrolledDescriptors s = None \/ enrolledDescriptors s = Some [].

(** ** The baseline after calibration (vocabulary) *)

Definition frozen (s s' : ProctoringSystem) : Prop :=
  CONFIG.CALIBRATION.MAX_FRAMES <= calibrationFrames s ->
  CONFIG.CALIBRATION.MAX_FRAMES <= calibrationFrames s' /\
  baselineYaw s' = baselineYaw s /\
  baselinePitch s' = baselinePitch s /\
  baselineGaze s' = baselineGaze s.

(** ** What the log records of a change of attention (vocabulary) *)

(** The entry, if any, that a frame with the verdicts [head] and [gaze]
    adds to the log. *)
Definition attentionEntry (head gaze : AttentionState) (now : Z)
  (s : ProctoringSystem)
  : list (AttentionState * option Z * option Trigger) :=
  if AttentionState_eqb head distracted || AttentionState_eqb gaze distracted
  then
    if confirmsDistraction now s
    then [(distracted, Some (now - episodeStart now s)%Z,
           Some (if AttentionState_eqb head distracted
                 then head_movement else gaze_shift))]
    else []
  else
    if confirmsFocus s then [(focused, None, None)] else [].

(** ** Restoring focus (vocabulary) *)

(** The number of Focused frames that end a sequence. *)
Definition extendFocus (n : nat) (v : bool * Z) : nat :=
  if fst v then 0 else S n.

Definition focusedRunFrom (n : nat) (vs : list (bool * Z)) : nat :=
  fold_left extendFocus vs n.

Definition focusedRun (vs : list (bool * Z)) : nat := focusedRunFrom 0 vs.

(** Focus is confirmed on the frame that takes [s] to [s']. *)
Definition focusConfirmed (now : Z) (s s' : ProctoringSystem) : Prop :=
  In (focusRestored now)
    (skipn (List.length (sessionEvents s)) (sessionEvents s')) /\
  lastAttentionState s <> focused /\
  lastAttentionState s' = focused.

(** ** The names of the downloaded frames (vocabulary) *)

Fixpoint characters (text : string) : list ascii :=
  match text with
  | EmptyString => []
  | String c rest => c :: characters rest
  end.

(** A captured frame whose message is made of letters and digits. *)
Definition plainFrame : ViolationFrame :=
  mkViolationFrame "png"%string "Wrong1"%string 6050.

(** ** The widget keeps the last ten events (vocabulary) *)

(** The events handed to [onLogEvent]. *)
Definition loggedEvents (calls : list ExternalCall) : list Event :=
  flat_map
    (fun c => match c with onLogEvent e => [e] | _ => [] end) calls.

(** * Properties *)

(** ** Comparisons *)

Lemma Qltb_lt (a b : Q) : Qltb a b = true <-> (a < b)%Q.
Proof.
  unfold Qltb. rewrite negb_true_iff.
  split; intro H.
  - apply Qnot_le_lt. intro L. apply Qle_bool_iff in L. congruence.
  - destruct (Qle_bool b a) eqn:E; [|reflexivity].
    apply Qle_bool_iff in E. exfalso. exact (Qlt_not_le _ _ H E).
Qed.

Lemma AttentionState_eqb_eq a b : AttentionState_eqb a b = true <-> a = b.
Proof. destruct a, b; simpl; split; congruence. Qed.


Lemma Severity_eqb_eq a b : Severity_eqb a b = true <-> a = b.
Proof. destruct a, b; simpl; split; congruence. Qed.

(** ** Projections through the setters and the logging primitives *)

Ltac unfold_setters :=
  unfold set_isMonitoring, set_enrolledDescriptors, set_sessionStartTime,
    set_totalViolations, set_attentionViolations, set_sessionEvents,
    set_sessionLogs, set_lastFaceCount, set_lastAttentionState,
    set_lastPersonState, set_yawHistory, set_pitchHistory, set_gazeHistory,
    set_distractionCounter, set_focusCounter, set_unauthorizedCounter,
    set_authorizedCounter, set_lastViolationFrameSave, set_lastFaceRecogTime,
    set_faceRecognitionStarted, set_calibrationFrames, set_baselineYaw,
    set_baselinePitch, set_baselineGaze, set_distractionStartTime,
    set_violationFrames, set_external in *.

Ltac break_if :=
  repeat match goal with
         | |- context [if ?c then _ else _] => destruct c eqn:?
         end.

(** Substrings. *)

Lemma prefix_app (n s : string) :
  String.prefix n s = true <-> exists post, s = (n ++ post)%string.
Proof.
  revert s. induction n as [|c n IH]; intros [|d s]; simpl.
  - split; [intros _; exists EmptyString; reflexivity | reflexivity].
  - split; [intros _; exists (String d s); reflexivity | reflexivity].
  - split; [discriminate | intros [post H]; discriminate].
  - destruct (Ascii.ascii_dec c d) as [->|N].
    + rewrite IH. split; intros [post H]; exists post; congruence.
    + split; [discriminate | intros [post H]; congruence].
Qed.

Lemma includes_cons (c : ascii) (s n : string) :
  includes (String c s) n = String.prefix n (String c s) || includes s n.
Proof. reflexivity. Qed.

Lemma includes_empty (n : string) :
  includes EmptyString n = String.prefix n EmptyString || false.
Proof. reflexivity. Qed.

Lemma includes_substring (s n : string) :
  includes s n = true <->
  exists pre post, s = (pre ++ n ++ post)%string.
Proof.
  induction s as [|c s IH].
  - rewrite includes_empty, orb_false_r, prefix_app. split.
    + intros [post H]. exists EmptyString, post. exact H.
    + intros [pre [post H]]. destruct pre; simpl in H.
      * exists post. exact H.
      * discriminate.
  - rewrite includes_cons, orb_true_iff, prefix_app, IH. split.
    + intros [[post H]|[pre [post H]]].
      * exists EmptyString, post. exact H.
      * exists (String c pre), post. simpl. congruence.
    + intros [pre [post H]]. destruct pre as [|d pre]; simpl in H.
      * left. exists post. exact H.
      * right. exists pre, post. congruence.
Qed.

(** What a call of [logEvent] does to the two violation counters. *)

Lemma logEvent_totalViolations message type now s :
  totalViolations (logEvent message type now s) =
  if Severity_eqb type violation then S (totalViolations s)
  else totalViolations s.
Proof.
  unfold logEvent, saveViolationFrame, addToSessionLog.
  destruct (Severity_eqb type violation); [|reflexivity].
  destruct (isAttentionMessage message); cbn; break_if; reflexivity.
Qed.

Lemma logEvent_attentionViolations message type now s :
  attentionViolations (logEvent message type now s) =
  if Severity_eqb type violation && isAttentionMessage message
  then S (attentionViolations s)
  else attentionViolations s.
Proof.
  unfold logEvent, saveViolationFrame, addToSessionLog.
  destruct (Severity_eqb type violation); [|reflexivity].
  destruct (isAttentionMessage message); cbn; break_if; reflexivity.
Qed.

(** C7. A violation-severity [logEvent] adds one to [totalViolations]; it
    adds one to [attentionViolations] exactly when the message contains
    "distraction" or "looking away", and leaves it alone otherwise. So
    "Sustained distraction detected" moves both counters and
    "Wrong person detected" only the total. *)
Theorem logEvent_violation_accounting :
  forall (message : string) (now : Z) (s : ProctoringSystem),
    let s' := logEvent message violation now s in
    let matches :=
      (exists pre post, message = (pre ++ "distraction" ++ post)%string) \/
      (exists pre post, message = (pre ++ "looking away" ++ post)%string) in
    totalViolations s' = S (totalViolations s) /\
    (attentionViolations s' = S (attentionViolations s) <-> matches) /\
    (attentionViolations s' = attentionViolations s <-> ~ matches) /\
    (let d := logEvent "Sustained distraction detected" violation now s in
     totalViolations d = S (totalViolations s) /\
     attentionViolations d = S (attentionViolations s)) /\
    (let w := logEvent "Wrong person detected" violation now s in
     totalViolations w = S (totalViolations s) /\
     attentionViolations w = attentionViolations s).
Proof.
  intros message now s s' matches. subst s'. cbv zeta.
  rewrite !logEvent_totalViolations, !logEvent_attentionViolations.
  change (Severity_eqb violation violation) with true. cbv iota.
  rewrite !andb_true_l.
  assert (M : isAttentionMessage message = true <-> matches).
  { unfold isAttentionMessage, matches.
    rewrite orb_true_iff, !includes_substring. reflexivity. }
  split; [reflexivity|]. split; [|split; [|split]].
  - destruct (isAttentionMessage message).
    + split; [intros _; apply M; reflexivity | reflexivity].
    + split; [intros H; exfalso; lia | intros H; apply M in H; discriminate].
  - rewrite <- M. destruct (isAttentionMessage message).
    + split; [intros H; exfalso; lia | intros N; exfalso; apply N; reflexivity].
    + split; [intros _; discriminate | reflexivity].
  - split; reflexivity.
  - split; reflexivity.
Qed.

(** ** The field-wise form of [logEvent] *)

Lemma logEvent_fields message type now s :
  logEvent message type now s =
  let isViolation := Severity_eqb type violation in
  let total :=
    if isViolation then S (totalViolations s) else totalViolations s in
  let attention :=
    if isViolation && isAttentionMessage message
    then S (attentionViolations s) else attentionViolations s in
  let captured := isViolation && captureAccepted now s in
  let ev := mkEvent now message type in
  mkProctoringSystem (isMonitoring s) (enrolledDescriptors s)
    (sessionStartTime s) total attention
    (sessionEvents s ++ [ev])
    (sessionLogs s
       ++ [mkLogEntry (event type message) now (sessionStartTime s)])
    (lastFaceCount s) (lastAttentionState s) (lastPersonState s)
    (yawHistory s) (pitchHistory s) (gazeHistory s) (distractionCounter s)
    (focusCounter s) (unauthorizedCounter s) (authorizedCounter s)
    (if captured then now else lastViolationFrameSave s)
    (lastFaceRecogTime s) (faceRecognitionStarted s) (calibrationFrames s)
    (baselineYaw s) (baselinePitch s) (baselineGaze s)
    (distractionStartTime s) (violationFrames s)
    (external s
       ++ (if captured then [canvas_toBlob message] else [])
       ++ (if isViolation then [onViolationUpdate total attention] else [])
       ++ [onLogEvent ev]).
Proof.
  unfold logEvent, saveViolationFrame, addToSessionLog, captureAccepted.
  destruct s; cbn.
  destruct (Severity_eqb type violation); cbn; [|reflexivity].
  destruct (isAttentionMessage message); cbn;
    destruct (_ <? _)%Z; cbn; rewrite <- ?app_assoc; reflexivity.
Qed.

(** ** Frame-capture throttling *)

Lemma saveViolationFrame_dropped message now s :
  (now - lastViolationFrameSave s < CONFIG.FRAME_CAPTURE.SAVE_INTERVAL)%Z ->
  saveViolationFrame message now s = s.
Proof.
  intros H. unfold saveViolationFrame.
  apply Z.ltb_lt in H. rewrite H. reflexivity.
Qed.

Lemma saveViolationFrame_accepted message now s :
  (CONFIG.FRAME_CAPTURE.SAVE_INTERVAL <= now - lastViolationFrameSave s)%Z ->
  saveViolationFrame message now s =
  set_external (external s ++ [canvas_toBlob message])
    (set_lastViolationFrameSave now s).
Proof.
  intros H. unfold saveViolationFrame.
  apply Z.ltb_ge in H. rewrite H. reflexivity.
Qed.

Lemma captureRequests_logEvent message now s :
  captureRequests (logEvent message violation now s) =
  if captureAccepted now s then S (captureRequests s) else captureRequests s.
Proof.
  rewrite logEvent_fields. unfold captureRequests. cbn.
  rewrite !filter_app, !length_app.
  destruct (captureAccepted now s); cbn; lia.
Qed.

Lemma lastViolationFrameSave_logEvent message now s :
  lastViolationFrameSave (logEvent message violation now s) =
  if captureAccepted now s then now else lastViolationFrameSave s.
Proof. rewrite logEvent_fields. reflexivity. Qed.

Lemma captureRequests_two_events m1 m2 t1 dt s :
  captureAccepted t1 s = true ->
  captureRequests
    (logEvent m2 violation (t1 + dt) (logEvent m1 violation t1 s)) =
  if (dt <? CONFIG.FRAME_CAPTURE.SAVE_INTERVAL)%Z
  then captureRequests s + 1 else captureRequests s + 2.
Proof.
  intros A. rewrite !captureRequests_logEvent.
  unfold captureAccepted at 1. rewrite lastViolationFrameSave_logEvent.
  rewrite A. replace (t1 + dt - t1)%Z with dt by lia.
  destruct (dt <? CONFIG.FRAME_CAPTURE.SAVE_INTERVAL)%Z; cbn [negb]; lia.
Qed.

(** C8. [saveViolationFrame] asks the canvas for a capture exactly when
    at least 4000 ms separate the request from the last accepted one, and
    a request inside the window changes nothing. Hence, once a violation
    has been captured at [t1], a second violation less than 4000 ms later
    adds no request (one in all: so 1000 ms later) and a second violation
    4000 ms later or more adds one (two in all: so 5000 ms later). *)
Theorem saveViolationFrame_throttle :
  forall (m1 m2 : string) (t1 : Z) (s : ProctoringSystem),
    (4000 <= t1 - lastViolationFrameSave s)%Z ->
    (forall (m : string) (now : Z) (s0 : ProctoringSystem),
        ((now - lastViolationFrameSave s0 < 4000)%Z
         /\ saveViolationFrame m now s0 = s0)
        \/
        ((4000 <= now - lastViolationFrameSave s0)%Z
         /\ lastViolationFrameSave (saveViolationFrame m now s0) = now
         /\ external (saveViolationFrame m now s0)
            = external s0 ++ [canvas_toBlob m]
         /\ captureRequests (saveViolationFrame m now s0)
            = S (captureRequests s0))) /\
    (forall dt : Z,
        captureRequests
          (logEvent m2 violation (t1 + dt) (logEvent m1 violation t1 s))
        = if (dt <? 4000)%Z
          then captureRequests s + 1 else captureRequests s + 2) /\
    captureRequests
      (logEvent m2 violation (t1 + 1000) (logEvent m1 violation t1 s))
    = captureRequests s + 1 /\
    captureRequests
      (logEvent m2 violation (t1 + 5000) (logEvent m1 violation t1 s))
    = captureRequests s + 2.
Proof.
  intros m1 m2 t1 s H.
  assert (A : captureAccepted t1 s = true).
  { unfold captureAccepted. apply negb_true_iff, Z.ltb_ge. exact H. }
  split; [|split; [|split]].
  - intros m now s0.
    destruct (Z_lt_le_dec (now - lastViolationFrameSave s0) 4000) as [L|G].
    + left. split; [exact L|]. apply saveViolationFrame_dropped. exact L.
    + right. split; [exact G|].
      rewrite saveViolationFrame_accepted by exact G.
      unfold captureRequests. cbn. rewrite filter_app, length_app. cbn.
      repeat split; lia.
  - intros dt. apply captureRequests_two_events. exact A.
  - rewrite captureRequests_two_events by exact A. reflexivity.
  - rewrite captureRequests_two_events by exact A. reflexivity.
Qed.

Lemma saveViolationFrame_throttle_witness :
  (4000 <= 1700000000000 - lastViolationFrameSave fresh)%Z /\
  captureRequests
    (logEvent "Multiple faces detected" violation (1700000000000 + 1000)
       (logEvent "No face detected" violation 1700000000000 fresh)) = 0 + 1 /\
  captureRequests
    (logEvent "Multiple faces detected" violation (1700000000000 + 5000)
       (logEvent "No face detected" violation 1700000000000 fresh)) = 0 + 2.
Proof.
  assert (H : (4000 <= 1700000000000 - lastViolationFrameSave fresh)%Z)
    by (simpl; lia).
  split; [exact H|].
  exact (proj2 (proj2 (saveViolationFrame_throttle "No face detected"
                         "Multiple faces detected" 1700000000000 fresh H))).
Defined.

(** ** Normalising a method applied to an explicit record *)

Ltac expose :=
  cbv zeta; rewrite ?logEvent_fields;
  cbv beta iota zeta delta
    [set_isMonitoring set_enrolledDescriptors set_sessionStartTime
     set_totalViolations set_attentionViolations set_sessionEvents
     set_sessionLogs set_lastFaceCount set_lastAttentionState
     set_lastPersonState set_yawHistory set_pitchHistory set_gazeHistory
     set_distractionCounter set_focusCounter set_unauthorizedCounter
     set_authorizedCounter set_lastViolationFrameSave set_lastFaceRecogTime
     set_faceRecognitionStarted set_calibrationFrames set_baselineYaw
     set_baselinePitch set_baselineGaze set_distractionStartTime
     set_violationFrames set_external addToSessionLog
     resetFaceRecognitionCounters fst snd Severity_eqb
     isMonitoring enrolledDescriptors sessionStartTime totalViolations
     attentionViolations sessionEvents sessionLogs lastFaceCount
     lastAttentionState lastPersonState yawHistory pitchHistory gazeHistory
     distractionCounter focusCounter unauthorizedCounter authorizedCounter
     lastViolationFrameSave lastFaceRecogTime faceRecognitionStarted
     calibrationFrames baselineYaw baselinePitch baselineGaze
     distractionStartTime violationFrames external].

(** The same, in the hypotheses as well. *)
Ltac expose_all :=
  cbv zeta in *; rewrite ?logEvent_fields in *;
  cbv beta iota zeta delta
    [set_isMonitoring set_enrolledDescriptors set_sessionStartTime
     set_totalViolations set_attentionViolations set_sessionEvents
     set_sessionLogs set_lastFaceCount set_lastAttentionState
     set_lastPersonState set_yawHistory set_pitchHistory set_gazeHistory
     set_distractionCounter set_focusCounter set_unauthorizedCounter
     set_authorizedCounter set_lastViolationFrameSave set_lastFaceRecogTime
     set_faceRecognitionStarted set_calibrationFrames set_baselineYaw
     set_baselinePitch set_baselineGaze set_distractionStartTime
     set_violationFrames set_external addToSessionLog
     resetFaceRecognitionCounters fst snd Severity_eqb
     isMonitoring enrolledDescriptors sessionStartTime totalViolations
     attentionViolations sessionEvents sessionLogs lastFaceCount
     lastAttentionState lastPersonState yawHistory pitchHistory gazeHistory
     distractionCounter focusCounter unauthorizedCounter authorizedCounter
     lastViolationFrameSave lastFaceRecogTime faceRecognitionStarted
     calibrationFrames baselineYaw baselinePitch baselineGaze
     distractionStartTime violationFrames external] in *.

(** Projections of setters, and nothing else. *)
Ltac fields :=
  cbn [fst snd
       set_isMonitoring set_enrolledDescriptors set_sessionStartTime
       set_totalViolations set_attentionViolations set_sessionEvents
       set_sessionLogs set_lastFaceCount set_lastAttentionState
       set_lastPersonState set_yawHistory set_pitchHistory set_gazeHistory
       set_distractionCounter set_focusCounter set_unauthorizedCounter
       set_authorizedCounter set_lastViolationFrameSave set_lastFaceRecogTime
       set_faceRecognitionStarted set_calibrationFrames set_baselineYaw
       set_baselinePitch set_baselineGaze set_distractionStartTime
       set_violationFrames set_external addToSessionLog
       resetFaceRecognitionCounters
       isMonitoring enrolledDescriptors sessionStartTime totalViolations
       attentionViolations sessionEvents sessionLogs lastFaceCount
       lastAttentionState lastPersonState yawHistory pitchHistory gazeHistory
       distractionCounter focusCounter unauthorizedCounter authorizedCounter
       lastViolationFrameSave lastFaceRecogTime faceRecognitionStarted
       calibrationFrames baselineYaw baselinePitch baselineGaze
       distractionStartTime violationFrames external] in *.

Ltac break_match :=
  repeat match goal with
         | |- context [if ?c then _ else _] => destruct c eqn:?
         | |- context [match ?c with Some _ => _ | None => _ end] =>
             destruct c eqn:?
         | |- context [match ?c with [] => _ | _ :: _ => _ end] =>
             destruct c eqn:?
         end.

(** Case analysis on the tests that decide control flow, innermost
    first, so that no test is duplicated by unfolding a setter. *)
Ltac break_inner :=
  repeat match goal with
         | |- context [if ?c then _ else _] =>
             lazymatch c with
             | context [if _ then _ else _] => fail
             | context [match _ with Some _ => _ | None => _ end] => fail
             | _ => destruct c eqn:?
             end
         | |- context [match ?c with Some _ => _ | None => _ end] =>
             lazymatch c with
             | context [if _ then _ else _] => fail
             | context [match _ with Some _ => _ | None => _ end] => fail
             | _ => destruct c eqn:?
             end
         end.

(** [logEvent] leaves every other field alone. *)

Lemma logEvent_isMonitoring message type now s :
  isMonitoring (logEvent message type now s) = isMonitoring s.
Proof. rewrite logEvent_fields. reflexivity. Qed.

Lemma logEvent_enrolledDescriptors message type now s :
  enrolledDescriptors (logEvent message type now s) = enrolledDescriptors s.
Proof. rewrite logEvent_fields. reflexivity. Qed.

Lemma logEvent_sessionStartTime message type now s :
  sessionStartTime (logEvent message type now s) = sessionStartTime s.
Proof. rewrite logEvent_fields. reflexivity. Qed.

Lemma logEvent_lastFaceCount message type now s :
  lastFaceCount (logEvent message type now s) = lastFaceCount s.
Proof. rewrite logEvent_fields. reflexivity. Qed.

Lemma logEvent_lastAttentionState message type now s :
  lastAttentionState (logEvent message type now s) = lastAttentionState s.
Proof. rewrite logEvent_fields. reflexivity. Qed.

Lemma logEvent_lastPersonState message type now s :
  lastPersonState (logEvent message type now s) = lastPersonState s.
Proof. rewrite logEvent_fields. reflexivity. Qed.

Lemma logEvent_yawHistory message type now s :
  yawHistory (logEvent message type now s) = yawHistory s.
Proof. rewrite logEvent_fields. reflexivity. Qed.

Lemma logEvent_pitchHistory message type now s :
  pitchHistory (logEvent message type now s) = pitchHistory s.
Proof. rewrite logEvent_fields. reflexivity. Qed.

Lemma logEvent_gazeHistory message type now s :
  gazeHistory (logEvent message type now s) = gazeHistory s.
Proof. rewrite logEvent_fields. reflexivity. Qed.

Lemma logEvent_distractionCounter message type now s :
  distractionCounter (logEvent message type now s) = distractionCounter s.
Proof. rewrite logEvent_fields. reflexivity. Qed.

Lemma logEvent_focusCounter message type now s :
  focusCounter (logEvent message type now s) = focusCounter s.
Proof. rewrite logEvent_fields. reflexivity. Qed.

Lemma logEvent_unauthorizedCounter message type now s :
  unauthorizedCounter (logEvent message type now s) = unauthorizedCounter s.
Proof. rewrite logEvent_fields. reflexivity. Qed.

Lemma logEvent_authorizedCounter message type now s :
  authorizedCounter (logEvent message type now s) = authorizedCounter s.
Proof. rewrite logEvent_fields. reflexivity. Qed.

Lemma logEvent_lastFaceRecogTime message type now s :
  lastFaceRecogTime (logEvent message type now s) = lastFaceRecogTime s.
Proof. rewrite logEvent_fields. reflexivity. Qed.

Lemma logEvent_faceRecognitionStarted message type now s :
  faceRecognitionStarted (logEvent message type now s) = faceRecognitionStarted s.
Proof. rewrite logEvent_fields. reflexivity. Qed.

Lemma logEvent_calibrationFrames message type now s :
  calibrationFrames (logEvent message type now s) = calibrationFrames s.
Proof. rewrite logEvent_fields. reflexivity. Qed.

Lemma logEvent_baselineYaw message type now s :
  baselineYaw (logEvent message type now s) = baselineYaw s.
Proof. rewrite logEvent_fields. reflexivity. Qed.

Lemma logEvent_baselinePitch message type now s :
  baselinePitch (logEvent message type now s) = baselinePitch s.
Proof. rewrite logEvent_fields. reflexivity. Qed.

Lemma logEvent_baselineGaze message type now s :
  baselineGaze (logEvent message type now s) = baselineGaze s.
Proof. rewrite logEvent_fields. reflexivity. Qed.

Lemma logEvent_distractionStartTime message type now s :
  distractionStartTime (logEvent message type now s) = distractionStartTime s.
Proof. rewrite logEvent_fields. reflexivity. Qed.

Lemma logEvent_violationFrames message type now s :
  violationFrames (logEvent message type now s) = violationFrames s.
Proof. rewrite logEvent_fields. reflexivity. Qed.

Lemma logEvent_sessionEvents message type now s :
  sessionEvents (logEvent message type now s) =
  sessionEvents s ++ [mkEvent now message type].
Proof. rewrite logEvent_fields. reflexivity. Qed.

Lemma logEvent_sessionLogs message type now s :
  sessionLogs (logEvent message type now s) =
  sessionLogs s ++ [mkLogEntry (event type message) now (sessionStartTime s)].
Proof. rewrite logEvent_fields. reflexivity. Qed.

Lemma logEvent_lastViolationFrameSave message type now s :
  lastViolationFrameSave (logEvent message type now s) =
  if Severity_eqb type violation && captureAccepted now s
  then now else lastViolationFrameSave s.
Proof. rewrite logEvent_fields. reflexivity. Qed.

Create Rewrite HintDb proj.
#[export] Hint Rewrite logEvent_isMonitoring logEvent_enrolledDescriptors
  logEvent_sessionStartTime logEvent_lastFaceCount
  logEvent_lastAttentionState logEvent_lastPersonState logEvent_yawHistory
  logEvent_pitchHistory logEvent_gazeHistory logEvent_distractionCounter
  logEvent_focusCounter logEvent_unauthorizedCounter
  logEvent_authorizedCounter logEvent_lastFaceRecogTime
  logEvent_faceRecognitionStarted logEvent_calibrationFrames
  logEvent_baselineYaw logEvent_baselinePitch logEvent_baselineGaze
  logEvent_distractionStartTime logEvent_violationFrames
  logEvent_sessionEvents logEvent_sessionLogs
  logEvent_lastViolationFrameSave logEvent_totalViolations
  logEvent_attentionViolations : proj.

(** Projections through setters and through [logEvent]. *)
Ltac proj :=
  repeat first [ progress fields
               | progress (autorewrite with proj in *; idtac) ].

(** ** How the operations are put together.
    Every operation is a composition of a few elementary pieces. A
    relation between the state before and the state after that is a
    preorder and holds across each piece holds across every operation and
    every run. *)

Section Closure.

Variable R : ProctoringSystem -> ProctoringSystem -> Prop.
Variable euclideanDistance : Descriptor -> Descriptor -> Q.

Hypothesis R_refl : forall s, R s s.
Hypothesis R_trans : forall s1 s2 s3, R s1 s2 -> R s2 s3 -> R s1 s3.

Hypothesis R_logEvent :
  forall message type now s, R s (logEvent message type now s).
Hypothesis R_toBlobCallback :
  forall message blob now s, R s (toBlobCallback message blob now s).
Hypothesis R_onFaceDetectionResults :
  forall faceCount now s, R s (onFaceDetectionResults faceCount now s).
Hypothesis R_calibrateBaseline :
  forall landmarks s, R s (calibrateBaseline landmarks s).
Hypothesis R_set_calibrationFrames :
  forall n s, R s (set_calibrationFrames n s).
Hypothesis R_completeCalibration :
  forall now s, R s (completeCalibration now s).
Hypothesis R_analyzeAttention :
  forall landmarks s, R s (snd (analyzeAttention landmarks s)).
Hypothesis R_analyzeGaze :
  forall landmarks s, R s (snd (analyzeGaze landmarks s)).
Hypothesis R_processDistraction :
  forall attention gaze now s,
    R s (processDistraction attention gaze now s).
Hypothesis R_startMonitoring :
  forall modelsLoaded now s, R s (startMonitoring modelsLoaded now s).
Hypothesis R_stopMonitoring :
  forall now s, R s (stopMonitoring now s).
Hypothesis R_performFaceRecognition :
  forall detection now s,
    R s (performFaceRecognition euclideanDistance detection now s).
Hypothesis R_set_lastFaceRecogTime :
  forall now s, R s (set_lastFaceRecogTime now s).
Hypothesis R_set_faceRecognitionStarted :
  forall b s, R s (set_faceRecognitionStarted b s).
Hypothesis R_set_external :
  forall calls s, R s (set_external calls s).

Lemma closure_onFaceMeshResults multiFaceLandmarks now s :
  R s (onFaceMeshResults multiFaceLandmarks now s).
Proof.
  unfold onFaceMeshResults.
  destruct (negb (isMonitoring s)); [apply R_refl|].
  destruct multiFaceLandmarks as [|landmarks rest]; [apply R_refl|].
  destruct (calibrationFrames s <? CONFIG.CALIBRATION.MAX_FRAMES).
  - cbv zeta.
    apply R_trans with (calibrateBaseline landmarks s);
      [apply R_calibrateBaseline|apply R_set_calibrationFrames].
  - cbv zeta.
    pose proof (R_completeCalibration now s) as C1.
    revert C1. generalize (completeCalibration now s). intros s1 C1.
    pose proof (R_analyzeAttention landmarks s1) as C2.
    destruct (analyzeAttention landmarks s1) as [attention s2].
    pose proof (R_analyzeGaze landmarks s2) as C3.
    destruct (analyzeGaze landmarks s2) as [gaze s3].
    cbn [snd] in C2, C3.
    pose proof (R_processDistraction attention gaze now s3) as C4.
    eauto.
Qed.

Lemma closure_processVideo t s :
  R s (processVideo euclideanDistance t s).
Proof.
  unfold processVideo.
  destruct (negb (isMonitoring s)); [apply R_refl|].
  destruct (tick_detections t) as [|faceCount];
    [apply R_set_external|].
  pose proof (R_onFaceDetectionResults faceCount (tick_now t) s) as C1.
  revert C1. generalize (onFaceDetectionResults faceCount (tick_now t) s).
  intros s1 C1.
  destruct (tick_mesh t) as [|multiFaceLandmarks].
  - apply R_trans with s1; [exact C1|apply R_set_external].
  - cbv zeta.
    pose proof (closure_onFaceMeshResults multiFaceLandmarks (tick_now t) s1)
      as C2.
    revert C2.
    generalize (onFaceMeshResults multiFaceLandmarks (tick_now t) s1).
    intros s2 C2.
    destruct (shouldRunRecognition (tick_now t) s2); [|eauto].
    apply R_trans with s2; [eauto|].
    eapply R_trans; [|apply R_performFaceRecognition].
    eapply R_trans; [|apply R_set_faceRecognitionStarted].
    apply R_set_lastFaceRecogTime.
Qed.

Lemma closure_step o s : R s (step euclideanDistance o s).
Proof.
  destruct o; cbn [step];
    auto using closure_onFaceMeshResults, closure_processVideo.
Qed.

Lemma closure_run ops : forall s, R s (run euclideanDistance ops s).
Proof.
  unfold run. induction ops as [|o ops IH]; intros s; cbn [fold_left].
  - apply R_refl.
  - apply R_trans with (step euclideanDistance o s);
      [apply closure_step|apply IH].
Qed.

End Closure.

(** A relation on the values of some fields, proved across one piece by
    looking at every path through the piece. *)
Ltac by_paths :=
  match goal with
  | s : ProctoringSystem |- _ =>
      destruct s; cbv zeta; break_inner; expose; break_match;
      fields; try reflexivity; try lia; try congruence
  end.

(** ** The violation counters never cross *)

Lemma countersStep_refl s : countersStep s s.
Proof. unfold countersStep. lia. Qed.

Lemma countersStep_trans s1 s2 s3 :
  countersStep s1 s2 -> countersStep s2 s3 -> countersStep s1 s3.
Proof. unfold countersStep. lia. Qed.

Lemma countersStep_step euclideanDistance o s :
  countersStep s (step euclideanDistance o s).
Proof.
  apply closure_step;
    try solve [apply countersStep_refl | apply countersStep_trans];
    intros; unfold countersStep;
    unfold toBlobCallback, onFaceDetectionResults, calibrateBaseline,
      completeCalibration, analyzeAttention, analyzeGaze, processDistraction,
      startMonitoring, stopMonitoring, performFaceRecognition;
    try match goal with
        | d : DetectResult |- _ => destruct d
        end;
    by_paths.
Qed.

Lemma counters_constructor parseDescriptors stored now :
  attentionViolations (constructor parseDescriptors stored now)
  <= totalViolations (constructor parseDescriptors stored now).
Proof.
  unfold constructor, loadEnrolledFace.
  destruct stored as [[|c rest]|]; try (rewrite logEvent_fields; cbn; lia).
  destruct (parseDescriptors _); cbn; lia.
Qed.

Lemma counters_reachable euclideanDistance parseDescriptors s :
  reachable euclideanDistance parseDescriptors s ->
  attentionViolations s <= totalViolations s.
Proof.
  induction 1 as [stored now|o s R IH].
  - apply counters_constructor.
  - pose proof (countersStep_step euclideanDistance o s) as C.
    unfold countersStep in C. lia.
Qed.

(** C10. In every state the object can reach from its constructor by
    start, stop, frame handlers, ticks, recognition runs, [logEvent] calls
    and capture callbacks, [attentionViolations <= totalViolations]; no
    operation lowers either counter, and none raises the attention counter
    by more than it raises the total. *)
Theorem attentionViolations_le_totalViolations :
  forall (euclideanDistance : Descriptor -> Descriptor -> Q)
         (parseDescriptors : string -> option (list Descriptor))
         (s : ProctoringSystem),
    reachable euclideanDistance parseDescriptors s ->
    attentionViolations s <= totalViolations s /\
    forall o : Op,
      let s' := step euclideanDistance o s in
      totalViolations s <= totalViolations s' /\
      attentionViolations s <= attentionViolations s' /\
      attentionViolations s' - attentionViolations s
      <= totalViolations s' - totalViolations s /\
      attentionViolations s' <= totalViolations s'.
Proof.
  intros dist parse s R. split.
  - exact (counters_reachable R).
  - intros o s'. pose proof (countersStep_step dist o s) as C.
    pose proof (counters_reachable R) as I.
    unfold countersStep in C. fold s' in C. lia.
Qed.

Lemma attentionViolations_le_totalViolations_witness :
  let s :=
    step l1Distance
      (OpLogEvent "Sustained distraction detected" violation 2500)
      freshlyStarted in
  reachable l1Distance decodeSample s /\
  attentionViolations s <= totalViolations s.
Proof.
  assert (R : reachable l1Distance decodeSample
                (step l1Distance
                   (OpLogEvent "Sustained distraction detected" violation
                      2500)
                   freshlyStarted)).
  { apply reachable_step.
    apply (@reachable_step _ _ (OpStartMonitoring true 1000)).
    apply reachable_constructor. }
  split; [exact R|].
  exact (proj1 (attentionViolations_le_totalViolations R)).
Defined.

(** ** What [startMonitoring] resets *)

Lemma startMonitoring_fields modelsLoaded now s :
  let s' := startMonitoring modelsLoaded now s in
  (isMonitoring s' = true /\
   sessionStartTime s' = Some now /\
   lastAttentionState s' = attention_unknown /\
   lastPersonState s' = person_unknown /\
   calibrationFrames s' = 0 /\
   distractionCounter s' = 0 /\
   focusCounter s' = 0 /\
   unauthorizedCounter s' = 0 /\
   authorizedCounter s' = 0 /\
   lastFaceRecogTime s' = 0%Z /\
   faceRecognitionStarted s' = false /\
   violationFrames s' = []) /\
  (totalViolations s' = totalViolations s /\
   attentionViolations s' = attentionViolations s /\
   baselineYaw s' = baselineYaw s /\
   baselinePitch s' = baselinePitch s /\
   baselineGaze s' = baselineGaze s /\
   yawHistory s' = yawHistory s /\
   pitchHistory s' = pitchHistory s /\
   gazeHistory s' = gazeHistory s /\
   lastFaceCount s' = lastFaceCount s /\
   distractionStartTime s' = distractionStartTime s /\
   lastViolationFrameSave s' = lastViolationFrameSave s /\
   enrolledDescriptors s' = enrolledDescriptors s).
Proof.
  unfold startMonitoring. cbv zeta.
  destruct modelsLoaded; repeat split; proj; reflexivity.
Qed.

(** C4. Starting a second session on an object that has been through
    [firstSession] resets the confirmed attention and person states, the
    four stabilisation counters and both logs, but keeps the violation
    count of the first session, its baseline, its signal history, its last
    face count and its open distraction episode. *)
Theorem startMonitoring_second_session :
  let s := startMonitoring true 9000 afterFirstSession in
  (lastAttentionState s = attention_unknown /\
   lastPersonState s = person_unknown /\
   distractionCounter s = 0 /\ focusCounter s = 0 /\
   unauthorizedCounter s = 0 /\ authorizedCounter s = 0 /\
   List.length (sessionEvents s) = 1 /\ List.length (sessionLogs s) = 2) /\
  (totalViolations s = 1 /\
   ~ (baselinePitch s == 0)%Q /\
   List.length (yawHistory s) = 1 /\
   List.length (pitchHistory s) = 1 /\
   lastFaceCount s = 2 /\
   distractionStartTime s = Some 5000%Z).
Proof.
  cbv zeta. repeat split; try (vm_compute; reflexivity).
  intros Z. vm_compute in Z. discriminate.
Qed.

(** ** Presence transitions *)

Lemma faceCountChanges_app l1 l2 :
  faceCountChanges (l1 ++ l2) = faceCountChanges l1 ++ faceCountChanges l2.
Proof. unfold faceCountChanges. apply flat_map_app. Qed.

Lemma onFaceDetectionResults_presence faceCount now s :
  isMonitoring s = true ->
  let s' := onFaceDetectionResults faceCount now s in
  isMonitoring s' = true /\
  lastFaceCount s' = faceCount /\
  sessionEvents s' =
    sessionEvents s ++ presenceEvents (lastFaceCount s) faceCount now /\
  faceCountChanges (sessionLogs s') =
    faceCountChanges (sessionLogs s)
    ++ (if lastFaceCount s =? faceCount then []
        else [(lastFaceCount s, faceCount)]).
Proof.
  intros M. unfold onFaceDetectionResults, presenceEvents.
  destruct s. fields. subst. cbn [negb]. cbv zeta.
  break_inner; expose_all;
    rewrite ?faceCountChanges_app, ?app_nil_r;
    rewrite ?negb_true_iff, ?negb_false_iff in *;
    repeat split; try reflexivity; congruence.
Qed.

Lemma skipn_length_app (A : Type) (l new : list A) :
  skipn (List.length l) (l ++ new) = new.
Proof. induction l; simpl; auto. Qed.

Lemma feedFaceCounts_cons faceCount now frames s :
  feedFaceCounts ((faceCount, now) :: frames) s =
  feedFaceCounts frames (onFaceDetectionResults faceCount now s).
Proof. reflexivity. Qed.

Lemma feedFaceCounts_nil s : feedFaceCounts [] s = s.
Proof. reflexivity. Qed.

Lemma feedFaceCounts_trace frames :
  forall s,
    isMonitoring s = true ->
    sessionEvents (feedFaceCounts frames s) =
      sessionEvents s ++ presenceTrace (lastFaceCount s) frames /\
    faceCountChanges (sessionLogs (feedFaceCounts frames s)) =
      faceCountChanges (sessionLogs s)
      ++ changeTrace (lastFaceCount s) frames.
Proof.
  induction frames as [|[faceCount now] rest IH]; intros s M.
  - rewrite feedFaceCounts_nil. cbn [presenceTrace changeTrace].
    rewrite !app_nil_r. split; reflexivity.
  - rewrite feedFaceCounts_cons.
    destruct (@onFaceDetectionResults_presence faceCount now s M)
      as (M' & L & E & C).
    destruct (IH _ M') as [IE IC].
    rewrite IE, IC, E, C, L. cbn [presenceTrace changeTrace].
    rewrite <- !app_assoc. split; reflexivity.
Qed.

(** C6, as stated, fails on a freshly started system: the first frame of
    the sequence already raises "Single face detected - OK". *)
Lemma presenceScenario_fails_when_fresh :
  ~ presenceScenario freshlyStarted 2001 2002 2003 2004 2005 2006 2007.
Proof.
  unfold presenceScenario. vm_compute. intros [H _]. discriminate H.
Qed.

(** C6 (amended). On a monitoring system whose previous face count is 1,
    the sequence [1,1,0,0,1,2,1] raises exactly the four events "No face
    detected", "Single face detected - OK", "Multiple faces detected",
    "Single face detected - OK", at its third, fifth, sixth and seventh
    frame, and appends exactly four [face_count_change] entries. When the
    previous count is 0, as on a freshly started system, the first frame
    raises one more "Single face detected - OK" and one more
    [face_count_change] entry, five of each in all. *)
Theorem presence_transitions :
  forall (s : ProctoringSystem) (t1 t2 t3 t4 t5 t6 t7 : Z),
    isMonitoring s = true ->
    (lastFaceCount s = 1 -> presenceScenario s t1 t2 t3 t4 t5 t6 t7) /\
    (lastFaceCount s = 0 ->
     let s' :=
       feedFaceCounts
         [(1, t1); (1, t2); (0, t3); (0, t4); (1, t5); (2, t6); (1, t7)] s in
     skipn (List.length (sessionEvents s)) (sessionEvents s') =
       [mkEvent t1 "Single face detected - OK" info;
        mkEvent t3 "No face detected" violation;
        mkEvent t5 "Single face detected - OK" info;
        mkEvent t6 "Multiple faces detected" violation;
        mkEvent t7 "Single face detected - OK" info] /\
     skipn (List.length (faceCountChanges (sessionLogs s)))
       (faceCountChanges (sessionLogs s')) =
       [(0, 1); (1, 0); (0, 1); (1, 2); (2, 1)]).
Proof.
  intros s t1 t2 t3 t4 t5 t6 t7 M.
  pose proof
    (@feedFaceCounts_trace
       [(1, t1); (1, t2); (0, t3); (0, t4); (1, t5); (2, t6); (1, t7)] s M)
    as [E C].
  split; intros L; unfold presenceScenario; cbv zeta;
    rewrite E, C, L, !skipn_length_app; split; reflexivity.
Qed.

Lemma presence_transitions_witness :
  isMonitoring watchingOneFace = true /\
  lastFaceCount watchingOneFace = 1 /\
  presenceScenario watchingOneFace 2001 2002 2003 2004 2005 2006 2007.
Proof.
  assert (M : isMonitoring watchingOneFace = true) by reflexivity.
  assert (L : lastFaceCount watchingOneFace = 1) by reflexivity.
  split; [exact M|]. split; [exact L|].
  exact (proj1 (@presence_transitions _ 2001 2002 2003 2004 2005 2006 2007
                  M) L).
Defined.

(** ** Enrolled descriptors that cannot be decoded *)

Lemma keepsEnrolled_run euclideanDistance ops s :
  keepsEnrolled s (run euclideanDistance ops s).
Proof.
  apply closure_run;
    try solve [intros; unfold keepsEnrolled; congruence];
    intros; unfold keepsEnrolled;
    unfold toBlobCallback, onFaceDetectionResults, calibrateBaseline,
      completeCalibration, analyzeAttention, analyzeGaze, processDistraction,
      startMonitoring, stopMonitoring, performFaceRecognition;
    try match goal with
        | d : DetectResult |- _ => destruct d
        end;
    by_paths.
Qed.

Lemma shouldRunRecognition_inert now s :
  enrolledDescriptors s = None -> shouldRunRecognition now s = false.
Proof. intros E. unfold shouldRunRecognition. rewrite E. reflexivity. Qed.

Lemma processVideo_inert euclideanDistance t face s :
  enrolledDescriptors s = None ->
  processVideo euclideanDistance (withFace t face) s =
  processVideo euclideanDistance t s.
Proof.
  intros E. unfold processVideo.
  destruct (negb (isMonitoring s)); [reflexivity|].
  cbn [withFace tick_detections tick_mesh tick_now tick_face].
  destruct (tick_detections t) as [|faceCount]; [reflexivity|].
  destruct (tick_mesh t) as [|multiFaceLandmarks]; [reflexivity|].
  cbv zeta. rewrite shouldRunRecognition_inert; [reflexivity|].
  pose proof (@keepsEnrolled_run euclideanDistance
                [OpFaceDetectionResults faceCount (tick_now t);
                 OpFaceMeshResults multiFaceLandmarks (tick_now t)] s) as K.
  unfold keepsEnrolled in K. cbn [run fold_left step] in K.
  rewrite K. exact E.
Qed.

(** C9, as stated, fails: when the stored text cannot be decoded, the
    constructor logs no event at all. *)
Lemma malformed_enrolment_logs_no_event :
  decodeSample "{" = None /\
  ~ errorEventLogged (constructor decodeSample (Some "{"%string) 0).
Proof.
  split; [reflexivity|]. intros [e [H _]]. exact H.
Qed.

(** C9 (amended). When the stored text is not empty and cannot be
    decoded, the constructor catches the failure and reports it through
    [console.error] only: no event is logged, no counter moves and
    [enrolledDescriptors] stays [null]. From then on, whatever operations
    follow, [processVideo] never lets face recognition run, and its result
    does not depend on the face that recognition would have seen. *)
Theorem malformed_enrolment_is_inert :
  forall (euclideanDistance : Descriptor -> Descriptor -> Q)
         (parseDescriptors : string -> option (list Descriptor))
         (text : string) (now : Z),
    text <> EmptyString ->
    parseDescriptors text = None ->
    let s0 := constructor parseDescriptors (Some text) now in
    s0 = set_external [console_error "Error loading enrolled face:"] fresh /\
    sessionEvents s0 = [] /\
    sessionLogs s0 = [] /\
    totalViolations s0 = 0 /\
    forall (ops : list Op),
      let s := run euclideanDistance ops s0 in
      enrolledDescriptors s = None /\
      (forall t : Z, shouldRunRecognition t s = false) /\
      (forall (t : Tick) (face : DetectResult),
          processVideo euclideanDistance (withFace t face) s =
          processVideo euclideanDistance t s).
Proof.
  intros dist parse text now N P s0.
  assert (E0 : s0 =
               set_external [console_error "Error loading enrolled face:"]
                 fresh).
  { unfold s0, constructor, loadEnrolledFace.
    destruct text as [|c rest]; [congruence|]. rewrite P. reflexivity. }
  split; [exact E0|]. rewrite E0.
  split; [reflexivity|]. split; [reflexivity|]. split; [reflexivity|].
  intros ops s.
  assert (E : enrolledDescriptors s = None).
  { unfold s. rewrite (@keepsEnrolled_run dist ops _). reflexivity. }
  split; [exact E|]. split.
  - intros t. apply shouldRunRecognition_inert. exact E.
  - intros t face. apply processVideo_inert. exact E.
Qed.

Lemma malformed_enrolment_is_inert_witness :
  ("{" <> EmptyString)%string /\
  decodeSample "{" = None /\
  sessionEvents (constructor decodeSample (Some "{"%string) 0) = [] /\
  shouldRunRecognition 5000
    (run l1Distance [OpStartMonitoring true 1000]
       (constructor decodeSample (Some "{"%string) 0)) = false.
Proof.
  assert (N : ("{" <> EmptyString)%string) by discriminate.
  assert (P : decodeSample "{" = None) by reflexivity.
  split; [exact N|]. split; [exact P|].
  pose proof (@malformed_enrolment_is_inert l1Distance decodeSample
                "{"%string 0 N P) as T.
  cbv zeta in T. destruct T as (_ & EV & _ & _ & RUN).
  split; [exact EV|].
  exact (proj1 (proj2 (RUN [OpStartMonitoring true 1000])) 5000%Z).
Defined.

(** ** Identity verification *)





Section BestDistance.

Variable euclideanDistance : Descriptor -> Descriptor -> Q.
Variable d : Descriptor.










End BestDistance.





Lemma reachable_run euclideanDistance parseDescriptors ops :
  forall s,
    reachable euclideanDistance parseDescriptors s ->
    reachable euclideanDistance parseDescriptors
      (run euclideanDistance ops s).
Proof.
  unfold run. induction ops as [|o ops IH]; intros s R; cbn [fold_left].
  - exact R.
  - apply IH. apply reachable_step. exact R.
Qed.


(** ** Calibration *)


(** One calibration frame, field by field. *)
Lemma calibration_frame f s :
  isMonitoring s = true ->
  calibrationFrames s < CONFIG.CALIBRATION.MAX_FRAMES ->
  let s' :=
    onFaceMeshResults (frame_landmarks f :: frame_others f) (frame_now f) s in
  isMonitoring s' = true /\
  calibrationFrames s' = S (calibrationFrames s) /\
  baselineYaw s' =
    (baselineYaw s * (1 - CONFIG.CALIBRATION.EMA_ALPHA)
     + rawYaw f * CONFIG.CALIBRATION.EMA_ALPHA)%Q /\
  baselinePitch s' =
    (baselinePitch s * (1 - CONFIG.CALIBRATION.EMA_ALPHA)
     + rawPitch f * CONFIG.CALIBRATION.EMA_ALPHA)%Q /\
  baselineGaze s' =
    match avgGazeOf (frame_landmarks f) with
    | Some g =>
        (baselineGaze s * (1 - CONFIG.CALIBRATION.EMA_ALPHA)
         + g * CONFIG.CALIBRATION.EMA_ALPHA)%Q
    | None => baselineGaze s
    end.
Proof.
  intros M C. unfold onFaceMeshResults, calibrateBaseline, rawYaw, rawPitch.
  apply Nat.ltb_lt in C.
  destruct s. fields. subst. rewrite C. cbn [negb]. cbv zeta.
  destruct (avgGazeOf (frame_landmarks f)); expose;
    repeat split; reflexivity.
Qed.











(** ** Views of the state.
    The calibration side and the attention side of the state, each with
    the log entries and events that belong to it. *)

Lemma completions_app l1 l2 :
  completions (l1 ++ l2) = completions l1 ++ completions l2.
Proof. unfold completions. apply flat_map_app. Qed.

Lemma attentionChanges_app l1 l2 :
  attentionChanges (l1 ++ l2) = attentionChanges l1 ++ attentionChanges l2.
Proof. unfold attentionChanges. apply flat_map_app. Qed.

Lemma machineEvents_app l1 l2 :
  machineEvents (l1 ++ l2) = machineEvents l1 ++ machineEvents l2.
Proof. unfold machineEvents. apply filter_app. Qed.

Lemma calibrationView_inv s s' :
  calibrationView s' = calibrationView s ->
  calibrationFrames s' = calibrationFrames s /\
  baselineYaw s' = baselineYaw s /\
  baselinePitch s' = baselinePitch s /\
  baselineGaze s' = baselineGaze s /\
  completions (sessionLogs s') = completions (sessionLogs s).
Proof.
  unfold calibrationView. intros H. injection H. intros. repeat split;
    assumption.
Qed.

Lemma attentionView_inv s s' :
  attentionView s' = attentionView s ->
  yawHistory s' = yawHistory s /\
  pitchHistory s' = pitchHistory s /\
  gazeHistory s' = gazeHistory s /\
  distractionCounter s' = distractionCounter s /\
  focusCounter s' = focusCounter s /\
  lastAttentionState s' = lastAttentionState s /\
  distractionStartTime s' = distractionStartTime s /\
  attentionChanges (sessionLogs s') = attentionChanges (sessionLogs s) /\
  machineEvents (sessionEvents s') = machineEvents (sessionEvents s).
Proof.
  unfold attentionView. intros H. injection H. intros. repeat split;
    assumption.
Qed.

Ltac view_paths :=
  match goal with
  | s : ProctoringSystem |- _ =>
      unfold bystander, calibrationView, attentionView;
      destruct s; cbv zeta; break_inner; expose;
      rewrite ?completions_app, ?attentionChanges_app, ?machineEvents_app;
      cbn [completions attentionChanges machineEvents flat_map filter body
           isSustainedDistraction isFocusRestored ev_message String.eqb
           Ascii.eqb Bool.eqb orb andb app];
      rewrite ?app_nil_r; try (split; reflexivity); try reflexivity
  end.

Lemma bystander_refl s : bystander s s.
Proof. split; reflexivity. Qed.

Lemma bystander_trans s1 s2 s3 :
  bystander s1 s2 -> bystander s2 s3 -> bystander s1 s3.
Proof. unfold bystander. intros [A B] [C D]. split; congruence. Qed.

Lemma bystander_onFaceDetectionResults faceCount now s :
  bystander s (onFaceDetectionResults faceCount now s).
Proof. unfold onFaceDetectionResults. view_paths. Qed.

Lemma bystander_toBlobCallback message blob now s :
  bystander s (toBlobCallback message blob now s).
Proof. unfold toBlobCallback. view_paths. Qed.

Lemma bystander_stopMonitoring now s : bystander s (stopMonitoring now s).
Proof. unfold stopMonitoring. view_paths. Qed.

Lemma bystander_performFaceRecognition euclideanDistance detection now s :
  bystander s (performFaceRecognition euclideanDistance detection now s).
Proof.
  unfold performFaceRecognition. destruct detection as [| |descriptor];
    view_paths.
Qed.

Lemma bystander_recognitionStamp now s :
  bystander s (set_faceRecognitionStarted true (set_lastFaceRecogTime now s)).
Proof. split; reflexivity. Qed.

Lemma bystander_set_external calls s : bystander s (set_external calls s).
Proof. split; reflexivity. Qed.

Lemma isMonitoring_onFaceDetectionResults faceCount now s :
  isMonitoring (onFaceDetectionResults faceCount now s) = isMonitoring s.
Proof. unfold onFaceDetectionResults. by_paths. Qed.

(** ** The attention state machine, frame by frame *)

Lemma onFaceMeshResults_analysing landmarks others now s :
  isMonitoring s = true ->
  CONFIG.CALIBRATION.MAX_FRAMES <= calibrationFrames s ->
  onFaceMeshResults (landmarks :: others) now s =
  processDistraction
    (fst (verdictOf landmarks (completeCalibration now s)))
    (snd (verdictOf landmarks (completeCalibration now s)))
    now (afterAnalysis landmarks (completeCalibration now s)).
Proof.
  intros M C. unfold onFaceMeshResults, verdictOf, afterAnalysis.
  rewrite M. cbn [negb]. apply Nat.ltb_ge in C. rewrite C. cbv zeta.
  destruct (analyzeAttention landmarks (completeCalibration now s))
    as [attention s2].
  cbn [fst snd]. destruct (analyzeGaze landmarks s2) as [gaze s3].
  reflexivity.
Qed.

(** What the calibration-to-monitoring transition touches. *)
Lemma completeCalibration_effect now s :
  let s' := completeCalibration now s in
  let first := calibrationFrames s =? CONFIG.CALIBRATION.MAX_FRAMES in
  isMonitoring s' = isMonitoring s /\
  attentionView s' = attentionView s /\
  calibrationFrames s' =
    (if first then S (calibrationFrames s) else calibrationFrames s) /\
  baselineYaw s' = baselineYaw s /\
  baselinePitch s' = baselinePitch s /\
  baselineGaze s' = baselineGaze s /\
  completions (sessionLogs s') =
    completions (sessionLogs s)
    ++ (if first
        then [(baselineYaw s, baselinePitch s, baselineGaze s)] else []) /\
  sessionEvents s' =
    sessionEvents s ++ (if first then [calibrationCompleteEvent now] else []).
Proof.
  unfold completeCalibration, attentionView, calibrationCompleteEvent.
  destruct s. cbv zeta. fields.
  destruct (_ =? CONFIG.CALIBRATION.MAX_FRAMES); expose;
    rewrite ?completions_app, ?attentionChanges_app, ?machineEvents_app;
    cbn [completions attentionChanges machineEvents flat_map filter body
         isSustainedDistraction isFocusRestored ev_message String.eqb
         Ascii.eqb Bool.eqb orb andb app];
    rewrite ?app_nil_r; repeat split; reflexivity.
Qed.

(** The verdicts read the baseline and the histories, nothing else. *)
Lemma verdictOf_ext landmarks s1 s2 :
  baselineYaw s1 = baselineYaw s2 ->
  baselinePitch s1 = baselinePitch s2 ->
  baselineGaze s1 = baselineGaze s2 ->
  yawHistory s1 = yawHistory s2 ->
  pitchHistory s1 = pitchHistory s2 ->
  gazeHistory s1 = gazeHistory s2 ->
  verdictOf landmarks s1 = verdictOf landmarks s2.
Proof.
  intros BY BP BG HY HP HG.
  unfold verdictOf, analyzeAttention, analyzeGaze. cbv zeta. fields.
  rewrite BY, BP, HY, HP. f_equal.
  destruct (lm468 landmarks); [|reflexivity].
  destruct (lm473 landmarks); [|reflexivity].
  destruct (GeometryUtils.calculateGaze _ _ _); [|reflexivity].
  destruct (GeometryUtils.calculateGaze _ _ _); [|reflexivity].
  fields. rewrite BG, HG. reflexivity.
Qed.

Lemma verdictOf_completeCalibration landmarks now s :
  verdictOf landmarks (completeCalibration now s) = verdictOf landmarks s.
Proof.
  destruct (completeCalibration_effect now s)
    as (_ & A & _ & BY & BP & BG & _).
  destruct (attentionView_inv A) as (HY & HP & HG & _).
  apply verdictOf_ext; assumption.
Qed.

(** The analyses push onto the histories and touch nothing else that the
    state machine or the calibration reads. *)
Lemma afterAnalysis_effect landmarks s :
  let s' := afterAnalysis landmarks s in
  isMonitoring s' = isMonitoring s /\
  calibrationView s' = calibrationView s /\
  distractionCounter s' = distractionCounter s /\
  focusCounter s' = focusCounter s /\
  lastAttentionState s' = lastAttentionState s /\
  distractionStartTime s' = distractionStartTime s /\
  sessionLogs s' = sessionLogs s /\
  sessionEvents s' = sessionEvents s.
Proof.
  unfold afterAnalysis, analyzeAttention, analyzeGaze, calibrationView.
  destruct s. cbv zeta. cbn [snd].
  break_match; cbn [snd]; expose; repeat split; reflexivity.
Qed.

(** The state machine, as a function of the verdict. *)
Lemma processDistraction_effect attention gaze now s :
  let s' := processDistraction attention gaze now s in
  isMonitoring s' = isMonitoring s /\
  calibrationView s' = calibrationView s /\
  if AttentionState_eqb attention distracted
     || AttentionState_eqb gaze distracted
  then
    distractionCounter s' = S (distractionCounter s) /\
    focusCounter s' = 0 /\
    distractionStartTime s' = Some (episodeStart now s) /\
    if confirmsDistraction now s
    then lastAttentionState s' = distracted /\
         sessionEvents s' = sessionEvents s ++ [sustainedDistraction now] /\
         attentionChanges (sessionLogs s') =
           attentionChanges (sessionLogs s)
           ++ [(distracted, Some (now - episodeStart now s)%Z,
                Some (if AttentionState_eqb attention distracted
                      then head_movement else gaze_shift))]
    else lastAttentionState s' = lastAttentionState s /\
         sessionEvents s' = sessionEvents s /\
         attentionChanges (sessionLogs s') = attentionChanges (sessionLogs s)
  else
    focusCounter s' = S (focusCounter s) /\
    distractionCounter s' = 0 /\
    distractionStartTime s' = None /\
    if confirmsFocus s
    then lastAttentionState s' = focused /\
         sessionEvents s' = sessionEvents s ++ [focusRestored now] /\
         attentionChanges (sessionLogs s') =
           attentionChanges (sessionLogs s) ++ [(focused, None, None)]
    else lastAttentionState s' = lastAttentionState s /\
         sessionEvents s' = sessionEvents s /\
         attentionChanges (sessionLogs s') = attentionChanges (sessionLogs s).
Proof.
  unfold processDistraction, confirmsDistraction, confirmsFocus,
    episodeStart, calibrationView, sustainedDistraction, focusRestored.
  destruct s. cbv zeta. fields.
  break_inner; expose_all;
    rewrite ?completions_app, ?attentionChanges_app;
    cbn [completions attentionChanges flat_map body app];
    rewrite ?app_nil_r;
    rewrite ?andb_true_iff, ?andb_false_iff in *;
    repeat split; try reflexivity; try congruence;
    try (exfalso; intuition congruence).
Qed.

(** One landmark frame after calibration: the calibration side moves
    only on the first such frame, and the attention side follows the
    verdict of the frame. *)
Lemma analysing_frame landmarks others now s :
  isMonitoring s = true ->
  CONFIG.CALIBRATION.MAX_FRAMES <= calibrationFrames s ->
  let s' := onFaceMeshResults (landmarks :: others) now s in
  let first := calibrationFrames s =? CONFIG.CALIBRATION.MAX_FRAMES in
  (isMonitoring s' = true /\
   calibrationFrames s' =
     (if first then S (calibrationFrames s) else calibrationFrames s) /\
   baselineYaw s' = baselineYaw s /\
   baselinePitch s' = baselinePitch s /\
   baselineGaze s' = baselineGaze s /\
   completions (sessionLogs s') =
     completions (sessionLogs s)
     ++ (if first
         then [(baselineYaw s, baselinePitch s, baselineGaze s)] else [])) /\
  if perFrameDistracted landmarks s
  then
    distractionCounter s' = S (distractionCounter s) /\
    focusCounter s' = 0 /\
    distractionStartTime s' = Some (episodeStart now s) /\
    lastAttentionState s' =
      (if confirmsDistraction now s then distracted
       else lastAttentionState s) /\
    sessionEvents s' =
      sessionEvents s
      ++ (if first then [calibrationCompleteEvent now] else [])
      ++ (if confirmsDistraction now s then [sustainedDistraction now]
          else [])
  else
    focusCounter s' = S (focusCounter s) /\
    distractionCounter s' = 0 /\
    distractionStartTime s' = None /\
    lastAttentionState s' =
      (if confirmsFocus s then focused else lastAttentionState s) /\
    sessionEvents s' =
      sessionEvents s
      ++ (if first then [calibrationCompleteEvent now] else [])
      ++ (if confirmsFocus s then [focusRestored now] else []).
Proof.
  intros M C. cbv zeta.
  rewrite (@onFaceMeshResults_analysing landmarks others now s M C).
  unfold perFrameDistracted.
  rewrite verdictOf_completeCalibration.
  destruct (completeCalibration_effect now s)
    as (M1 & A1 & C1 & BY1 & BP1 & BG1 & L1 & E1).
  revert M1 A1 C1 BY1 BP1 BG1 L1 E1.
  generalize (completeCalibration now s). intros s1.
  intros M1 A1 C1 BY1 BP1 BG1 L1 E1.
  destruct (attentionView_inv A1) as (HY & HP & HG & DC & FC & LA & DS & _).
  clear A1.
  destruct (afterAnalysis_effect landmarks s1)
    as (M3 & V3 & DC3 & FC3 & LA3 & DS3 & L3 & E3).
  revert M3 V3 DC3 FC3 LA3 DS3 L3 E3.
  generalize (afterAnalysis landmarks s1). intros s3.
  intros M3 V3 DC3 FC3 LA3 DS3 L3 E3.
  destruct (calibrationView_inv V3) as (C3 & BY3 & BP3 & BG3 & CL3).
  clear V3.
  pose proof (processDistraction_effect
                (fst (verdictOf landmarks s)) (snd (verdictOf landmarks s))
                now s3) as PD.
  cbv zeta in PD. destruct PD as (M4 & V4 & PD).
  destruct (calibrationView_inv V4) as (C4 & BY4 & BP4 & BG4 & CL4).
  clear V4.
  assert (CD : confirmsDistraction now s3 = confirmsDistraction now s).
  { unfold confirmsDistraction, episodeStart.
    rewrite DC3, LA3, DS3, DC, LA, DS. reflexivity. }
  assert (CF : confirmsFocus s3 = confirmsFocus s).
  { unfold confirmsFocus. rewrite FC3, LA3, FC, LA. reflexivity. }
  assert (ES : episodeStart now s3 = episodeStart now s).
  { unfold episodeStart. rewrite DS3, DS. reflexivity. }
  split.
  - rewrite M4, M3, M1, C4, C3, C1, BY4, BY3, BY1, BP4, BP3, BP1, BG4, BG3,
      BG1, CL4, L3, L1. repeat split; try reflexivity. exact M.
  - destruct (AttentionState_eqb (fst (verdictOf landmarks s)) distracted
              || AttentionState_eqb (snd (verdictOf landmarks s)) distracted).
    + destruct PD as (D4 & F4 & S4 & PD). rewrite CD in PD.
      rewrite D4, F4, S4, DC3, DC, ES.
      destruct (confirmsDistraction now s);
        destruct PD as (LA4 & EV4 & _); rewrite LA4, EV4, E3, E1, ?LA3, ?LA;
        rewrite <- ?app_assoc, ?app_nil_r; repeat split; reflexivity.
    + destruct PD as (F4 & D4 & S4 & PD). rewrite CF in PD.
      rewrite D4, F4, S4, FC3, FC.
      destruct (confirmsFocus s);
        destruct PD as (LA4 & EV4 & _); rewrite LA4, EV4, E3, E1, ?LA3, ?LA;
        rewrite <- ?app_assoc, ?app_nil_r; repeat split; reflexivity.
Qed.

(** ** Hysteresis over a sequence of frames *)

Lemma feedMesh_cons f rest s :
  feedMesh (f :: rest) s = feedMesh rest (feedMesh [f] s).
Proof. reflexivity. Qed.

Lemma feedMesh_app pre post :
  forall s, feedMesh (pre ++ post) s = feedMesh post (feedMesh pre s).
Proof. intros s. unfold feedMesh. apply fold_left_app. Qed.

Lemma verdicts_app pre post :
  forall s,
    verdicts (pre ++ post) s =
    verdicts pre s ++ verdicts post (feedMesh pre s).
Proof.
  induction pre as [|f pre IH]; intros s; [reflexivity|].
  cbn [app verdicts]. rewrite IH, (feedMesh_cons f pre). reflexivity.
Qed.

Lemma openRunFrom_app open vs ws :
  openRunFrom open (vs ++ ws) = openRunFrom (openRunFrom open vs) ws.
Proof. unfold openRunFrom. apply fold_left_app. Qed.

Lemma hd_error_snoc (open : list Z) (t : Z) :
  hd_error (open ++ [t]) =
  Some (match hd_error open with Some t0 => t0 | None => t end).
Proof. destruct open; reflexivity. Qed.

(** The counter and the episode start follow the open run. *)
Lemma feedMesh_openRun frames :
  forall s open,
    isMonitoring s = true ->
    CONFIG.CALIBRATION.MAX_FRAMES <= calibrationFrames s ->
    distractionCounter s = List.length open ->
    distractionStartTime s = hd_error open ->
    let s' := feedMesh frames s in
    let open' := openRunFrom open (verdicts frames s) in
    isMonitoring s' = true /\
    CONFIG.CALIBRATION.MAX_FRAMES <= calibrationFrames s' /\
    distractionCounter s' = List.length open' /\
    distractionStartTime s' = hd_error open'.
Proof.
  induction frames as [|f rest IH]; intros s open M C DC DS; cbv zeta.
  - repeat split; assumption.
  - rewrite feedMesh_cons. cbn [verdicts openRunFrom fold_left].
    change (fold_left extendRun ?vs ?o) with (openRunFrom o vs).
    pose proof (@analysing_frame (frame_landmarks f) (frame_others f)
                  (frame_now f) s M C) as [(M1 & C1 & _) A].
    change (onFaceMeshResults (frame_landmarks f :: frame_others f)
              (frame_now f) s) with (feedMesh [f] s) in *.
    assert (C1' : CONFIG.CALIBRATION.MAX_FRAMES
                  <= calibrationFrames (feedMesh [f] s)).
    { rewrite C1. destruct (_ =? _); lia. }
    apply IH; try assumption; unfold extendRun; cbn [fst snd];
      destruct (perFrameDistracted (frame_landmarks f) s).
    + destruct A as (D & _). rewrite D, DC, length_app. cbn. lia.
    + destruct A as (_ & D & _). rewrite D. reflexivity.
    + destruct A as (_ & _ & S & _). rewrite S, hd_error_snoc.
      unfold episodeStart. rewrite DS. reflexivity.
    + destruct A as (_ & _ & S & _). rewrite S. reflexivity.
Qed.

Lemma calibrationCompleteEvent_not_sustained now t :
  calibrationCompleteEvent now <> sustainedDistraction t.
Proof. discriminate. Qed.

Lemma focusRestored_not_sustained now t :
  focusRestored now <> sustainedDistraction t.
Proof. discriminate. Qed.

Lemma In_after_first (first : bool) (c e : Event) (extra : list Event) :
  c <> e ->
  (In e ((if first then [c] else []) ++ extra) <-> In e extra).
Proof.
  intros N. destruct first; cbn [app In]; [|reflexivity].
  split; [intros [H|H]; [congruence|exact H]|intros H; right; exact H].
Qed.

(** The operations that stay away from both sides change neither the
    verdict on a frame nor what the state machine would do with it. *)
Lemma bystander_attention landmarks now s s' :
  bystander s s' ->
  perFrameDistracted landmarks s' = perFrameDistracted landmarks s /\
  confirmsDistraction now s' = confirmsDistraction now s /\
  distractionCounter s' = distractionCounter s /\
  distractionStartTime s' = distractionStartTime s.
Proof.
  intros [V A].
  destruct (calibrationView_inv V) as (_ & BY & BP & BG & _).
  destruct (attentionView_inv A) as (HY & HP & HG & DC & _ & LA & DS & _).
  unfold perFrameDistracted, confirmsDistraction, episodeStart.
  rewrite (@verdictOf_ext landmarks s' s BY BP BG HY HP HG), DC, LA, DS.
  repeat split; reflexivity.
Qed.
(** ** A distraction episode left open by an earlier session *)

(** C1. In a second session on the same object the distraction is
    confirmed too early. [startMonitoring] puts [distractionCounter] back
    to 0 but leaves [distractionStartTime] as the first session left it
    (5000 here). Three Distracted frames at 11000, 11010 and 11020 are
    then the whole run of Distracted frames, and the third confirms the
    distraction (the "Sustained distraction detected" violation, the
    confirmed state Distracted) although only 20 ms separate it from the
    first frame of the run; the entry logged gives 6020 ms as the
    duration. *)
Theorem distraction_confirmed_on_a_stale_episode :
  let s0 := afterSecondCalibration in
  let s := feedMesh quickTurn s0 in
  let s' := onFaceMeshResults [turned] 11020 s in
  let run := openRun (verdicts (quickTurn ++ [quickTurnLast]) s0) in
  (reachable l1Distance decodeSample s0 /\
   isMonitoring s0 = true /\
   calibrationFrames s0 = 45 /\
   distractionCounter s0 = 0 /\
   distractionStartTime s0 = Some 5000%Z) /\
  (run = [11000; 11010; 11020]%Z /\
   lastAttentionState s <> distracted /\
   distractionConfirmed 11020 s s') /\
  (~ (2000 <= 11020 - hd 11020%Z run)%Z /\
   attentionChanges (sessionLogs s')
   = [(distracted, Some 6020%Z, Some head_movement)]).
Proof.
  intros s0 s s' run.
  assert (T : (isMonitoring s0, calibrationFrames s0, distractionCounter s0,
               distractionStartTime s0, run, lastAttentionState s,
               skipn (List.length (sessionEvents s)) (sessionEvents s'),
               lastAttentionState s', attentionChanges (sessionLogs s'))
              = (true, 45, 0, Some 5000%Z, [11000; 11010; 11020]%Z,
                 attention_unknown, [sustainedDistraction 11020], distracted,
                 [(distracted, Some 6020%Z, Some head_movement)]))
    by (vm_compute; reflexivity).
  repeat (apply pair_equal_spec in T;
          let H := fresh "T" in destruct T as [T H]).
  rename T into M, T0 into L, T1 into A', T2 into E, T3 into A, T4 into R,
    T5 into S, T6 into D, T7 into C.
  split; [|split].
  - split; [apply reachable_run; apply reachable_constructor|].
    repeat split; assumption.
  - split; [exact R|]. split; [rewrite A; discriminate|].
    unfold distractionConfirmed. rewrite E, A, A'.
    split; [left; reflexivity|]. split; [discriminate|reflexivity].
  - split; [rewrite R; cbn; lia|exact L].
Qed.

(** ** The hysteresis of a session that starts with no episode open *)

(** X26. Take landmark frames after calibration, starting from a state in
    which no distraction episode is open: [distractionCounter] is 0 and
    [distractionStartTime] is null, as in the first session of an object
    and after any Focused frame. On each frame, a distraction is confirmed
    (the "Sustained distraction detected" violation is raised and the
    confirmed state becomes Distracted) exactly when the frame is
    Distracted, it is at least the third of the Distracted frames that end
    the sequence without a Focused frame between them, at least 2000 ms
    separate it from the first of them, and the confirmed state was not
    Distracted already. A Focused frame puts the counter back to 0 and
    clears the episode start. *)
Theorem distraction_hysteresis :
  forall (s0 : ProctoringSystem) (pre : list MeshFrame) (f : MeshFrame),
    isMonitoring s0 = true ->
    45 <= calibrationFrames s0 ->
    distractionCounter s0 = 0 ->
    distractionStartTime s0 = None ->
    let s := feedMesh pre s0 in
    let s' :=
      onFaceMeshResults (frame_landmarks f :: frame_others f)
        (frame_now f) s in
    let run := openRun (verdicts (pre ++ [f]) s0) in
    (distractionConfirmed (frame_now f) s s' <->
     perFrameDistracted (frame_landmarks f) s = true /\
     3 <= List.length run /\
     (2000 <= frame_now f - hd (frame_now f) run)%Z /\
     lastAttentionState s <> distracted) /\
    (perFrameDistracted (frame_landmarks f) s = false ->
     run = [] /\
     distractionCounter s' = 0 /\
     distractionStartTime s' = None).
Proof.
  intros s0 pre f M0 C0 DC0 DS0 s s' run.
  destruct (@feedMesh_openRun pre s0 [] M0 C0 DC0 DS0) as (M & C & DC & DS).
  fold s in M, C, DC, DS.
  change (openRunFrom [] (verdicts pre s0)) with (openRun (verdicts pre s0))
    in DC, DS.
  assert (R : run =
              extendRun (openRun (verdicts pre s0))
                (perFrameDistracted (frame_landmarks f) s, frame_now f)).
  { unfold run, openRun. rewrite verdicts_app, openRunFrom_app. reflexivity. }
  pose proof (@analysing_frame (frame_landmarks f) (frame_others f)
                (frame_now f) s M C) as [_ A].
  fold s' in A. unfold extendRun in R. cbn [fst snd] in R.
  destruct (perFrameDistracted (frame_landmarks f) s).
  - destruct A as (_ & _ & _ & LA & EV).
    assert (CD : confirmsDistraction (frame_now f) s = true <->
                 3 <= List.length run /\
                 (2000 <= frame_now f - hd (frame_now f) run)%Z /\
                 lastAttentionState s <> distracted).
    { unfold confirmsDistraction, episodeStart,
        CONFIG.STABILIZATION.THRESHOLD,
        CONFIG.ATTENTION.MIN_DISTRACTION_DURATION.
      rewrite !andb_true_iff, Nat.leb_le, Z.leb_le, negb_true_iff.
      rewrite R, length_app, DC, DS. cbn [List.length].
      replace (hd (frame_now f) (openRun (verdicts pre s0) ++ [frame_now f]))
        with (match hd_error (openRun (verdicts pre s0)) with
              | Some t => t
              | None => frame_now f
              end) by (destruct (openRun (verdicts pre s0)); reflexivity).
      split.
      - intros [[H1 H2] H3]. split; [lia|]. split; [exact H2|].
        intros E. apply AttentionState_eqb_eq in E. congruence.
      - intros (H1 & H2 & H3). split; [split; [lia|exact H2]|].
        destruct (AttentionState_eqb (lastAttentionState s) distracted) eqn:E;
          [|reflexivity].
        apply AttentionState_eqb_eq in E. contradiction. }
    split; [|discriminate].
    unfold distractionConfirmed. rewrite EV, LA, skipn_length_app.
    rewrite In_after_first by apply calibrationCompleteEvent_not_sustained.
    rewrite <- CD.
    destruct (confirmsDistraction (frame_now f) s) eqn:F.
    + split; [intros _; repeat split; reflexivity|].
      intros _. split; [left; reflexivity|].
      split; [|reflexivity].
      destruct (proj1 CD eq_refl) as (_ & _ & H). exact H.
    + split; [intros [I _]; destruct I|intros [_ H]; discriminate].
  - destruct A as (_ & DC' & DS' & LA & EV).
    split.
    + unfold distractionConfirmed. rewrite EV, skipn_length_app.
      rewrite In_after_first by apply calibrationCompleteEvent_not_sustained.
      split; [|intros [H _]; discriminate].
      intros [I _]. exfalso.
      destruct (confirmsFocus s); cbn [In] in I; [|exact I].
      destruct I as [I|[]].
      exact (focusRestored_not_sustained I).
    + intros _. repeat split; assumption.
Qed.

Lemma distraction_hysteresis_witness :
  isMonitoring calibrated = true /\
  45 <= calibrationFrames calibrated /\
  distractionCounter calibrated = 0 /\
  distractionStartTime calibrated = None /\
  distractionConfirmed 7100
    (feedMesh [mkMeshFrame turned [] 5000; mkMeshFrame turned [] 6000]
       calibrated)
    (onFaceMeshResults [turned] 7100
       (feedMesh [mkMeshFrame turned [] 5000; mkMeshFrame turned [] 6000]
          calibrated)).
Proof.
  assert (M : isMonitoring calibrated = true) by (vm_compute; reflexivity).
  assert (C : 45 <= calibrationFrames calibrated)
    by (vm_compute; apply le_n).
  assert (D : distractionCounter calibrated = 0) by (vm_compute; reflexivity).
  assert (S : distractionStartTime calibrated = None)
    by (vm_compute; reflexivity).
  split; [exact M|]. split; [exact C|]. split; [exact D|]. split; [exact S|].
  apply (proj1 (@distraction_hysteresis calibrated
                  [mkMeshFrame turned [] 5000; mkMeshFrame turned [] 6000]
                  (mkMeshFrame turned [] 7100) M C D S)).
  split; [vm_compute; reflexivity|].
  split; [vm_compute; lia|].
  split; [vm_compute; discriminate|].
  vm_compute. discriminate.
Defined.

(** ** The calibration phase of a session *)

Lemma calibrationInv_bystander a0 s s' :
  bystander s s' ->
  calibrationInv a0 s ->
  calibrationInv a0 s' /\ calibrationFrames s' = calibrationFrames s.
Proof.
  intros [V A] (I1 & I2 & I3).
  destruct (calibrationView_inv V) as (C & BY & BP & BG & L).
  unfold calibrationInv. rewrite C, BY, BP, BG, L, A. auto.
Qed.

(** A calibration frame leaves the attention side and the log of
    completions alone. *)
Lemma calibration_frame_views landmarks others now s :
  isMonitoring s = true ->
  calibrationFrames s < CONFIG.CALIBRATION.MAX_FRAMES ->
  let s' := onFaceMeshResults (landmarks :: others) now s in
  attentionView s' = attentionView s /\
  completions (sessionLogs s') = completions (sessionLogs s) /\
  calibrationFrames s' = S (calibrationFrames s).
Proof.
  intros M C. unfold onFaceMeshResults, calibrateBaseline, attentionView.
  apply Nat.ltb_lt in C.
  destruct s. fields. subst. rewrite C. cbn [negb]. cbv zeta.
  destruct (avgGazeOf landmarks); expose; repeat split; reflexivity.
Qed.

Lemma calibrationInv_onFaceMeshResults a0 multiFaceLandmarks now s :
  calibrationInv a0 s ->
  let s' := onFaceMeshResults multiFaceLandmarks now s in
  calibrationInv a0 s' /\
  isMonitoring s' = isMonitoring s /\
  calibrationFrames s' =
    Nat.min 46
      (calibrationFrames s
       + (if isMonitoring s && hasLandmarks multiFaceLandmarks
          then 1 else 0)).
Proof.
  intros (I1 & I2 & I3). cbv zeta.
  destruct (isMonitoring s) eqn:M.
  2:{ unfold onFaceMeshResults. rewrite M. cbn [negb andb].
      rewrite M, Nat.add_0_r, Nat.min_r by exact I1.
      repeat split; assumption. }
  destruct multiFaceLandmarks as [|landmarks others].
  { unfold onFaceMeshResults. rewrite M. cbn [negb andb hasLandmarks].
    rewrite M, Nat.add_0_r, Nat.min_r by exact I1.
    repeat split; assumption. }
  cbn [andb hasLandmarks].
  destruct (le_lt_dec CONFIG.CALIBRATION.MAX_FRAMES (calibrationFrames s))
    as [G|L]; unfold CONFIG.CALIBRATION.MAX_FRAMES in *.
  - destruct (@analysing_frame landmarks others now s M G)
      as [(M' & C' & BY & BP & BG & CL) _].
    unfold CONFIG.CALIBRATION.MAX_FRAMES in *.
    unfold calibrationInv. rewrite M', C', BY, BP, BG, CL, I2.
    destruct (calibrationFrames s =? 45) eqn:E.
    + apply Nat.eqb_eq in E. rewrite E. cbn.
      repeat split; try reflexivity; lia.
    + apply Nat.eqb_neq in E.
      assert (E46 : calibrationFrames s = 46) by lia.
      rewrite E46. cbn. repeat split; try reflexivity; lia.
  - destruct (@calibration_frame (mkMeshFrame landmarks others now) s M L)
      as (M' & _).
    destruct (@calibration_frame_views landmarks others now s M L)
      as (A & CL & C').
    cbn [frame_landmarks frame_others frame_now] in M'.
    unfold calibrationInv. rewrite M', C', CL, A, I2.
    assert (B1 : (calibrationFrames s <=? 45) = true)
      by (apply Nat.leb_le; lia).
    assert (B2 : (S (calibrationFrames s) <=? 45) = true)
      by (apply Nat.leb_le; lia).
    rewrite B1, B2.
    repeat split; try reflexivity; try lia.
    intros _. apply I3. lia.
Qed.

Section CalibrationRun.

Variable euclideanDistance : Descriptor -> Descriptor -> Q.

Lemma calibrationInv_processVideo a0 t s :
  calibrationInv a0 s ->
  let s' := processVideo euclideanDistance t s in
  calibrationInv a0 s' /\
  calibrationFrames s' =
    Nat.min 46
      (calibrationFrames s
       + (if landmarkFrame (OpProcessVideo t) s then 1 else 0)).
Proof.
  intros I. pose proof I as (I1 & _). cbv zeta.
  unfold processVideo, landmarkFrame.
  destruct (isMonitoring s) eqn:M; cbn [negb andb].
  2:{ rewrite Nat.add_0_r, Nat.min_r by exact I1. split; [exact I|auto]. }
  destruct (tick_detections t) as [|faceCount].
  { rewrite Nat.add_0_r, Nat.min_r by exact I1.
    apply calibrationInv_bystander; [apply bystander_set_external|exact I]. }
  pose proof (bystander_onFaceDetectionResults faceCount (tick_now t) s) as B1.
  pose proof (isMonitoring_onFaceDetectionResults faceCount (tick_now t) s)
    as M1.
  rewrite M in M1. revert B1 M1.
  generalize (onFaceDetectionResults faceCount (tick_now t) s).
  intros s1 B1 M1.
  destruct (calibrationInv_bystander B1 I) as [J1 C1].
  destruct (tick_mesh t) as [|multiFaceLandmarks].
  { rewrite Nat.add_0_r, Nat.min_r by exact I1. rewrite <- C1.
    apply calibrationInv_bystander; [apply bystander_set_external|exact J1]. }
  cbv zeta.
  destruct (@calibrationInv_onFaceMeshResults a0 multiFaceLandmarks
              (tick_now t) s1 J1) as (J2 & _ & C2).
  rewrite M1, C1 in C2. cbn [andb] in C2. revert J2 C2.
  generalize (onFaceMeshResults multiFaceLandmarks (tick_now t) s1).
  intros s2 J2 C2.
  destruct (shouldRunRecognition (tick_now t) s2).
  - rewrite <- C2.
    apply calibrationInv_bystander; [|exact J2].
    eapply bystander_trans;
      [apply bystander_recognitionStamp
      |apply bystander_performFaceRecognition].
  - split; [exact J2|exact C2].
Qed.

Lemma calibrationInv_step a0 o s :
  isFrameOp o = true ->
  calibrationInv a0 s ->
  let s' := step euclideanDistance o s in
  calibrationInv a0 s' /\
  calibrationFrames s' =
    Nat.min 46 (calibrationFrames s + (if landmarkFrame o s then 1 else 0)).
Proof.
  intros F I. pose proof I as (I1 & _). cbv zeta.
  destruct o; try discriminate F; cbn [step landmarkFrame];
    rewrite ?Nat.add_0_r, ?Nat.min_r by exact I1.
  - apply calibrationInv_bystander; [apply bystander_stopMonitoring|exact I].
  - apply calibrationInv_processVideo. exact I.
  - apply calibrationInv_bystander;
      [apply bystander_onFaceDetectionResults|exact I].
  - destruct (@calibrationInv_onFaceMeshResults a0 multiFaceLandmarks now s I)
      as (J & _ & C).
    split; assumption.
  - apply calibrationInv_bystander;
      [apply bystander_performFaceRecognition|exact I].
  - apply calibrationInv_bystander; [apply bystander_toBlobCallback|exact I].
Qed.

Lemma calibrationInv_run a0 ops :
  forall s,
    forallb isFrameOp ops = true ->
    calibrationInv a0 s ->
    calibrationInv a0 (run euclideanDistance ops s) /\
    calibrationFrames (run euclideanDistance ops s) =
      Nat.min 46
        (calibrationFrames s + landmarkFramesSeen euclideanDistance ops s).
Proof.
  induction ops as [|o ops IH]; intros s F I.
  - cbn [run fold_left landmarkFramesSeen]. destruct I as (I1 & I2 & I3).
    rewrite Nat.add_0_r, Nat.min_r by exact I1.
    repeat split; assumption.
  - cbn [forallb] in F. apply andb_true_iff in F. destruct F as [F1 F2].
    destruct (@calibrationInv_step a0 o s F1 I) as [J C].
    destruct (IH _ F2 J) as [K D].
    change (run euclideanDistance (o :: ops) s)
      with (run euclideanDistance ops (step euclideanDistance o s)).
    split; [exact K|]. rewrite D, C. cbn [landmarkFramesSeen]. lia.
Qed.

End CalibrationRun.

Lemma startMonitoring_views modelsLoaded now s :
  let s' := startMonitoring modelsLoaded now s in
  calibrationFrames s' = 0 /\
  completions (sessionLogs s') = [] /\
  attentionView s' =
    (yawHistory s, pitchHistory s, gazeHistory s, 0, 0, attention_unknown,
     distractionStartTime s, [], []).
Proof.
  unfold startMonitoring, attentionView.
  destruct s, modelsLoaded; cbv zeta; expose;
    cbn [completions attentionChanges machineEvents flat_map filter body
         isSustainedDistraction isFocusRestored ev_message String.eqb
         Ascii.eqb Bool.eqb orb andb app];
    repeat split; reflexivity.
Qed.

(** C2. In a session, counted from [startMonitoring] over the landmark
    frames that [onFaceMeshResults] processes: as long as at most 45 have
    been processed, no analysis has run (the three histories are
    untouched), the attention counters are 0, the confirmed attention
    state is unknown, no attention event or [attention_change] entry
    exists and no [calibration_complete] entry has been appended; from the
    46th on, the log holds exactly one [calibration_complete] entry, and it
    carries the baseline. *)
Theorem calibration_phase :
  forall (euclideanDistance : Descriptor -> Descriptor -> Q)
         (before : ProctoringSystem) (modelsLoaded : bool) (t0 : Z)
         (ops : list Op),
    forallb isFrameOp ops = true ->
    let s0 := startMonitoring modelsLoaded t0 before in
    let s := run euclideanDistance ops s0 in
    let n := landmarkFramesSeen euclideanDistance ops s0 in
    calibrationFrames s = Nat.min 46 n /\
    (n <= 45 ->
     yawHistory s = yawHistory before /\
     pitchHistory s = pitchHistory before /\
     gazeHistory s = gazeHistory before /\
     distractionCounter s = 0 /\
     focusCounter s = 0 /\
     lastAttentionState s = attention_unknown /\
     attentionChanges (sessionLogs s) = [] /\
     machineEvents (sessionEvents s) = [] /\
     completions (sessionLogs s) = []) /\
    (46 <= n ->
     completions (sessionLogs s) =
       [(baselineYaw s, baselinePitch s, baselineGaze s)]).
Proof.
  intros dist before modelsLoaded t0 ops F s0 s n.
  destruct (startMonitoring_views modelsLoaded t0 before) as (C0 & L0 & A0).
  fold s0 in C0, L0, A0.
  assert (I0 : calibrationInv (attentionView s0) s0).
  { unfold calibrationInv. rewrite C0, L0. cbn. repeat split; auto; lia. }
  destruct (@calibrationInv_run dist (attentionView s0) ops s0 F I0)
    as [(I1 & I2 & I3) C].
  fold s in I1, I2, I3, C. fold n in C. rewrite C0 in C. cbn [plus] in C.
  split; [exact C|]. split.
  - intros N.
    assert (S45 : calibrationFrames s <= 45) by lia.
    specialize (I3 S45). rewrite A0 in I3.
    unfold attentionView in I3. injection I3 as HY HP HG DC FC LA _ AC ME.
    assert (B : (calibrationFrames s <=? 45) = true)
      by (apply Nat.leb_le; exact S45).
    rewrite B in I2. repeat split; assumption.
  - intros N.
    assert (B : (calibrationFrames s <=? 45) = false)
      by (apply Nat.leb_gt; lia).
    rewrite B in I2. exact I2.
Qed.

Lemma calibration_phase_witness :
  forallb isFrameOp fortySixFrames = true /\
  completions
    (sessionLogs
       (run l1Distance fortySixFrames
          (startMonitoring true 1000 (constructor decodeSample None 0))))
  = [(baselineYaw calibrated, baselinePitch calibrated,
      baselineGaze calibrated)].
Proof.
  assert (F : forallb isFrameOp fortySixFrames = true) by reflexivity.
  split; [exact F|].
  pose proof (@calibration_phase l1Distance (constructor decodeSample None 0)
                true 1000 fortySixFrames F) as T.
  cbv zeta in T. destruct T as (_ & _ & T).
  rewrite T by (vm_compute; apply le_n).
  vm_compute. reflexivity.
Defined.

(** ** The operations piece by piece, with the guards of the calibration frame.
    The closure above asks a relation to hold across any write of
    [calibrationFrames] and of [external]. Here the pieces are the writes
    the handlers make: the calibration frame under its guards, the stamp
    that precedes a recognition run, and the error report of a tick. *)

Lemma onFaceMeshResults_calibrating landmarks others now s :
  isMonitoring s = true ->
  calibrationFrames s < CONFIG.CALIBRATION.MAX_FRAMES ->
  onFaceMeshResults (landmarks :: others) now s =
  set_calibrationFrames (S (calibrationFrames (calibrateBaseline landmarks s)))
    (calibrateBaseline landmarks s).
Proof.
  intros M C. unfold onFaceMeshResults. rewrite M.
  apply Nat.ltb_lt in C. rewrite C. reflexivity.
Qed.

Section Pieces.

Variable R : ProctoringSystem -> ProctoringSystem -> Prop.
Variable euclideanDistance : Descriptor -> Descriptor -> Q.

Hypothesis P_refl : forall s, R s s.
Hypothesis P_trans : forall s1 s2 s3, R s1 s2 -> R s2 s3 -> R s1 s3.

Hypothesis P_logEvent :
  forall message type now s, R s (logEvent message type now s).
Hypothesis P_toBlobCallback :
  forall message blob now s, R s (toBlobCallback message blob now s).
Hypothesis P_onFaceDetectionResults :
  forall faceCount now s, R s (onFaceDetectionResults faceCount now s).
Hypothesis P_calibrationFrame :
  forall landmarks s,
    isMonitoring s = true ->
    calibrationFrames s < CONFIG.CALIBRATION.MAX_FRAMES ->
    R s (set_calibrationFrames
           (S (calibrationFrames (calibrateBaseline landmarks s)))
           (calibrateBaseline landmarks s)).
Hypothesis P_completeCalibration :
  forall now s,
    CONFIG.CALIBRATION.MAX_FRAMES <= calibrationFrames s ->
    R s (completeCalibration now s).
Hypothesis P_analyzeAttention :
  forall landmarks s, R s (snd (analyzeAttention landmarks s)).
Hypothesis P_analyzeGaze :
  forall landmarks s, R s (snd (analyzeGaze landmarks s)).
Hypothesis P_processDistraction :
  forall attention gaze now s,
    R s (processDistraction attention gaze now s).
Hypothesis P_startMonitoring :
  forall modelsLoaded now s, R s (startMonitoring modelsLoaded now s).
Hypothesis P_stopMonitoring :
  forall now s, R s (stopMonitoring now s).
Hypothesis P_performFaceRecognition :
  forall detection now s,
    R s (performFaceRecognition euclideanDistance detection now s).
Hypothesis P_recognitionStamp :
  forall now s,
    R s (set_faceRecognitionStarted true (set_lastFaceRecogTime now s)).
Hypothesis P_caught :
  forall s,
    R s (set_external
           (external s ++ [console_error "Error processing video frame:"]) s).

Lemma pieces_onFaceMeshResults multiFaceLandmarks now s :
  R s (onFaceMeshResults multiFaceLandmarks now s).
Proof.
  destruct (isMonitoring s) eqn:M;
    [|unfold onFaceMeshResults; rewrite M; apply P_refl].
  destruct multiFaceLandmarks as [|landmarks rest];
    [unfold onFaceMeshResults; rewrite M; apply P_refl|].
  destruct (Nat.lt_ge_cases (calibrationFrames s) CONFIG.CALIBRATION.MAX_FRAMES)
    as [C|C].
  - rewrite onFaceMeshResults_calibrating by assumption.
    apply P_calibrationFrame; assumption.
  - unfold onFaceMeshResults. rewrite M.
    apply Nat.ltb_ge in C. rewrite C. apply Nat.ltb_ge in C.
    cbv beta iota zeta. cbn [negb].
    pose proof (P_completeCalibration now s C) as C1.
    revert C1. generalize (completeCalibration now s). intros s1 C1.
    pose proof (P_analyzeAttention landmarks s1) as C2.
    destruct (analyzeAttention landmarks s1) as [attention s2].
    pose proof (P_analyzeGaze landmarks s2) as C3.
    destruct (analyzeGaze landmarks s2) as [gaze s3].
    cbn [snd] in C2, C3.
    pose proof (P_processDistraction attention gaze now s3) as C4.
    eauto.
Qed.

Lemma pieces_processVideo t s :
  R s (processVideo euclideanDistance t s).
Proof.
  unfold processVideo.
  destruct (negb (isMonitoring s)); [apply P_refl|].
  destruct (tick_detections t) as [|faceCount]; [apply P_caught|].
  pose proof (P_onFaceDetectionResults faceCount (tick_now t) s) as C1.
  revert C1. generalize (onFaceDetectionResults faceCount (tick_now t) s).
  intros s1 C1.
  destruct (tick_mesh t) as [|multiFaceLandmarks].
  - apply P_trans with s1; [exact C1|apply P_caught].
  - cbv zeta.
    pose proof (pieces_onFaceMeshResults multiFaceLandmarks (tick_now t) s1)
      as C2.
    revert C2.
    generalize (onFaceMeshResults multiFaceLandmarks (tick_now t) s1).
    intros s2 C2.
    destruct (shouldRunRecognition (tick_now t) s2); [|eauto].
    apply P_trans with s2; [eauto|].
    eapply P_trans; [|apply P_performFaceRecognition].
    apply P_recognitionStamp.
Qed.

(** Every operation but the start of a session. *)
Lemma pieces_within_session o s :
  (forall modelsLoaded now, o <> OpStartMonitoring modelsLoaded now) ->
  R s (step euclideanDistance o s).
Proof.
  intros N. clear P_startMonitoring.
  destruct o; cbn [step];
    auto using pieces_onFaceMeshResults, pieces_processVideo.
  exfalso. exact (N _ _ eq_refl).
Qed.

Lemma pieces_step o s : R s (step euclideanDistance o s).
Proof.
  destruct o; cbn [step];
    auto using pieces_onFaceMeshResults, pieces_processVideo.
Qed.

Lemma pieces_run ops : forall s, R s (run euclideanDistance ops s).
Proof.
  unfold run. induction ops as [|o ops IH]; intros s; cbn [fold_left].
  - apply P_refl.
  - apply P_trans with (step euclideanDistance o s);
      [apply pieces_step|apply IH].
Qed.

End Pieces.

(** The field-wise form of [startMonitoring]. *)
Lemma startMonitoring_normal modelsLoaded now s :
  startMonitoring modelsLoaded now s =
  mkProctoringSystem true (enrolledDescriptors s) (Some now)
    (totalViolations s) (attentionViolations s)
    (sessionStarted now :: (if modelsLoaded then [] else [startFailed now]))
    (mkLogEntry (event info "Monitoring session started - Calibrating...")
       now (Some now)
     :: mkLogEntry (session_start (Some now)) now (Some now)
     :: (if modelsLoaded then []
         else [mkLogEntry (event error "Failed to start monitoring") now
                 (Some now)]))
    (lastFaceCount s) attention_unknown person_unknown
    (yawHistory s) (pitchHistory s) (gazeHistory s) 0 0 0 0
    (lastViolationFrameSave s) 0%Z false 0
    (baselineYaw s) (baselinePitch s) (baselineGaze s)
    (distractionStartTime s) []
    (external s ++ onLogEvent (sessionStarted now)
       :: (if modelsLoaded then []
           else [console_error "Failed to load Face-API models:";
                 console_error "Failed to start monitoring:";
                 onLogEvent (startFailed now)])).
Proof.
  unfold startMonitoring. destruct s. destruct modelsLoaded;
    cbv zeta; rewrite ?logEvent_fields; expose;
    rewrite <- ?app_assoc; reflexivity.
Qed.

(** Opening a piece: its definition, and the cases of its inputs. *)
Ltac open_pieces :=
  rewrite ?startMonitoring_normal;
  unfold toBlobCallback, onFaceDetectionResults, calibrateBaseline,
    completeCalibration, analyzeAttention, analyzeGaze, processDistraction,
    stopMonitoring, performFaceRecognition;
  try match goal with
      | d : DetectResult |- _ => destruct d
      end;
  try match goal with
      | type : Severity |- _ => destruct type
      end;
  try match goal with
      | modelsLoaded : bool |- _ => destruct modelsLoaded
      end.

Lemma constructor_cases parseDescriptors stored now :
  let s := constructor parseDescriptors stored now in
  s = logEvent "No enrolled face found. Please enroll first." error now fresh
  \/ (exists descriptors, s = set_enrolledDescriptors (Some descriptors) fresh)
  \/ s = set_external [console_error "Error loading enrolled face:"] fresh.
Proof.
  unfold constructor, loadEnrolledFace.
  destruct stored as [[|c rest]|]; [left; reflexivity| |left; reflexivity].
  destruct (parseDescriptors _); [right; left; eexists|right; right];
    reflexivity.
Qed.

(** ** What the host is told *)

Lemma pieces_run_within R euclideanDistance :
  (forall s, R s s) ->
  (forall s1 s2 s3, R s1 s2 -> R s2 s3 -> R s1 s3) ->
  (forall o s,
      (forall modelsLoaded now, o <> OpStartMonitoring modelsLoaded now) ->
      R s (step euclideanDistance o s)) ->
  forall ops s,
    withinSession ops = true -> R s (run euclideanDistance ops s).
Proof.
  intros Rr Rt Rs. unfold run, withinSession.
  induction ops as [|o ops IH]; intros s W; cbn [fold_left].
  - apply Rr.
  - cbn [forallb] in W. apply andb_true_iff in W. destruct W as [N W].
    apply Rt with (step euclideanDistance o s); [|apply IH; exact W].
    apply Rs. intros m t E. subst o. discriminate.
Qed.

Ltac report_paths :=
  match goal with
  | s : ProctoringSystem |- _ =>
      unfold reportKeeps, reportInv, violationUpdates,
        captureRequests, lastReport;
      destruct s; cbv zeta; break_inner; expose_all; break_match;
      unfold captureAccepted, CONFIG.FRAME_CAPTURE.SAVE_INTERVAL in *; fields;
      rewrite ?filter_app, ?length_app, ?fold_left_app;
      cbn [filter isViolationUpdate isCaptureRequest
           List.length app fold_left
           sessionStarted startFailed reportOf];
      rewrite ?andb_true_iff, ?andb_false_iff, ?negb_true_iff,
        ?negb_false_iff, ?Z.ltb_lt, ?Z.ltb_ge in *;
      intros (? & ? & ? & ?);
      repeat match goal with
             | H : _ /\ _ |- _ => destruct H
             end;
      repeat split; try assumption; try lia; try congruence
  end.

Lemma reportInv_step euclideanDistance o s :
  reportInv s -> reportInv (step euclideanDistance o s).
Proof.
  apply (@pieces_step reportKeeps);
    try solve [intros ? ?; assumption | unfold reportKeeps; auto];
    intros; open_pieces; report_paths.
Qed.

Lemma reportInv_constructor parseDescriptors stored now :
  reportInv (constructor parseDescriptors stored now).
Proof.
  destruct (constructor_cases parseDescriptors stored now)
    as [E|[[descriptors E]|E]]; rewrite E;
    unfold reportInv, violationUpdates, captureRequests, lastReport;
    rewrite ?logEvent_fields; cbn; repeat split; lia.
Qed.

Lemma reportInv_reachable euclideanDistance parseDescriptors s :
  reachable euclideanDistance parseDescriptors s -> reportInv s.
Proof.
  induction 1 as [stored now|o s R IH].
  - apply reportInv_constructor.
  - apply reportInv_step. exact IH.
Qed.

(** The pair shown by the widget is the last one it was handed, or the
    pair it showed before. *)
Lemma widget_violations calls :
  forall w,
    CornerWebcam.violations (fold_left CornerWebcam.deliver calls w)
    = match lastReport calls with
      | Some shown => shown
      | None => CornerWebcam.violations w
      end.
Proof.
  unfold lastReport.
  induction calls as [|c calls IH] using rev_ind; intros w.
  - reflexivity.
  - rewrite !fold_left_app. cbn [fold_left].
    destruct c; cbn [CornerWebcam.deliver reportOf CornerWebcam.setEvents
                     CornerWebcam.setViolations CornerWebcam.violations];
      try apply IH; reflexivity.
Qed.

(** X1. In every state the object can reach, [onViolationUpdate] has been
    called once per violation the object has counted, and the last call
    carried the current pair of counters. A monitoring widget that showed
    some pair when the object was built, and has since been handed the
    calls of the object, shows the counters of the object once the object
    has counted a violation; until then it still shows the pair it showed
    before: 0 and 0 on a new page, the counters of the previous object
    when the page has built a new object after Stop. *)
Theorem widget_shows_the_counters :
  forall (euclideanDistance : Descriptor -> Descriptor -> Q)
         (parseDescriptors : string -> option (list Descriptor))
         (s : ProctoringSystem) (w : CornerWebcam.Widget),
    reachable euclideanDistance parseDescriptors s ->
    violationUpdates s = totalViolations s /\
    CornerWebcam.violations (fold_left CornerWebcam.deliver (external s) w)
    = match totalViolations s with
      | 0 => CornerWebcam.violations w
      | S _ => (totalViolations s, attentionViolations s)
      end.
Proof.
  intros dist parse s w R.
  destruct (reportInv_reachable R) as (U & V & _). split; [exact U|].
  rewrite widget_violations, V.
  destruct (totalViolations s); reflexivity.
Qed.

Lemma widget_shows_the_counters_witness :
  reachable l1Distance decodeSample afterTwoViolations /\
  reachable l1Distance decodeSample freshlyStarted /\
  CornerWebcam.violations usedWidget = (2, 0) /\
  CornerWebcam.violations
    (fold_left CornerWebcam.deliver (external freshlyStarted) usedWidget)
  = (2, 0) /\
  totalViolations freshlyStarted = 0.
Proof.
  assert (R : reachable l1Distance decodeSample afterTwoViolations).
  { apply reachable_run. apply reachable_constructor. }
  assert (R' : reachable l1Distance decodeSample freshlyStarted).
  { apply (@reachable_step _ _ (OpStartMonitoring true 1000)).
    apply reachable_constructor. }
  split; [exact R|]. split; [exact R'|].
  split; [|split].
  - unfold usedWidget.
    rewrite (proj2 (widget_shows_the_counters CornerWebcam.initial R)).
    vm_compute. reflexivity.
  - rewrite (proj2 (widget_shows_the_counters usedWidget R')).
    vm_compute. reflexivity.
  - reflexivity.
Defined.

(** X2. The frame captures are throttled over the whole life of the
    object: in every reachable state there are at most as many capture
    requests as counted violations, and 4000 ms times their number is at
    most the clock reading of the last accepted capture. *)
Theorem capture_requests_are_bounded :
  forall (euclideanDistance : Descriptor -> Descriptor -> Q)
         (parseDescriptors : string -> option (list Descriptor))
         (s : ProctoringSystem),
    reachable euclideanDistance parseDescriptors s ->
    captureRequests s <= totalViolations s /\
    (4000 * Z.of_nat (captureRequests s) <= lastViolationFrameSave s)%Z.
Proof.
  intros dist parse s R.
  destruct (reportInv_reachable R) as (_ & _ & C & T). split; assumption.
Qed.

Lemma capture_requests_are_bounded_witness :
  reachable l1Distance decodeSample afterTwoViolations /\
  captureRequests afterTwoViolations <= totalViolations afterTwoViolations /\
  (4000 * Z.of_nat (captureRequests afterTwoViolations)
   <= lastViolationFrameSave afterTwoViolations)%Z.
Proof.
  assert (R : reachable l1Distance decodeSample afterTwoViolations).
  { apply reachable_run. apply reachable_constructor. }
  split; [exact R|].
  exact (capture_requests_are_bounded R).
Defined.

(** ** Every violation of a session is counted once *)

Ltac counted_paths :=
  match goal with
  | s : ProctoringSystem |- _ =>
      unfold countedOnce, violationEvents, attentionEvents;
      destruct s; cbv zeta; break_inner; expose; break_match; fields;
      rewrite ?filter_app, ?length_app;
      cbn [filter isViolationEvent isAttentionViolation Severity_eqb
           ev_type ev_message andb List.length app];
      rewrite ?andb_true_l, ?andb_false_l in *;
      repeat match goal with
             | H : ?c = _ |- context [if ?c then _ else _] => rewrite H
             end;
      cbn [List.length]; try lia
  end.

Lemma countedOnce_within_session euclideanDistance o s :
  (forall modelsLoaded now, o <> OpStartMonitoring modelsLoaded now) ->
  countedOnce s (step euclideanDistance o s).
Proof.
  apply (@pieces_within_session countedOnce);
    try solve [unfold countedOnce; intros; lia];
    intros; open_pieces; counted_paths.
Qed.

Lemma countedOnce_run euclideanDistance ops s :
  withinSession ops = true ->
  countedOnce s (run euclideanDistance ops s).
Proof.
  apply pieces_run_within.
  - unfold countedOnce; intros; lia.
  - unfold countedOnce; intros; lia.
  - apply countedOnce_within_session.
Qed.

(** X3. Within a session every violation event is counted exactly once:
    after any operations that follow [startMonitoring] (no second start
    among them), the total counter has risen by the number of violation
    events of the session, and the attention counter by the number of
    those whose message contains "distraction" or "looking away". *)
Theorem violations_of_a_session_are_counted_once :
  forall (euclideanDistance : Descriptor -> Descriptor -> Q)
         (before : ProctoringSystem) (modelsLoaded : bool) (t0 : Z)
         (ops : list Op),
    withinSession ops = true ->
    let s := run euclideanDistance ops (startMonitoring modelsLoaded t0 before)
    in
    totalViolations s = totalViolations before + violationEvents s /\
    attentionViolations s = attentionViolations before + attentionEvents s.
Proof.
  intros dist before modelsLoaded t0 ops W s.
  pose proof (countedOnce_run dist ops
                (startMonitoring modelsLoaded t0 before) W) as C.
  fold s in C. revert C. generalize s. clear s. intros s.
  unfold countedOnce, violationEvents, attentionEvents.
  rewrite startMonitoring_normal. destruct modelsLoaded; cbn; lia.
Qed.

Lemma violations_of_a_session_are_counted_once_witness :
  withinSession twoViolationsFrames = true /\
  totalViolations (run l1Distance twoViolationsFrames freshlyStarted)
  = totalViolations (constructor decodeSample None 0)
    + violationEvents (run l1Distance twoViolationsFrames freshlyStarted).
Proof.
  assert (W : withinSession twoViolationsFrames = true) by reflexivity.
  split; [exact W|].
  exact (proj1 (violations_of_a_session_are_counted_once l1Distance
                  (constructor decodeSample None 0) true 1000
                  twoViolationsFrames W)).
Defined.

(** ** The session log *)

Lemma eventEntries_app l1 l2 :
  eventEntries (l1 ++ l2) = eventEntries l1 ++ eventEntries l2.
Proof. apply flat_map_app. Qed.

Lemma frameEntries_app l1 l2 :
  frameEntries (l1 ++ l2) = frameEntries l1 ++ frameEntries l2.
Proof. apply flat_map_app. Qed.

Ltac log_paths :=
  match goal with
  | s : ProctoringSystem |- _ =>
      unfold logKeeps, logInv;
      destruct s; cbv zeta; break_inner; expose; break_match; fields;
      rewrite ?eventEntries_app, ?frameEntries_app, ?map_app;
      cbn [eventEntries frameEntries flat_map map body timestamp app
           vf_message vf_timestamp sessionStarted startFailed];
      let HF := fresh "HF" in
      let HE := fresh "HE" in
      let HV := fresh "HV" in
      intros (HF & HE & HV); split;
      [ repeat (apply Forall_app; split); auto; repeat constructor
      | split;
        [ rewrite ?HE, ?app_nil_r, <- ?app_assoc; reflexivity
        | rewrite ?HV, ?app_nil_r, <- ?app_assoc; reflexivity ] ]
  end.

Lemma logInv_step euclideanDistance o s :
  logInv s -> logInv (step euclideanDistance o s).
Proof.
  apply (@pieces_step logKeeps);
    try solve [intros ? ?; assumption | unfold logKeeps; auto];
    intros; open_pieces; log_paths.
Qed.

Lemma logInv_constructor parseDescriptors stored now :
  logInv (constructor parseDescriptors stored now).
Proof.
  destruct (constructor_cases parseDescriptors stored now)
    as [E|[[descriptors E]|E]]; rewrite E;
    unfold logInv; rewrite ?logEvent_fields; cbn; repeat split;
    repeat constructor.
Qed.

Lemma logInv_reachable euclideanDistance parseDescriptors s :
  reachable euclideanDistance parseDescriptors s -> logInv s.
Proof.
  induction 1 as [stored now|o s R IH].
  - apply logInv_constructor.
  - apply logInv_step. exact IH.
Qed.

(** X4. In every state the object can reach, each entry of the session
    log carries the current [sessionStartTime] as its [session_id]: the
    log never mixes entries of two sessions. *)
Theorem log_entries_carry_the_session_id :
  forall (euclideanDistance : Descriptor -> Descriptor -> Q)
         (parseDescriptors : string -> option (list Descriptor))
         (s : ProctoringSystem) (e : LogEntry),
    reachable euclideanDistance parseDescriptors s ->
    In e (sessionLogs s) ->
    session_id e = sessionStartTime s.
Proof.
  intros dist parse s e R I.
  destruct (logInv_reachable R) as [F _].
  rewrite Forall_forall in F. apply F. exact I.
Qed.

Lemma log_entries_carry_the_session_id_witness :
  reachable l1Distance decodeSample afterTwoViolations /\
  In (mkLogEntry (face_count_change 1 2) 15000 (Some 1000%Z))
    (sessionLogs afterTwoViolations) /\
  session_id (mkLogEntry (face_count_change 1 2) 15000 (Some 1000%Z))
  = sessionStartTime afterTwoViolations.
Proof.
  assert (R : reachable l1Distance decodeSample afterTwoViolations).
  { apply reachable_run. apply reachable_constructor. }
  assert (I : In (mkLogEntry (face_count_change 1 2) 15000 (Some 1000%Z))
                (sessionLogs afterTwoViolations)).
  { vm_compute. tauto. }
  split; [exact R|]. split; [exact I|].
  exact (@log_entries_carry_the_session_id _ _ _ _ R I).
Defined.

Lemma loggedKinds_eventEntries logs :
  loggedKinds logs
  = map (fun e => (ev_type e, ev_message e)) (eventEntries logs).
Proof.
  unfold loggedKinds, eventEntries.
  induction logs as [|e logs IH]; [reflexivity|].
  cbn [flat_map]. rewrite map_app, IH.
  destruct (body e); reflexivity.
Qed.

(** X5. In every state the object can reach, the [event] entries of the
    session log are the session's events, one for one and in the same
    order, each with the severity and the message of its event. (The two
    carry clock readings of their own, which are not compared.) *)
Theorem log_mirrors_the_events :
  forall (euclideanDistance : Descriptor -> Descriptor -> Q)
         (parseDescriptors : string -> option (list Descriptor))
         (s : ProctoringSystem),
    reachable euclideanDistance parseDescriptors s ->
    loggedKinds (sessionLogs s)
    = map (fun e => (ev_type e, ev_message e)) (sessionEvents s).
Proof.
  intros dist parse s R. rewrite loggedKinds_eventEntries.
  rewrite (proj1 (proj2 (logInv_reachable R))). reflexivity.
Qed.

Lemma log_mirrors_the_events_witness :
  reachable l1Distance decodeSample afterTwoViolations /\
  loggedKinds (sessionLogs afterTwoViolations)
  = map (fun e => (ev_type e, ev_message e))
      (sessionEvents afterTwoViolations).
Proof.
  assert (R : reachable l1Distance decodeSample afterTwoViolations).
  { apply reachable_run. apply reachable_constructor. }
  split; [exact R|].
  exact (log_mirrors_the_events R).
Defined.

(** [dispose] adds to the log what [stopMonitoring] adds, and empties
    the captured frames. *)
Lemma dispose_fields now s :
  sessionEvents (dispose now s)
  = sessionEvents s ++ [mkEvent now "Monitoring session stopped" info] /\
  sessionLogs (dispose now s)
  = sessionLogs s
    ++ [mkLogEntry (event info "Monitoring session stopped") now
          (sessionStartTime s);
        mkLogEntry
          (session_end (sessionDuration now s) (totalViolations s)
             (attentionViolations s)) now (sessionStartTime s)] /\
  violationFrames (dispose now s) = [] /\
  sessionStartTime (dispose now s) = sessionStartTime s.
Proof.
  unfold dispose, stopMonitoring. destruct s. cbv zeta.
  rewrite ?logEvent_fields. expose. fields.
  rewrite <- ?app_assoc. repeat split; reflexivity.
Qed.

(** X6. In every state that the constructor, [startMonitoring],
    [stopMonitoring], the ticks, the frame handlers, the recognition
    runs, [logEvent] and the capture callbacks can bring about, the
    captured frames kept for download and the [frame_saved] entries of
    the session log answer one another, in order: each frame has its
    entry, with the same message and the same timestamp, and each entry
    its frame. [dispose] ends that: it empties the captured frames and
    leaves their entries in the log. *)
Theorem captured_frames_are_logged :
  forall (euclideanDistance : Descriptor -> Descriptor -> Q)
         (parseDescriptors : string -> option (list Descriptor))
         (s : ProctoringSystem) (now : Z),
    reachable euclideanDistance parseDescriptors s ->
    frameEntries (sessionLogs s)
    = map (fun f => (vf_message f, vf_timestamp f)) (violationFrames s) /\
    violationFrames (dispose now s) = [] /\
    frameEntries (sessionLogs (dispose now s))
    = map (fun f => (vf_message f, vf_timestamp f)) (violationFrames s).
Proof.
  intros dist parse s now R.
  pose proof (proj2 (proj2 (logInv_reachable R))) as V.
  destruct (dispose_fields now s) as (_ & L & F & _).
  split; [exact V|]. split; [exact F|].
  rewrite L, frameEntries_app, V. cbn. apply app_nil_r.
Qed.

Lemma captured_frames_are_logged_witness :
  reachable l1Distance decodeSample afterCapture /\
  frameEntries (sessionLogs afterCapture)
  = [("No face detected"%string, 6050%Z)] /\
  violationFrames (dispose 7000 afterCapture) = [] /\
  frameEntries (sessionLogs (dispose 7000 afterCapture))
  = [("No face detected"%string, 6050%Z)].
Proof.
  assert (R : reachable l1Distance decodeSample afterCapture).
  { apply reachable_run. apply reachable_constructor. }
  split; [exact R|].
  destruct (captured_frames_are_logged 7000 R) as (A & B & C).
  rewrite A, B, C. vm_compute. repeat split.
Defined.

(** ** The records of a session only grow *)

Lemma extends_refl (A : Type) (l : list A) : extends l l.
Proof. exists []. symmetry. apply app_nil_r. Qed.

Lemma extends_trans (A : Type) (l1 l2 l3 : list A) :
  extends l1 l2 -> extends l2 l3 -> extends l1 l3.
Proof.
  intros [a ->] [b ->]. exists (a ++ b). symmetry. apply app_assoc.
Qed.

Lemma appendOnly_refl s : appendOnly s s.
Proof. unfold appendOnly. auto using extends_refl. Qed.

Lemma appendOnly_trans s1 s2 s3 :
  appendOnly s1 s2 -> appendOnly s2 s3 -> appendOnly s1 s3.
Proof.
  unfold appendOnly. intros (A1 & B1 & C1 & D1) (A2 & B2 & C2 & D2).
  repeat split; eauto using extends_trans. congruence.
Qed.

Ltac append_paths :=
  match goal with
  | s : ProctoringSystem |- _ =>
      unfold appendOnly, extends;
      destruct s; cbv zeta; break_inner; expose; break_match; fields;
      rewrite <- ?app_assoc;
      repeat split;
      first [ reflexivity
            | exists []; symmetry; apply app_nil_r
            | eexists; reflexivity ]
  end.

Lemma appendOnly_within_session euclideanDistance o s :
  (forall modelsLoaded now, o <> OpStartMonitoring modelsLoaded now) ->
  appendOnly s (step euclideanDistance o s).
Proof.
  apply (@pieces_within_session appendOnly);
    try solve [apply appendOnly_refl | apply appendOnly_trans];
    intros; open_pieces; append_paths.
Qed.

Lemma appendOnly_run euclideanDistance ops s :
  withinSession ops = true ->
  appendOnly s (run euclideanDistance ops s).
Proof.
  apply pieces_run_within.
  - apply appendOnly_refl.
  - apply appendOnly_trans.
  - apply appendOnly_within_session.
Qed.

(** X7. Only [startMonitoring] and [dispose] remove anything a session
    has recorded. Across any sequence of stops, ticks, frame handlers,
    recognition runs, [logEvent] calls and capture callbacks the events,
    the log entries and the captured frames are extended at the end, and
    the session identifier stays. [dispose] extends the events and the
    log entries in the same way and keeps the identifier, but empties the
    captured frames. *)
Theorem session_records_only_grow :
  forall (euclideanDistance : Descriptor -> Descriptor -> Q)
         (s : ProctoringSystem) (ops : list Op) (now : Z),
    withinSession ops = true ->
    let s' := run euclideanDistance ops s in
    ((exists more, sessionEvents s' = sessionEvents s ++ more) /\
     (exists more, sessionLogs s' = sessionLogs s ++ more) /\
     (exists more, violationFrames s' = violationFrames s ++ more) /\
     sessionStartTime s' = sessionStartTime s) /\
    ((exists more, sessionEvents (dispose now s') = sessionEvents s ++ more) /\
     (exists more, sessionLogs (dispose now s') = sessionLogs s ++ more) /\
     violationFrames (dispose now s') = [] /\
     sessionStartTime (dispose now s') = sessionStartTime s).
Proof.
  intros dist s ops now W s'.
  pose proof (appendOnly_run dist ops s W) as A. fold s' in A.
  split; [exact A|].
  destruct A as ([e E] & [l L] & _ & T).
  destruct (dispose_fields now s') as (DE & DL & DF & DT).
  rewrite DE, DL, DF, DT, E, L, T, <- !app_assoc.
  split; [eexists; reflexivity|]. split; [eexists; reflexivity|].
  split; reflexivity.
Qed.

Lemma session_records_only_grow_witness :
  withinSession twoViolationsFrames = true /\
  (exists more,
      sessionEvents (run l1Distance twoViolationsFrames freshlyStarted)
      = sessionEvents freshlyStarted ++ more) /\
  violationFrames
    (dispose 20000 (run l1Distance twoViolationsFrames freshlyStarted)) = [].
Proof.
  assert (W : withinSession twoViolationsFrames = true) by reflexivity.
  split; [exact W|].
  pose proof (session_records_only_grow l1Distance freshlyStarted
                twoViolationsFrames 20000 W) as G.
  cbv zeta in G. split.
  - exact (proj1 (proj1 G)).
  - exact (proj1 (proj2 (proj2 (proj2 G)))).
Defined.

(** ** The exported summary *)

(** X8. Once a session has been started, [downloadSessionLogs] always
    has a summary to export, whatever happened since (no second start),
    and in every reachable state the statistics of a summary agree with
    the entries it carries: [total_events] is the number of [event]
    entries, every entry has the summary's [session_id], and the
    [events] are the whole log. *)
Theorem session_summary_is_consistent :
  forall (euclideanDistance : Descriptor -> Descriptor -> Q)
         (parseDescriptors : string -> option (list Descriptor))
         (before : ProctoringSystem) (modelsLoaded : bool) (t0 now : Z)
         (ops : list Op),
    reachable euclideanDistance parseDescriptors before ->
    withinSession ops = true ->
    let s := run euclideanDistance ops (startMonitoring modelsLoaded t0 before)
    in
    exists summary,
      downloadSessionLogs now s = Some summary /\
      summary_session_id summary = Some t0 /\
      summary_events summary = sessionLogs s /\
      summary_total_events summary
      = List.length (eventEntries (summary_events summary)) /\
      (forall e, In e (summary_events summary) ->
                 session_id e = summary_session_id summary) /\
      summary_total_violations summary = totalViolations s /\
      summary_attention_violations summary = attentionViolations s.
Proof.
  intros dist parse before modelsLoaded t0 now ops R W s.
  assert (R' : reachable dist parse s).
  { apply reachable_run.
    apply (@reachable_step _ _ (OpStartMonitoring modelsLoaded t0)).
    exact R. }
  destruct (logInv_reachable R') as (F & E & _).
  destruct (appendOnly_run dist ops
              (startMonitoring modelsLoaded t0 before) W)
    as (_ & [more L] & _ & T).
  fold s in L, T.
  rewrite startMonitoring_normal in L, T.
  cbn [sessionLogs sessionStartTime app] in L, T.
  unfold downloadSessionLogs.
  destruct (sessionLogs s) as [|e0 logs] eqn:G; [discriminate|].
  rewrite <- G in E, F |- *. eexists. split; [reflexivity|].
  cbn [summary_session_id summary_events summary_total_events
       summary_total_violations summary_attention_violations].
  rewrite E. repeat split; auto.
  rewrite Forall_forall in F. exact F.
Qed.

Lemma session_summary_is_consistent_witness :
  reachable l1Distance decodeSample (constructor decodeSample None 0) /\
  withinSession twoViolationsFrames = true /\
  exists summary,
    downloadSessionLogs 20000
      (run l1Distance twoViolationsFrames freshlyStarted) = Some summary /\
    summary_session_id summary = Some 1000%Z.
Proof.
  assert (R : reachable l1Distance decodeSample
                (constructor decodeSample None 0))
    by apply reachable_constructor.
  assert (W : withinSession twoViolationsFrames = true) by reflexivity.
  split; [exact R|]. split; [exact W|].
  destruct (session_summary_is_consistent true 1000 20000
              twoViolationsFrames R W) as (summary & D & I & _).
  exists summary. split; [exact D|exact I].
Defined.

(** ** The smoothing histories and the attention counters *)

Lemma lastOr_nonneg h d :
  Forall (fun v => (0 <= v)%Q) h -> (0 <= d)%Q -> (0 <= lastOr h d)%Q.
Proof.
  unfold lastOr. intros F D. induction F as [|v h V F IH]; [exact D|].
  destruct h as [|w h]; [exact V|]. exact IH.
Qed.

Lemma ema_nonneg sample previous :
  (0 <= sample)%Q -> (0 <= previous)%Q ->
  (0 <= ema CONFIG.STABILIZATION.EMA_ALPHA sample previous)%Q.
Proof.
  intros S P. unfold ema, CONFIG.STABILIZATION.EMA_ALPHA.
  setoid_replace 0%Q with (0.25 * 0 + (1 - 0.25) * 0)%Q by ring.
  apply Qplus_le_compat; apply Qmult_le_l; auto; reflexivity.
Qed.

Lemma pushHistory_inv h v :
  historyInv h -> (0 <= v)%Q -> historyInv (pushHistory h v).
Proof.
  unfold historyInv, pushHistory. intros [L F] V. cbv zeta.
  assert (F' : Forall (fun v => (0 <= v)%Q) (h ++ [v])).
  { apply Forall_app. split; [exact F|]. constructor; [exact V|constructor]. }
  assert (L' : List.length (h ++ [v]) = S (List.length h)).
  { rewrite length_app. cbn. lia. }
  destruct (CONFIG.ATTENTION.HISTORY_SIZE <? List.length (h ++ [v])) eqn:B.
  - destruct (h ++ [v]) as [|w rest]; [discriminate|].
    cbn [tl]. cbn [List.length] in L'. split; [lia|].
    inversion F'; assumption.
  - apply Nat.ltb_ge in B. split; [exact B|exact F'].
Qed.

Lemma smoothed_nonneg h deviation :
  historyInv h ->
  (0 <= deviation)%Q ->
  historyInv
    (pushHistory h
       (ema CONFIG.STABILIZATION.EMA_ALPHA deviation (lastOr h deviation))).
Proof.
  intros H D. apply pushHistory_inv; [exact H|].
  apply ema_nonneg; [exact D|]. apply lastOr_nonneg; [apply H|exact D].
Qed.

Lemma attentionKeeps_analyzeAttention landmarks s :
  attentionKeeps s (snd (analyzeAttention landmarks s)).
Proof.
  unfold attentionKeeps, attentionInv, analyzeAttention.
  destruct s. cbv zeta. expose.
  intros (Y & P & G & C & T).
  split; [apply smoothed_nonneg; [exact Y|apply Qabs_nonneg]|].
  split; [apply smoothed_nonneg; [exact P|apply Qabs_nonneg]|].
  auto.
Qed.

Lemma attentionKeeps_analyzeGaze landmarks s :
  attentionKeeps s (snd (analyzeGaze landmarks s)).
Proof.
  unfold attentionKeeps, attentionInv, analyzeGaze.
  destruct s. cbv zeta.
  destruct (lm468 landmarks) as [leftIris|]; [|auto].
  destruct (lm473 landmarks) as [rightIris|]; [|auto].
  destruct (GeometryUtils.calculateGaze leftIris _ _) as [leftGaze|]; [|auto].
  destruct (GeometryUtils.calculateGaze rightIris _ _) as [rightGaze|];
    [|auto].
  expose.
  intros (Y & P & G & C & T).
  split; [exact Y|]. split; [exact P|].
  split; [apply smoothed_nonneg; [exact G|apply Qabs_nonneg]|].
  auto.
Qed.

Ltac attention_paths :=
  match goal with
  | s : ProctoringSystem |- _ =>
      unfold attentionKeeps, attentionInv;
      destruct s; cbv zeta; break_inner; expose; break_match; fields;
      let Y := fresh "HY" in
      let P := fresh "HP" in
      let G := fresh "HG" in
      let C := fresh "HC" in
      let T := fresh "HT" in
      intros (Y & P & G & C & T);
      split; [exact Y|]; split; [exact P|]; split; [exact G|];
      split;
      [ first [exact C | left; reflexivity | right; reflexivity]
      | first [exact T | intros; lia | intros; discriminate
              | intros; congruence] ]
  end.

Lemma attentionInv_step euclideanDistance o s :
  attentionInv s -> attentionInv (step euclideanDistance o s).
Proof.
  apply (@pieces_step attentionKeeps);
    try solve [intros ? ?; assumption | unfold attentionKeeps; auto
              | apply attentionKeeps_analyzeAttention
              | apply attentionKeeps_analyzeGaze];
    intros; open_pieces; attention_paths.
Qed.

Lemma attentionInv_constructor parseDescriptors stored now :
  attentionInv (constructor parseDescriptors stored now).
Proof.
  destruct (constructor_cases parseDescriptors stored now)
    as [E|[[descriptors E]|E]]; rewrite E;
    unfold attentionInv, historyInv; rewrite ?logEvent_fields; cbn;
    repeat split; auto; try lia.
Qed.

Lemma attentionInv_reachable euclideanDistance parseDescriptors s :
  reachable euclideanDistance parseDescriptors s -> attentionInv s.
Proof.
  induction 1 as [stored now|o s R IH].
  - apply attentionInv_constructor.
  - apply attentionInv_step. exact IH.
Qed.

(** X9. In every state the object can reach, each of the three smoothing
    histories (yaw, pitch, gaze) holds at most 8 values and none of them
    is negative. *)
Theorem smoothing_histories_are_bounded :
  forall (euclideanDistance : Descriptor -> Descriptor -> Q)
         (parseDescriptors : string -> option (list Descriptor))
         (s : ProctoringSystem),
    reachable euclideanDistance parseDescriptors s ->
    (List.length (yawHistory s) <= 8 /\
     List.length (pitchHistory s) <= 8 /\
     List.length (gazeHistory s) <= 8) /\
    (forall v,
        In v (yawHistory s) \/ In v (pitchHistory s) \/ In v (gazeHistory s) ->
        (0 <= v)%Q).
Proof.
  intros dist parse s R.
  destruct (attentionInv_reachable R) as ([LY FY] & [LP FP] & [LG FG] & _).
  split; [auto|].
  rewrite Forall_forall in FY, FP, FG.
  intros v [I|[I|I]]; auto.
Qed.

Lemma smoothing_histories_are_bounded_witness :
  reachable l1Distance decodeSample afterTurnedFrame /\
  List.length (yawHistory afterTurnedFrame) <= 8.
Proof.
  assert (R : reachable l1Distance decodeSample afterTurnedFrame).
  { apply reachable_run. apply reachable_constructor. }
  split; [exact R|].
  exact (proj1 (proj1 (smoothing_histories_are_bounded R))).
Defined.

(** X10. In every state the object can reach, the two stabilisation
    counters of the attention state machine are never both positive, and
    while the distraction counter is positive the start of the episode is
    recorded. *)
Theorem attention_counters_are_exclusive :
  forall (euclideanDistance : Descriptor -> Descriptor -> Q)
         (parseDescriptors : string -> option (list Descriptor))
         (s : ProctoringSystem),
    reachable euclideanDistance parseDescriptors s ->
    (distractionCounter s = 0 \/ focusCounter s = 0) /\
    (0 < distractionCounter s ->
     exists t, distractionStartTime s = Some t).
Proof.
  intros dist parse s R.
  destruct (attentionInv_reachable R) as (_ & _ & _ & C & T).
  split; [exact C|]. intros D. specialize (T D).
  destruct (distractionStartTime s) as [t|]; [exists t; reflexivity|].
  exfalso. apply T. reflexivity.
Qed.

Lemma attention_counters_are_exclusive_witness :
  reachable l1Distance decodeSample afterTurnedFrame /\
  (distractionCounter afterTurnedFrame = 0
   \/ focusCounter afterTurnedFrame = 0).
Proof.
  assert (R : reachable l1Distance decodeSample afterTurnedFrame).
  { apply reachable_run. apply reachable_constructor. }
  split; [exact R|].
  exact (proj1 (attention_counters_are_exclusive R)).
Defined.

(** ** The identity counters and the number of faces *)

Ltac presence_paths :=
  match goal with
  | s : ProctoringSystem |- _ =>
      unfold presenceKeeps, presenceInv;
      destruct s; cbv zeta; break_inner; expose; break_match; fields;
      rewrite ?orb_true_iff, ?orb_false_iff, ?negb_true_iff,
        ?negb_false_iff, ?Nat.eqb_eq, ?Nat.eqb_neq, ?Nat.ltb_lt,
        ?Nat.ltb_ge, ?Nat.leb_le, ?Nat.leb_gt in *;
      let A := fresh "HA" in
      let B := fresh "HB" in
      intros [A B]; split;
      [ first [exact A | intros; split; reflexivity
              | intros; exfalso; lia | intros; apply A; lia ]
      | first [exact B | left; reflexivity | right; reflexivity] ]
  end.

Lemma presenceInv_step euclideanDistance o s :
  presenceInv s -> presenceInv (step euclideanDistance o s).
Proof.
  apply (@pieces_step presenceKeeps);
    try solve [intros ? ?; assumption | unfold presenceKeeps; auto];
    intros; open_pieces; presence_paths.
Qed.

Lemma presenceInv_constructor parseDescriptors stored now :
  presenceInv (constructor parseDescriptors stored now).
Proof.
  destruct (constructor_cases parseDescriptors stored now)
    as [E|[[descriptors E]|E]]; rewrite E;
    unfold presenceInv; rewrite ?logEvent_fields; cbn; auto.
Qed.

Lemma presenceInv_reachable euclideanDistance parseDescriptors s :
  reachable euclideanDistance parseDescriptors s -> presenceInv s.
Proof.
  induction 1 as [stored now|o s R IH].
  - apply presenceInv_constructor.
  - apply presenceInv_step. exact IH.
Qed.

(** X11. In every state the object can reach, the two stabilisation
    counters of the identity check are zero unless the last detection
    frame showed exactly one face, and they are never both positive. *)
Theorem identity_counters_need_one_face :
  forall (euclideanDistance : Descriptor -> Descriptor -> Q)
         (parseDescriptors : string -> option (list Descriptor))
         (s : ProctoringSystem),
    reachable euclideanDistance parseDescriptors s ->
    (lastFaceCount s <> 1 ->
     unauthorizedCounter s = 0 /\ authorizedCounter s = 0) /\
    (unauthorizedCounter s = 0 \/ authorizedCounter s = 0).
Proof.
  intros dist parse s R. exact (presenceInv_reachable R).
Qed.

Lemma identity_counters_need_one_face_witness :
  reachable l1Distance decodeSample afterStranger /\
  (unauthorizedCounter afterStranger = 0
   \/ authorizedCounter afterStranger = 0).
Proof.
  assert (R : reachable l1Distance decodeSample afterStranger).
  { apply reachable_step. apply reachable_run. apply reachable_constructor. }
  split; [exact R|].
  exact (proj2 (identity_counters_need_one_face R)).
Defined.

(** ** When face recognition runs *)

Lemma recognitionClock_inv s s' :
  recognitionClock s' = recognitionClock s ->
  enrolledDescriptors s' = enrolledDescriptors s /\
  sessionStartTime s' = sessionStartTime s /\
  faceRecognitionStarted s' = faceRecognitionStarted s /\
  lastFaceRecogTime s' = lastFaceRecogTime s.
Proof.
  unfold recognitionClock. intros H.
  repeat split; congruence.
Qed.

Lemma shouldRunRecognition_clock now s s' :
  recognitionClock s' = recognitionClock s ->
  shouldRunRecognition now s' = shouldRunRecognition now s.
Proof.
  intros H. apply recognitionClock_inv in H.
  destruct H as (E & T & F & L).
  unfold shouldRunRecognition. rewrite E, T, F, L. reflexivity.
Qed.

Lemma clockKept_refl s : clockKept s s.
Proof. split; reflexivity. Qed.

Lemma clockKept_trans s1 s2 s3 :
  clockKept s1 s2 -> clockKept s2 s3 -> clockKept s1 s3.
Proof. unfold clockKept. intros [A B] [C D]. split; congruence. Qed.

Ltac clock_paths :=
  match goal with
  | s : ProctoringSystem |- _ =>
      unfold clockKept, recognitionClock;
      destruct s; cbv zeta; break_inner; expose; break_match; fields;
      split; congruence
  end.

Lemma clockKept_logEvent message type now s :
  clockKept s (logEvent message type now s).
Proof. open_pieces; clock_paths. Qed.

Lemma clockKept_toBlobCallback message blob now s :
  clockKept s (toBlobCallback message blob now s).
Proof. open_pieces; clock_paths. Qed.

Lemma clockKept_onFaceDetectionResults faceCount now s :
  clockKept s (onFaceDetectionResults faceCount now s).
Proof. open_pieces; clock_paths. Qed.

Lemma clockKept_onFaceMeshResults multiFaceLandmarks now s :
  clockKept s (onFaceMeshResults multiFaceLandmarks now s).
Proof.
  apply closure_onFaceMeshResults;
    try solve [apply clockKept_refl | apply clockKept_trans];
    intros; open_pieces; clock_paths.
Qed.

Lemma clockKept_performFaceRecognition euclideanDistance detection now s :
  clockKept s (performFaceRecognition euclideanDistance detection now s).
Proof. open_pieces; clock_paths. Qed.

Lemma clockKept_caught what s :
  clockKept s (set_external (external s ++ [console_error what]) s).
Proof. clock_paths. Qed.

(** [stopMonitoring] keeps the clock; it is the one piece that clears
    [isMonitoring]. *)
Lemma recognitionClock_stopMonitoring now s :
  recognitionClock (stopMonitoring now s) = recognitionClock s.
Proof.
  unfold stopMonitoring, recognitionClock.
  destruct s; cbv zeta; expose; reflexivity.
Qed.

Lemma isMonitoring_stopMonitoring now s :
  isMonitoring (stopMonitoring now s) = false.
Proof.
  unfold stopMonitoring. destruct s; cbv zeta; expose; reflexivity.
Qed.

(** What a turn of [processVideo] does to the clock. *)
Lemma processVideo_clock euclideanDistance t s :
  let s' := processVideo euclideanDistance t s in
  isMonitoring s' = isMonitoring s /\
  recognitionClock s' =
    if recognitionRuns t s
    then (enrolledDescriptors s, sessionStartTime s, true, tick_now t)
    else recognitionClock s.
Proof.
  unfold processVideo, recognitionRuns.
  destruct (isMonitoring s) eqn:M; cbn [negb andb]; [|auto].
  destruct (tick_detections t) as [|faceCount].
  { cbv zeta. rewrite <- M. apply clockKept_caught. }
  pose proof (clockKept_onFaceDetectionResults faceCount (tick_now t) s)
    as C1.
  revert C1. generalize (onFaceDetectionResults faceCount (tick_now t) s).
  intros s1 C1.
  destruct (tick_mesh t) as [|multiFaceLandmarks].
  { cbv zeta. rewrite <- M.
    apply clockKept_trans with s1; [exact C1|apply clockKept_caught]. }
  cbv zeta.
  pose proof (clockKept_onFaceMeshResults multiFaceLandmarks (tick_now t) s1)
    as C2.
  revert C2.
  generalize (onFaceMeshResults multiFaceLandmarks (tick_now t) s1).
  intros s2 C2.
  pose proof (@clockKept_trans _ _ _ C1 C2) as [M2 K2].
  rewrite (@shouldRunRecognition_clock (tick_now t) _ _ K2).
  destruct (shouldRunRecognition (tick_now t) s); [|split; congruence].
  pose proof (clockKept_performFaceRecognition euclideanDistance
                (tick_face t) (tick_now t)
                (set_faceRecognitionStarted true
                   (set_lastFaceRecogTime (tick_now t) s2))) as [M3 K3].
  apply recognitionClock_inv in K2. destruct K2 as (E2 & T2 & _ & _).
  split.
  - rewrite M3. fields. congruence.
  - rewrite K3. unfold recognitionClock. fields. congruence.
Qed.

Lemma recognitionClock_step euclideanDistance limit o s :
  (forall now, (now < limit)%Z -> shouldRunRecognition now s = false) ->
  comesBefore limit o = true ->
  recognitionClock (step euclideanDistance o s) = recognitionClock s.
Proof.
  intros Q B. destruct o; cbn [step comesBefore] in *.
  - discriminate.
  - apply recognitionClock_stopMonitoring.
  - pose proof (processVideo_clock euclideanDistance t s) as [_ K].
    rewrite K. unfold recognitionRuns.
    apply Z.ltb_lt in B. rewrite (Q _ B).
    destruct (isMonitoring s), (tick_detections t), (tick_mesh t);
      reflexivity.
  - apply clockKept_onFaceDetectionResults.
  - apply clockKept_onFaceMeshResults.
  - apply clockKept_performFaceRecognition.
  - apply clockKept_logEvent.
  - apply clockKept_toBlobCallback.
Qed.

Lemma recognitionClock_run euclideanDistance limit ops :
  forall s,
    (forall now, (now < limit)%Z -> shouldRunRecognition now s = false) ->
    forallb (comesBefore limit) ops = true ->
    recognitionClock (run euclideanDistance ops s) = recognitionClock s.
Proof.
  unfold run. induction ops as [|o ops IH]; intros s Q B; cbn [fold_left].
  - reflexivity.
  - cbn [forallb] in B. apply andb_true_iff in B. destruct B as [B1 B2].
    pose proof (@recognitionClock_step euclideanDistance limit o s Q B1) as K.
    rewrite IH; [exact K| |exact B2].
    intros now L. rewrite (@shouldRunRecognition_clock now _ _ K). auto.
Qed.

Lemma not_due_yet now s last :
  faceRecognitionStarted s = true ->
  lastFaceRecogTime s = last ->
  (now < last + CONFIG.FACE_RECOGNITION.INTERVAL_MS)%Z ->
  shouldRunRecognition now s = false.
Proof.
  intros F L B. unfold shouldRunRecognition. rewrite F, L.
  destruct (enrolledDescriptors s) as [[|d refs]|]; try reflexivity.
  cbn [negb andb orb].
  apply Z.leb_gt. lia.
Qed.

Lemma not_started_yet now s t0 :
  faceRecognitionStarted s = false ->
  sessionStartTime s = Some t0 ->
  (now < t0 + CONFIG.FACE_RECOGNITION.INITIAL_DELAY_MS)%Z ->
  shouldRunRecognition now s = false.
Proof.
  intros F T B. unfold shouldRunRecognition. rewrite F, T.
  destruct (enrolledDescriptors s) as [[|d refs]|]; try reflexivity.
  cbn [negb andb orb]. rewrite orb_false_r.
  apply Z.leb_gt. lia.
Qed.

Lemma not_running t s :
  shouldRunRecognition (tick_now t) s = false -> recognitionRuns t s = false.
Proof.
  intros N. unfold recognitionRuns. rewrite N.
  destruct (isMonitoring s), (tick_detections t), (tick_mesh t); reflexivity.
Qed.

(** A turn that does not reach [performFaceRecognition] does not look at
    what the face detection of the turn would give. *)
Lemma recognition_skipped euclideanDistance t face s :
  recognitionRuns t s = false ->
  processVideo euclideanDistance (withFace t face) s
  = processVideo euclideanDistance t s.
Proof.
  intros N. unfold processVideo, recognitionRuns in *.
  cbn [withFace tick_now tick_detections tick_mesh tick_face].
  destruct (isMonitoring s) eqn:M; cbn [negb andb] in *; [|reflexivity].
  destruct (tick_detections t) as [|faceCount]; [reflexivity|].
  pose proof (clockKept_onFaceDetectionResults faceCount (tick_now t) s)
    as C1.
  revert C1. generalize (onFaceDetectionResults faceCount (tick_now t) s).
  intros s1 C1.
  destruct (tick_mesh t) as [|multiFaceLandmarks]; [reflexivity|].
  cbv zeta.
  pose proof (clockKept_onFaceMeshResults multiFaceLandmarks (tick_now t) s1)
    as C2.
  revert C2.
  generalize (onFaceMeshResults multiFaceLandmarks (tick_now t) s1).
  intros s2 C2.
  pose proof (@clockKept_trans _ _ _ C1 C2) as [_ K2].
  rewrite (@shouldRunRecognition_clock (tick_now t) _ _ K2), N.
  reflexivity.
Qed.

(** X12. Face recognition is rate-limited. A turn of [processVideo]
    either leaves the time of the last run alone or sets it to its own
    clock reading. Once recognition has run, no tick whose clock reads
    less than 10000 ms more than the last run reaches it again, whatever
    other operations come between (stops, handlers, [logEvent] calls,
    callbacks; no new session): such a tick does not depend on the face
    detected, and the time of the last run stays. And in a session started
    at [t0], no tick whose clock reads less than [t0 + 1000] reaches it. *)
Theorem recognition_is_rate_limited :
  forall (euclideanDistance : Descriptor -> Descriptor -> Q),
    (forall (s : ProctoringSystem) (t : Tick),
        let s' := processVideo euclideanDistance t s in
        (faceRecognitionStarted s' = faceRecognitionStarted s /\
         lastFaceRecogTime s' = lastFaceRecogTime s)
        \/ (faceRecognitionStarted s' = true /\
            lastFaceRecogTime s' = tick_now t)) /\
    (forall (s : ProctoringSystem) (ops : list Op),
        faceRecognitionStarted s = true ->
        forallb (comesBefore (lastFaceRecogTime s + 10000)) ops = true ->
        let s' := run euclideanDistance ops s in
        lastFaceRecogTime s' = lastFaceRecogTime s /\
        faceRecognitionStarted s' = true /\
        forall (t : Tick) (face : DetectResult),
          (tick_now t < lastFaceRecogTime s + 10000)%Z ->
          processVideo euclideanDistance (withFace t face) s'
          = processVideo euclideanDistance t s') /\
    (forall (before : ProctoringSystem) (modelsLoaded : bool) (t0 : Z)
            (ops : list Op),
        forallb (comesBefore (t0 + 1000)) ops = true ->
        let s' :=
          run euclideanDistance ops (startMonitoring modelsLoaded t0 before)
        in
        faceRecognitionStarted s' = false /\
        forall (t : Tick) (face : DetectResult),
          (tick_now t < t0 + 1000)%Z ->
          processVideo euclideanDistance (withFace t face) s'
          = processVideo euclideanDistance t s').
Proof.
  intros dist. split; [|split].
  - intros s t s'.
    pose proof (processVideo_clock dist t s) as [_ K]. fold s' in K.
    destruct (recognitionRuns t s).
    + right. unfold recognitionClock in K. split; congruence.
    + left. apply recognitionClock_inv in K.
      destruct K as (_ & _ & F & L). split; assumption.
  - intros s ops F1 B s'.
    assert (Q1 : forall now, (now < lastFaceRecogTime s + 10000)%Z ->
                             shouldRunRecognition now s = false).
    { intros now L. exact (@not_due_yet now s _ F1 eq_refl L). }
    pose proof (@recognitionClock_run dist _ ops s Q1 B) as K. fold s' in K.
    pose proof (@recognitionClock_inv _ _ K) as (_ & _ & F & L).
    split; [exact L|]. split; [congruence|].
    intros t face L2. apply recognition_skipped. apply not_running.
    rewrite (@shouldRunRecognition_clock (tick_now t) _ _ K). exact (Q1 _ L2).
  - intros before modelsLoaded t0 ops B s'.
    pose proof (startMonitoring_fields modelsLoaded t0 before) as [St _].
    cbv zeta in St. destruct St as (_ & T0 & _ & _ & _ & _ & _ & _ & _ & _
                                    & F0 & _).
    revert s' T0 F0. generalize (startMonitoring modelsLoaded t0 before).
    intros s0 s' T0 F0.
    assert (Q0 : forall now, (now < t0 + 1000)%Z ->
                             shouldRunRecognition now s0 = false).
    { intros now L. exact (@not_started_yet now s0 t0 F0 T0 L). }
    pose proof (@recognitionClock_run dist _ ops s0 Q0 B) as K. fold s' in K.
    pose proof (@recognitionClock_inv _ _ K) as (_ & _ & F & _).
    split; [congruence|].
    intros t face L. apply recognition_skipped. apply not_running.
    rewrite (@shouldRunRecognition_clock (tick_now t) _ _ K). exact (Q0 _ L).
Qed.

Lemma recognition_is_rate_limited_witness :
  faceRecognitionStarted afterFirstRecognition = true /\
  forallb (comesBefore (lastFaceRecogTime afterFirstRecognition + 10000))
    [OpProcessVideo (quietTick 6000); OpFaceDetectionResults 1 7000] = true /\
  lastFaceRecogTime
    (run l1Distance
       [OpProcessVideo (quietTick 6000); OpFaceDetectionResults 1 7000]
       afterFirstRecognition)
  = lastFaceRecogTime afterFirstRecognition.
Proof.
  assert (F : faceRecognitionStarted afterFirstRecognition = true)
    by (vm_compute; reflexivity).
  assert (B : forallb
                (comesBefore (lastFaceRecogTime afterFirstRecognition + 10000))
                [OpProcessVideo (quietTick 6000);
                 OpFaceDetectionResults 1 7000] = true)
    by (vm_compute; reflexivity).
  split; [exact F|]. split; [exact B|].
  exact (proj1 (proj1 (proj2 (recognition_is_rate_limited l1Distance))
                  afterFirstRecognition
                  [OpProcessVideo (quietTick 6000);
                   OpFaceDetectionResults 1 7000] F B)).
Defined.

(** ** After [stopMonitoring] *)

Lemma idle_step euclideanDistance o s :
  isMonitoring s = false ->
  isDelivery o = true ->
  step euclideanDistance o s = s.
Proof.
  intros M D. destruct o; try discriminate; cbn [step];
    unfold processVideo, onFaceDetectionResults, onFaceMeshResults;
    rewrite M; reflexivity.
Qed.

(** X13. A stopped system ignores what the detectors and the tick loop
    still deliver: after [stopMonitoring], any sequence of ticks, face
    detection results and face mesh results leaves every field as it
    was, so nothing is logged and nothing is counted. *)
Theorem stopped_system_ignores_deliveries :
  forall (euclideanDistance : Descriptor -> Descriptor -> Q)
         (now : Z) (s : ProctoringSystem) (ops : list Op),
    forallb isDelivery ops = true ->
    isMonitoring (stopMonitoring now s) = false /\
    run euclideanDistance ops (stopMonitoring now s) = stopMonitoring now s.
Proof.
  intros dist now s ops D.
  pose proof (isMonitoring_stopMonitoring now s) as M.
  split; [exact M|].
  revert M. generalize (stopMonitoring now s). intros s0 M.
  unfold run. induction ops as [|o ops IH]; cbn [fold_left]; [reflexivity|].
  cbn [forallb] in D. apply andb_true_iff in D. destruct D as [D1 D2].
  rewrite (@idle_step dist o s0 M D1). apply IH. exact D2.
Qed.

Lemma stopped_system_ignores_deliveries_witness :
  forallb isDelivery
    [OpFaceDetectionResults 0 8000; OpFaceMeshResults [turned] 8100;
     OpProcessVideo (quietTick 20000)] = true /\
  run l1Distance
    [OpFaceDetectionResults 0 8000; OpFaceMeshResults [turned] 8100;
     OpProcessVideo (quietTick 20000)]
    (stopMonitoring 7000 enrolledWatching)
  = stopMonitoring 7000 enrolledWatching.
Proof.
  assert (D : forallb isDelivery
                [OpFaceDetectionResults 0 8000;
                 OpFaceMeshResults [turned] 8100;
                 OpProcessVideo (quietTick 20000)] = true) by reflexivity.
  split; [exact D|].
  exact (proj2 (stopped_system_ignores_deliveries l1Distance 7000
                  enrolledWatching _ D)).
Defined.

(** ** No enrolled face *)

Lemma shouldRunRecognition_nothing now s :
  nothingEnrolled s -> shouldRunRecognition now s = false.
Proof.
  unfold shouldRunRecognition. intros [E|E]; rewrite E; reflexivity.
Qed.

Lemma nothingEnrolled_run euclideanDistance ops s :
  nothingEnrolled s -> nothingEnrolled (run euclideanDistance ops s).
Proof.
  unfold nothingEnrolled.
  pose proof (keepsEnrolled_run euclideanDistance ops s) as K.
  unfold keepsEnrolled in K. rewrite K. auto.
Qed.

(** X14. When the storage holds no enrolment (the key is missing or its
    text is empty) the constructor raises the one [error] event "No
    enrolled face found. Please enroll first.", which counts as no
    violation; when it holds an empty list the constructor raises
    nothing. In both cases no later operation ever lets face recognition
    run. *)
Theorem missing_enrolment_disables_recognition :
  forall (euclideanDistance : Descriptor -> Descriptor -> Q)
         (parseDescriptors : string -> option (list Descriptor))
         (stored : option string) (now : Z),
    let s0 := constructor parseDescriptors stored now in
    (stored = None \/ stored = Some EmptyString ->
     sessionEvents s0 = [noEnrolledFace now] /\
     external s0 = [onLogEvent (noEnrolledFace now)] /\
     totalViolations s0 = 0 /\
     forall (ops : list Op) (t : Tick) (face : DetectResult),
       processVideo euclideanDistance (withFace t face)
         (run euclideanDistance ops s0)
       = processVideo euclideanDistance t (run euclideanDistance ops s0)) /\
    (forall text,
        stored = Some text ->
        text <> EmptyString ->
        parseDescriptors text = Some [] ->
        sessionEvents s0 = [] /\
        external s0 = [] /\
        forall (ops : list Op) (t : Tick) (face : DetectResult),
          processVideo euclideanDistance (withFace t face)
            (run euclideanDistance ops s0)
          = processVideo euclideanDistance t (run euclideanDistance ops s0)).
Proof.
  intros dist parse stored now s0.
  assert (Never : nothingEnrolled s0 ->
                  forall (ops : list Op) (t : Tick) (face : DetectResult),
                    processVideo dist (withFace t face) (run dist ops s0)
                    = processVideo dist t (run dist ops s0)).
  { intros N ops t face. apply recognition_skipped. apply not_running.
    exact (@shouldRunRecognition_nothing (tick_now t) _
             (@nothingEnrolled_run dist ops s0 N)). }
  split.
  - intros A.
    assert (E : s0 = logEvent "No enrolled face found. Please enroll first."
                       error now fresh).
    { subst s0. unfold constructor, loadEnrolledFace.
      destruct A as [-> | ->]; reflexivity. }
    assert (N : nothingEnrolled s0).
    { left. rewrite E. rewrite logEvent_enrolledDescriptors. reflexivity. }
    split; [rewrite E, logEvent_sessionEvents; reflexivity|].
    split; [rewrite E, logEvent_fields; reflexivity|].
    split; [rewrite E, logEvent_totalViolations; reflexivity|].
    exact (Never N).
  - intros text -> NE P.
    assert (E : s0 = set_enrolledDescriptors (Some []) fresh).
    { subst s0. unfold constructor, loadEnrolledFace.
      destruct text as [|c rest]; [congruence|]. rewrite P. reflexivity. }
    assert (N : nothingEnrolled s0) by (right; rewrite E; reflexivity).
    split; [rewrite E; reflexivity|]. split; [rewrite E; reflexivity|].
    exact (Never N).
Qed.

Lemma missing_enrolment_disables_recognition_witness :
  (@None string = None \/ @None string = Some EmptyString) /\
  sessionEvents (constructor decodeSample None 500) = [noEnrolledFace 500] /\
  processVideo l1Distance (withFace (quietTick 9000) NoDetection)
    (run l1Distance [OpStartMonitoring true 1000]
       (constructor decodeSample None 500))
  = processVideo l1Distance (quietTick 9000)
      (run l1Distance [OpStartMonitoring true 1000]
         (constructor decodeSample None 500)).
Proof.
  assert (A : @None string = None \/ @None string = Some EmptyString)
    by (left; reflexivity).
  split; [exact A|].
  destruct (proj1 (missing_enrolment_disables_recognition l1Distance
                     decodeSample None 500) A) as (E & _ & _ & N).
  split; [exact E|]. apply N.
Defined.

(** ** The baseline after calibration *)

Lemma frozen_refl s : frozen s s.
Proof. unfold frozen. auto. Qed.

Lemma frozen_trans s1 s2 s3 : frozen s1 s2 -> frozen s2 s3 -> frozen s1 s3.
Proof.
  unfold frozen. intros A B C.
  destruct (A C) as (C2 & Y & P & G).
  destruct (B C2) as (C3 & Y' & P' & G').
  repeat split; congruence.
Qed.

Ltac frozen_paths :=
  match goal with
  | s : ProctoringSystem |- _ =>
      unfold frozen, CONFIG.CALIBRATION.MAX_FRAMES in *;
      destruct s; cbv zeta; fields; break_inner; expose; break_match;
      fields; intros; try (exfalso; lia);
      repeat split; try reflexivity; try lia
  end.

Lemma frozen_within_session euclideanDistance o s :
  (forall modelsLoaded now, o <> OpStartMonitoring modelsLoaded now) ->
  frozen s (step euclideanDistance o s).
Proof.
  apply (@pieces_within_session frozen);
    try solve [apply frozen_refl | apply frozen_trans];
    intros; open_pieces; frozen_paths.
Qed.

(** X15. Once 45 frames have been used for calibration, the baseline is
    frozen for the rest of the session: no sequence of operations without
    a new [startMonitoring] changes [baselineYaw], [baselinePitch] or
    [baselineGaze], and the frame counter never falls below 45 again. *)
Theorem baseline_is_frozen_after_calibration :
  forall (euclideanDistance : Descriptor -> Descriptor -> Q)
         (s : ProctoringSystem) (ops : list Op),
    withinSession ops = true ->
    45 <= calibrationFrames s ->
    let s' := run euclideanDistance ops s in
    45 <= calibrationFrames s' /\
    baselineYaw s' = baselineYaw s /\
    baselinePitch s' = baselinePitch s /\
    baselineGaze s' = baselineGaze s.
Proof.
  intros dist s ops W C.
  refine (@pieces_run_within frozen dist frozen_refl frozen_trans _
            ops s W C).
  apply frozen_within_session.
Qed.

Lemma baseline_is_frozen_after_calibration_witness :
  withinSession
    [OpFaceMeshResults [turned] 5000; OpFaceDetectionResults 2 6000;
     OpStopMonitoring 7000] = true /\
  45 <= calibrationFrames calibrated /\
  baselinePitch
    (run l1Distance
       [OpFaceMeshResults [turned] 5000; OpFaceDetectionResults 2 6000;
        OpStopMonitoring 7000] calibrated)
  = baselinePitch calibrated.
Proof.
  assert (W : withinSession
                [OpFaceMeshResults [turned] 5000;
                 OpFaceDetectionResults 2 6000;
                 OpStopMonitoring 7000] = true) by reflexivity.
  assert (C : 45 <= calibrationFrames calibrated)
    by (vm_compute; apply le_n).
  split; [exact W|]. split; [exact C|].
  exact (proj1 (proj2 (proj2
           (baseline_is_frozen_after_calibration l1Distance calibrated
              _ W C)))).
Defined.

(** ** Frames without a usable gaze *)

Lemma calculateGaze_none iris eyeInner eyeOuter :
  GeometryUtils.calculateGaze iris eyeInner eyeOuter = None <->
  (Qabs (x eyeInner - x eyeOuter) < CONFIG.GAZE.MIN_EYE_WIDTH)%Q.
Proof.
  unfold GeometryUtils.calculateGaze. cbv zeta.
  rewrite <- Qltb_lt.
  destruct (Qltb _ _); split; congruence.
Qed.

(** X16. A frame gives no gaze sample exactly when an iris landmark is
    missing or an eye is narrower than 0.01; on such a frame [analyzeGaze]
    answers Focused and leaves the object alone, and [calibrateBaseline]
    leaves [baselineGaze] alone. *)
Theorem frames_without_gaze_are_neutral :
  forall (landmarks : Landmarks) (s : ProctoringSystem),
    (avgGazeOf landmarks = None <->
     lm468 landmarks = None \/ lm473 landmarks = None \/
     (Qabs (x (lm133 landmarks) - x (lm33 landmarks)) < 0.01)%Q \/
     (Qabs (x (lm362 landmarks) - x (lm263 landmarks)) < 0.01)%Q) /\
    (avgGazeOf landmarks = None ->
     analyzeGaze landmarks s = (focused, s) /\
     baselineGaze (calibrateBaseline landmarks s) = baselineGaze s).
Proof.
  intros landmarks s. split.
  - unfold avgGazeOf.
    destruct (lm468 landmarks) as [leftIris|]; [|split; auto].
    destruct (lm473 landmarks) as [rightIris|]; [|split; auto].
    pose proof (calculateGaze_none leftIris (lm133 landmarks)
                  (lm33 landmarks)) as L.
    pose proof (calculateGaze_none rightIris (lm362 landmarks)
                  (lm263 landmarks)) as R.
    change CONFIG.GAZE.MIN_EYE_WIDTH with 0.01%Q in L, R.
    destruct (GeometryUtils.calculateGaze leftIris _ _) as [leftGaze|].
    + destruct (GeometryUtils.calculateGaze rightIris _ _) as [rightGaze|].
      * split; [discriminate|].
        intros [H|[H|[H|H]]]; try discriminate.
        -- apply L in H. discriminate.
        -- apply R in H. discriminate.
      * split; [|reflexivity]. intros _. right. right. right.
        apply R. reflexivity.
    + split; [|reflexivity]. intros _. right. right. left.
      apply L. reflexivity.
  - intros N. split.
    + unfold avgGazeOf in N. unfold analyzeGaze.
      destruct (lm468 landmarks) as [leftIris|]; [|reflexivity].
      destruct (lm473 landmarks) as [rightIris|]; [|reflexivity].
      destruct (GeometryUtils.calculateGaze leftIris _ _) as [leftGaze|];
        [|reflexivity].
      destruct (GeometryUtils.calculateGaze rightIris _ _) as [rightGaze|];
        [discriminate|reflexivity].
    + unfold calibrateBaseline. rewrite N. reflexivity.
Qed.

Lemma frames_without_gaze_are_neutral_witness :
  avgGazeOf centred = None /\
  analyzeGaze centred calibrated = (focused, calibrated).
Proof.
  assert (N : avgGazeOf centred = None) by reflexivity.
  split; [exact N|].
  exact (proj1 (proj2 (frames_without_gaze_are_neutral centred calibrated) N)).
Defined.

(** ** The floor of the thresholds *)

Lemma last_snoc (h : list Q) (v d : Q) : last (h ++ [v]) d = v.
Proof. apply last_last. Qed.

Lemma last_tl (h : list Q) (d : Q) :
  2 <= List.length h -> last (tl h) d = last h d.
Proof.
  destruct h as [|a [|b h]]; cbn [List.length]; try lia. reflexivity.
Qed.

(** The value just pushed is the last of the history. *)
Lemma lastOr_pushHistory h v d : lastOr (pushHistory h v) d = v.
Proof.
  unfold lastOr, pushHistory. cbv zeta.
  destruct (CONFIG.ATTENTION.HISTORY_SIZE <? List.length (h ++ [v])) eqn:B.
  - apply Nat.ltb_lt in B. unfold CONFIG.ATTENTION.HISTORY_SIZE in B.
    rewrite last_tl by lia. apply last_snoc.
  - apply last_snoc.
Qed.

Lemma above_threshold smoothed base scaled :
  Qgtb smoothed (Qmax base scaled) = true -> (base < smoothed)%Q.
Proof.
  unfold Qgtb. rewrite Qltb_lt. intros H.
  apply Qle_lt_trans with (Qmax base scaled); [apply Q.le_max_l|exact H].
Qed.

(** X17. Whatever the calibrated baseline, a frame is Distracted by head
    pose only when the smoothed yaw deviation it pushes exceeds 0.08 or
    the smoothed pitch deviation exceeds 0.12, and Distracted by gaze only
    when the smoothed gaze deviation it pushes exceeds 0.18. *)
Theorem verdicts_need_the_base_thresholds :
  forall (landmarks : Landmarks) (s : ProctoringSystem),
    (fst (analyzeAttention landmarks s) = distracted ->
     let s' := snd (analyzeAttention landmarks s) in
     (0.08 < lastOr (yawHistory s') 0)%Q
     \/ (0.12 < lastOr (pitchHistory s') 0)%Q) /\
    (fst (analyzeGaze landmarks s) = distracted ->
     let s' := snd (analyzeGaze landmarks s) in
     (0.18 < lastOr (gazeHistory s') 0)%Q).
Proof.
  intros landmarks s. split.
  - unfold analyzeAttention. cbv zeta. cbn [fst snd]. fields.
    rewrite !lastOr_pushHistory.
    destruct (Qgtb _ _ || Qgtb _ _) eqn:B; [|discriminate].
    intros _. apply orb_true_iff in B. destruct B as [B|B];
      [left|right]; exact (above_threshold _ _ _ B).
  - unfold analyzeGaze.
    destruct (lm468 landmarks) as [leftIris|]; [|discriminate].
    destruct (lm473 landmarks) as [rightIris|]; [|discriminate].
    destruct (GeometryUtils.calculateGaze leftIris _ _) as [leftGaze|];
      [|discriminate].
    destruct (GeometryUtils.calculateGaze rightIris _ _) as [rightGaze|];
      [|discriminate].
    cbv zeta. cbn [fst snd]. fields. rewrite lastOr_pushHistory.
    destruct (Qgtb _ _) eqn:B; [|discriminate].
    intros _. exact (above_threshold _ _ _ B).
Qed.

Lemma verdicts_need_the_base_thresholds_witness :
  fst (analyzeAttention turned calibrated) = distracted /\
  ((0.08 < lastOr (yawHistory (snd (analyzeAttention turned calibrated))) 0)%Q
   \/ (0.12
       < lastOr (pitchHistory (snd (analyzeAttention turned calibrated))) 0)%Q).
Proof.
  assert (D : fst (analyzeAttention turned calibrated) = distracted)
    by (vm_compute; reflexivity).
  split; [exact D|].
  exact (proj1 (verdicts_need_the_base_thresholds turned calibrated) D).
Defined.

(** ** What the log records of a change of attention *)

Lemma analysing_frame_log landmarks others now s :
  isMonitoring s = true ->
  CONFIG.CALIBRATION.MAX_FRAMES <= calibrationFrames s ->
  attentionChanges
    (sessionLogs (onFaceMeshResults (landmarks :: others) now s)) =
  attentionChanges (sessionLogs s)
  ++ attentionEntry (fst (verdictOf landmarks s))
       (snd (verdictOf landmarks s)) now s.
Proof.
  intros M C.
  rewrite (@onFaceMeshResults_analysing landmarks others now s M C).
  rewrite verdictOf_completeCalibration.
  destruct (completeCalibration_effect now s) as (_ & A1 & _).
  revert A1. generalize (completeCalibration now s). intros s1 A1.
  destruct (attentionView_inv A1)
    as (_ & _ & _ & DC & FC & LA & DS & AC & _).
  clear A1.
  destruct (afterAnalysis_effect landmarks s1)
    as (_ & _ & DC3 & FC3 & LA3 & DS3 & L3 & _).
  revert DC3 FC3 LA3 DS3 L3.
  generalize (afterAnalysis landmarks s1). intros s3 DC3 FC3 LA3 DS3 L3.
  pose proof (processDistraction_effect
                (fst (verdictOf landmarks s)) (snd (verdictOf landmarks s))
                now s3) as PD.
  cbv zeta in PD. destruct PD as (_ & _ & PD).
  assert (CD : confirmsDistraction now s3 = confirmsDistraction now s).
  { unfold confirmsDistraction, episodeStart.
    rewrite DC3, LA3, DS3, DC, LA, DS. reflexivity. }
  assert (CF : confirmsFocus s3 = confirmsFocus s).
  { unfold confirmsFocus. rewrite FC3, LA3, FC, LA. reflexivity. }
  assert (ES : episodeStart now s3 = episodeStart now s).
  { unfold episodeStart. rewrite DS3, DS. reflexivity. }
  unfold attentionEntry.
  destruct (AttentionState_eqb (fst (verdictOf landmarks s)) distracted
            || AttentionState_eqb (snd (verdictOf landmarks s)) distracted).
  - destruct PD as (_ & _ & _ & PD). rewrite CD in PD.
    destruct (confirmsDistraction now s);
      destruct PD as (_ & _ & PD); rewrite PD, L3, AC, ?ES, ?app_nil_r;
      reflexivity.
  - destruct PD as (_ & _ & _ & PD). rewrite CF in PD.
    destruct (confirmsFocus s);
      destruct PD as (_ & _ & PD); rewrite PD, L3, AC, ?app_nil_r;
      reflexivity.
Qed.

(** X19. Every change of the confirmed attention state is logged once,
    with its cause. On a landmark frame after calibration the log gains
    an [attention_change] entry exactly when the frame confirms a state.
    For a distraction the entry carries the clock reading of the frame
    minus the stored [distractionStartTime] (minus itself when none is
    stored), which is at least 2000, and names the head movement as the
    trigger whenever the head-pose verdict is Distracted, the gaze shift
    only when the gaze verdict alone is; for restored focus it carries
    neither. The stored time is kept by a Distracted frame, which sets it
    to its own reading only when none is stored, and cleared by a Focused
    frame; nothing else writes it, so a time left by an earlier session
    is still the one subtracted. *)
Theorem attention_changes_are_logged :
  forall (landmarks : Landmarks) (others : list Landmarks) (now : Z)
         (s : ProctoringSystem),
    isMonitoring s = true ->
    45 <= calibrationFrames s ->
    let s' := onFaceMeshResults (landmarks :: others) now s in
    let head := fst (verdictOf landmarks s) in
    let gaze := snd (verdictOf landmarks s) in
    attentionChanges (sessionLogs s') =
      attentionChanges (sessionLogs s) ++ attentionEntry head gaze now s /\
    (lastAttentionState s' <> lastAttentionState s <->
     attentionEntry head gaze now s <> []) /\
    (forall duration trigger,
        In (distracted, duration, trigger) (attentionEntry head gaze now s) ->
        duration
        = Some (now - match distractionStartTime s with
                      | Some stored => stored
                      | None => now
                      end)%Z /\
        (2000 <= now - match distractionStartTime s with
                       | Some stored => stored
                       | None => now
                       end)%Z /\
        (trigger = Some head_movement <-> head = distracted) /\
        (trigger = Some gaze_shift <->
         head <> distracted /\ gaze = distracted)) /\
    distractionStartTime s'
    = (if AttentionState_eqb head distracted
          || AttentionState_eqb gaze distracted
       then match distractionStartTime s with
            | Some stored => Some stored
            | None => Some now
            end
       else None).
Proof.
  intros landmarks others now s M C s' head gaze.
  pose proof (@analysing_frame_log landmarks others now s M C) as L.
  pose proof (@analysing_frame landmarks others now s M C) as [_ A].
  fold s' in L, A. unfold perFrameDistracted in A. fold head gaze in L, A.
  split; [exact L|]. clear L. unfold attentionEntry.
  change (match distractionStartTime s with
          | Some stored => stored
          | None => now
          end) with (episodeStart now s).
  split; [|split].
  - destruct (AttentionState_eqb head distracted
              || AttentionState_eqb gaze distracted).
    + destruct A as (_ & _ & _ & LA & _). rewrite LA.
      destruct (confirmsDistraction now s) eqn:CD.
      * split; [discriminate|]. intros _ E.
        unfold confirmsDistraction in CD.
        rewrite !andb_true_iff, negb_true_iff in CD.
        destruct CD as [_ CD]. rewrite <- E in CD. discriminate.
      * split; [intros N; exfalso; apply N; reflexivity
               |intros N; exfalso; apply N; reflexivity].
    + destruct A as (_ & _ & _ & LA & _). rewrite LA.
      destruct (confirmsFocus s) eqn:CF.
      * split; [discriminate|]. intros _ E.
        unfold confirmsFocus in CF.
        rewrite !andb_true_iff, negb_true_iff in CF.
        destruct CF as [_ CF]. rewrite <- E in CF. discriminate.
      * split; [intros N; exfalso; apply N; reflexivity
               |intros N; exfalso; apply N; reflexivity].
  - intros duration trigger I.
    destruct (AttentionState_eqb head distracted) eqn:H;
      destruct (AttentionState_eqb gaze distracted) eqn:G;
      cbn [orb] in I;
      try (destruct (confirmsFocus s); cbn [In] in I;
           [destruct I as [I|[]]; discriminate|destruct I]);
      destruct (confirmsDistraction now s) eqn:CD; cbn [In] in I;
      try (destruct I; fail);
      destruct I as [I|[]]; injection I as <- <-;
      unfold confirmsDistraction,
        CONFIG.ATTENTION.MIN_DISTRACTION_DURATION in CD;
      rewrite !andb_true_iff, Z.leb_le in CD;
      destruct CD as [[_ CD] _];
      (split; [reflexivity|]); (split; [exact CD|]);
      rewrite <- ?AttentionState_eqb_eq, ?H, ?G;
      (split; split; intros K);
      try reflexivity; try discriminate; try (destruct K; congruence);
      try (split; congruence).
  - destruct (AttentionState_eqb head distracted
              || AttentionState_eqb gaze distracted).
    + destruct A as (_ & _ & DS & _). rewrite DS. unfold episodeStart.
      destruct (distractionStartTime s); reflexivity.
    + destruct A as (_ & _ & DS & _). exact DS.
Qed.

Lemma attention_changes_are_logged_witness :
  isMonitoring
    (feedMesh [mkMeshFrame turned [] 5000; mkMeshFrame turned [] 6000]
       calibrated) = true /\
  45 <= calibrationFrames
          (feedMesh [mkMeshFrame turned [] 5000; mkMeshFrame turned [] 6000]
             calibrated) /\
  attentionChanges
    (sessionLogs
       (onFaceMeshResults [turned] 7100
          (feedMesh [mkMeshFrame turned [] 5000; mkMeshFrame turned [] 6000]
             calibrated)))
  = [(distracted, Some 2100%Z, Some head_movement)].
Proof.
  assert (M : isMonitoring
                (feedMesh
                   [mkMeshFrame turned [] 5000; mkMeshFrame turned [] 6000]
                   calibrated) = true) by (vm_compute; reflexivity).
  assert (C : 45 <= calibrationFrames
                      (feedMesh
                         [mkMeshFrame turned [] 5000;
                          mkMeshFrame turned [] 6000] calibrated))
    by (vm_compute; repeat constructor).
  split; [exact M|]. split; [exact C|].
  rewrite (proj1 (@attention_changes_are_logged turned [] 7100 _ M C)).
  vm_compute. reflexivity.
Defined.

(** ** Restoring focus *)

Lemma focusedRunFrom_app n vs ws :
  focusedRunFrom n (vs ++ ws) = focusedRunFrom (focusedRunFrom n vs) ws.
Proof. unfold focusedRunFrom. apply fold_left_app. Qed.

(** The focus counter follows the run of Focused frames. *)
Lemma feedMesh_focusedRun frames :
  forall s n,
    isMonitoring s = true ->
    CONFIG.CALIBRATION.MAX_FRAMES <= calibrationFrames s ->
    focusCounter s = n ->
    let s' := feedMesh frames s in
    isMonitoring s' = true /\
    CONFIG.CALIBRATION.MAX_FRAMES <= calibrationFrames s' /\
    focusCounter s' = focusedRunFrom n (verdicts frames s).
Proof.
  induction frames as [|f rest IH]; intros s n M C FC; cbv zeta.
  - repeat split; assumption.
  - rewrite feedMesh_cons. cbn [verdicts focusedRunFrom fold_left].
    change (fold_left extendFocus ?vs ?o) with (focusedRunFrom o vs).
    pose proof (@analysing_frame (frame_landmarks f) (frame_others f)
                  (frame_now f) s M C) as [(M1 & C1 & _) A].
    change (onFaceMeshResults (frame_landmarks f :: frame_others f)
              (frame_now f) s) with (feedMesh [f] s) in *.
    assert (C1' : CONFIG.CALIBRATION.MAX_FRAMES
                  <= calibrationFrames (feedMesh [f] s)).
    { rewrite C1. destruct (_ =? _); lia. }
    apply IH; try assumption; unfold extendFocus; cbn [fst snd];
      destruct (perFrameDistracted (frame_landmarks f) s).
    + destruct A as (_ & F & _). exact F.
    + destruct A as (F & _). rewrite F, FC. reflexivity.
Qed.

Lemma calibrationCompleteEvent_not_restored now t :
  calibrationCompleteEvent now <> focusRestored t.
Proof. discriminate. Qed.

Lemma sustainedDistraction_not_restored now t :
  sustainedDistraction now <> focusRestored t.
Proof. discriminate. Qed.

(** X20. Restoring focus has its own hysteresis, without a minimum
    duration. Take landmark frames after calibration, starting with the
    focus counter at 0. On each frame, focus is confirmed (the event
    "Focus restored" is raised and the confirmed state becomes Focused)
    exactly when the frame is at least the third of the Focused frames
    that end the sequence and the confirmed state was not Focused already;
    the distraction episode is closed then. A Distracted frame puts the
    focus counter back to 0. *)
Theorem focus_hysteresis :
  forall (s0 : ProctoringSystem) (pre : list MeshFrame) (f : MeshFrame),
    isMonitoring s0 = true ->
    45 <= calibrationFrames s0 ->
    focusCounter s0 = 0 ->
    let s := feedMesh pre s0 in
    let s' :=
      onFaceMeshResults (frame_landmarks f :: frame_others f)
        (frame_now f) s in
    let n := focusedRun (verdicts (pre ++ [f]) s0) in
    (focusConfirmed (frame_now f) s s' <->
     3 <= n /\ lastAttentionState s <> focused) /\
    (focusConfirmed (frame_now f) s s' ->
     perFrameDistracted (frame_landmarks f) s = false /\
     distractionCounter s' = 0 /\
     distractionStartTime s' = None) /\
    (perFrameDistracted (frame_landmarks f) s = true ->
     n = 0 /\ focusCounter s' = 0).
Proof.
  intros s0 pre f M0 C0 FC0 s s' n.
  destruct (@feedMesh_focusedRun pre s0 0 M0 C0 FC0) as (M & C & FC).
  fold s in M, C, FC.
  change (focusedRunFrom 0 (verdicts pre s0))
    with (focusedRun (verdicts pre s0)) in FC.
  assert (R : n =
              extendFocus (focusedRun (verdicts pre s0))
                (perFrameDistracted (frame_landmarks f) s, frame_now f)).
  { unfold n, focusedRun. rewrite verdicts_app, focusedRunFrom_app.
    reflexivity. }
  pose proof (@analysing_frame (frame_landmarks f) (frame_others f)
                (frame_now f) s M C) as [_ A].
  fold s' in A. unfold extendFocus in R. cbn [fst snd] in R.
  destruct (perFrameDistracted (frame_landmarks f) s).
  - destruct A as (_ & F' & _ & _ & EV).
    assert (No : ~ focusConfirmed (frame_now f) s s').
    { unfold focusConfirmed. rewrite EV, skipn_length_app.
      rewrite In_after_first by apply calibrationCompleteEvent_not_restored.
      intros [I _].
      destruct (confirmsDistraction (frame_now f) s); cbn [In] in I;
        [|exact I].
      destruct I as [I|[]].
      exact (sustainedDistraction_not_restored I). }
    split; [|split].
    + split; [intros H; contradiction|intros [H _]; lia].
    + intros H. contradiction.
    + intros _. split; [exact R|exact F'].
  - destruct A as (_ & DC' & DS' & LA & EV).
    assert (CF : confirmsFocus s = true <->
                 3 <= n /\ lastAttentionState s <> focused).
    { unfold confirmsFocus, CONFIG.STABILIZATION.THRESHOLD.
      rewrite andb_true_iff, Nat.leb_le, negb_true_iff, R, FC.
      split.
      - intros [H1 H2]. split; [exact H1|].
        intros E. apply AttentionState_eqb_eq in E. congruence.
      - intros [H1 H2]. split; [exact H1|].
        destruct (AttentionState_eqb (lastAttentionState s) focused) eqn:E;
          [|reflexivity].
        apply AttentionState_eqb_eq in E. contradiction. }
    assert (Iff : focusConfirmed (frame_now f) s s' <->
                  confirmsFocus s = true).
    { unfold focusConfirmed. rewrite EV, LA, skipn_length_app.
      rewrite In_after_first by apply calibrationCompleteEvent_not_restored.
      destruct (confirmsFocus s) eqn:F.
      - split; [reflexivity|]. intros _.
        split; [left; reflexivity|]. split; [|reflexivity].
        exact (proj2 (proj1 CF eq_refl)).
      - split; [intros [I _]; destruct I|discriminate]. }
    split; [|split].
    + rewrite Iff. exact CF.
    + intros _. repeat split; assumption.
    + discriminate.
Qed.

Lemma focus_hysteresis_witness :
  isMonitoring calibrated = true /\
  45 <= calibrationFrames calibrated /\
  focusCounter calibrated = 0 /\
  focusConfirmed 7000
    (feedMesh [mkMeshFrame centred [] 5000; mkMeshFrame centred [] 6000]
       calibrated)
    (onFaceMeshResults [centred] 7000
       (feedMesh [mkMeshFrame centred [] 5000; mkMeshFrame centred [] 6000]
          calibrated)).
Proof.
  assert (M : isMonitoring calibrated = true) by (vm_compute; reflexivity).
  assert (C : 45 <= calibrationFrames calibrated)
    by (vm_compute; apply le_n).
  assert (F : focusCounter calibrated = 0) by (vm_compute; reflexivity).
  split; [exact M|]. split; [exact C|]. split; [exact F|].
  apply (proj1 (@focus_hysteresis calibrated
                  [mkMeshFrame centred [] 5000; mkMeshFrame centred [] 6000]
                  (mkMeshFrame centred [] 7000) M C F)).
  split.
  - vm_compute. repeat constructor.
  - vm_compute. discriminate.
Defined.

(** ** The names of the downloaded frames *)

Lemma length_append (a b : string) :
  String.length (a ++ b) = String.length a + String.length b.
Proof. induction a as [|c a IH]; cbn; [reflexivity|]. rewrite IH. reflexivity. Qed.

Lemma sanitize_length message :
  String.length (sanitize message) = String.length message.
Proof.
  induction message as [|c rest IH]; cbn; [reflexivity|].
  rewrite IH. reflexivity.
Qed.

Lemma dashed_length text : String.length (dashed text) = String.length text.
Proof.
  induction text as [|c rest IH]; cbn; [reflexivity|].
  rewrite IH. reflexivity.
Qed.

Lemma sanitize_characters message c :
  In c (characters (sanitize message)) ->
  isAlphanumeric c = true \/ c = "_"%char.
Proof.
  induction message as [|d rest IH]; cbn [sanitize characters In];
    [intros []|].
  intros [H|H]; [|exact (IH H)].
  destruct (isAlphanumeric d) eqn:A; [left; congruence|right; congruence].
Qed.

Lemma dashed_characters text c :
  In c (characters (dashed text)) -> c <> ":"%char /\ c <> "."%char.
Proof.
  induction text as [|d rest IH]; cbn [dashed characters In]; [intros []|].
  intros [H|H]; [|exact (IH H)].
  destruct (Ascii.eqb d ":") eqn:A; cbn [orb] in H.
  - subst c. split; discriminate.
  - destruct (Ascii.eqb d ".") eqn:B.
    + subst c. split; discriminate.
    + subst c. apply Ascii.eqb_neq in A. apply Ascii.eqb_neq in B.
      split; assumption.
Qed.

Lemma sanitize_fixed message :
  Forall (fun c => isAlphanumeric c = true) (characters message) ->
  sanitize message = message.
Proof.
  induction message as [|c rest IH]; cbn [sanitize characters];
    [reflexivity|].
  intros F. inversion F as [|? ? A F']; subst.
  rewrite A, (IH F'). reflexivity.
Qed.

(** X21. The file of a captured frame is named
    [violation_<message>_<stamp>.png], where the message part has the
    length of the violation message and holds letters, digits and
    underscores only (a message made of letters and digits is kept as it
    is), and the stamp holds no colon and no dot; the method names one
    file per captured frame, in the order of capture, and creates no
    archive when no frame was captured. *)
Theorem violation_file_names_are_safe :
  forall (toISOString : Z -> string) (s : ProctoringSystem),
    (forall f : ViolationFrame,
        let message := sanitize (vf_message f) in
        let stamp := frameStamp toISOString f in
        violationFileName toISOString f
        = ("violation_" ++ message ++ "_" ++ stamp ++ ".png")%string /\
        String.length message = String.length (vf_message f) /\
        (forall c, In c (characters message) ->
                   isAlphanumeric c = true \/ c = "_"%char) /\
        (Forall (fun c => isAlphanumeric c = true)
           (characters (vf_message f)) ->
         message = vf_message f) /\
        (forall c, In c (characters stamp) ->
                   c <> ":"%char /\ c <> "."%char) /\
        String.length (violationFileName toISOString f)
        = 15 + String.length (vf_message f)
          + String.length (toISOString (vf_timestamp f))) /\
    (downloadViolationFrames toISOString s = None <->
     violationFrames s = []) /\
    (forall calls,
        downloadViolationFrames toISOString s = Some calls ->
        map fst calls
        = map (violationFileName toISOString) (violationFrames s) /\
        map snd calls = map vf_blob (violationFrames s)).
Proof.
  intros toISOString s. split; [|split].
  - intros f message stamp.
    split; [reflexivity|].
    split; [apply sanitize_length|].
    split; [apply sanitize_characters|].
    split; [apply sanitize_fixed|].
    split; [apply dashed_characters|].
    unfold violationFileName, frameStamp.
    rewrite !length_append, sanitize_length, dashed_length. cbn. lia.
  - unfold downloadViolationFrames.
    destruct (violationFrames s); split; congruence.
  - intros calls. unfold downloadViolationFrames.
    destruct (violationFrames s) as [|f frames]; [discriminate|].
    intros E.
    assert (C : calls
                = map (fun g => (violationFileName toISOString g, vf_blob g))
                    (f :: frames)) by congruence.
    rewrite C, !map_map. split; reflexivity.
Qed.

Lemma violation_file_names_are_safe_witness :
  Forall (fun c => isAlphanumeric c = true)
    (characters (vf_message plainFrame)) /\
  sanitize (vf_message plainFrame) = vf_message plainFrame.
Proof.
  assert (F : Forall (fun c => isAlphanumeric c = true)
                (characters (vf_message plainFrame)))
    by (cbn; repeat constructor).
  split; [exact F|].
  pose proof (proj1 (violation_file_names_are_safe (fun _ => EmptyString)
                       fresh) plainFrame) as K.
  cbv zeta in K. exact (proj1 (proj2 (proj2 (proj2 K))) F).
Defined.

(** ** The widget keeps the last ten events *)

Lemma sliceLast_length (A : Type) (n : nat) (l : list A) :
  List.length (CornerWebcam.sliceLast n l) = Nat.min n (List.length l).
Proof. unfold CornerWebcam.sliceLast. rewrite length_skipn. lia. Qed.

Lemma sliceLast_all (A : Type) (n : nat) (l : list A) :
  List.length l <= n -> CornerWebcam.sliceLast n l = l.
Proof.
  intros L. unfold CornerWebcam.sliceLast.
  replace (List.length l - n) with 0 by lia. reflexivity.
Qed.

Lemma sliceLast_app (A : Type) (n : nat) (l r : list A) :
  CornerWebcam.sliceLast n (CornerWebcam.sliceLast n l ++ r)
  = CornerWebcam.sliceLast n (l ++ r).
Proof.
  destruct (Nat.le_gt_cases (List.length l) n) as [L|L].
  - rewrite (@sliceLast_all _ n l L). reflexivity.
  - unfold CornerWebcam.sliceLast at 1 3.
    rewrite !length_app, sliceLast_length, !skipn_app, sliceLast_length.
    unfold CornerWebcam.sliceLast. rewrite skipn_skipn.
    replace (Nat.min n (List.length l) + List.length r - n
             + (List.length l - n))
      with (List.length l + List.length r - n) by lia.
    replace (Nat.min n (List.length l) + List.length r - n
             - Nat.min n (List.length l))
      with (List.length l + List.length r - n - List.length l) by lia.
    reflexivity.
Qed.

Lemma sliceLast_snoc (A : Type) (n : nat) (l : list A) (a : A) :
  CornerWebcam.sliceLast n l ++ [a] = CornerWebcam.sliceLast (S n) (l ++ [a]).
Proof.
  unfold CornerWebcam.sliceLast. rewrite length_app, skipn_app. cbn [List.length].
  replace (List.length l + 1 - S n) with (List.length l - n) by lia.
  replace (List.length l - n - List.length l) with 0 by lia.
  reflexivity.
Qed.

Lemma loggedEvents_app a b :
  loggedEvents (a ++ b) = loggedEvents a ++ loggedEvents b.
Proof. apply flat_map_app. Qed.

Lemma widget_events calls :
  forall w,
    CornerWebcam.events (fold_left CornerWebcam.deliver calls w)
    = CornerWebcam.sliceLast 10
        (CornerWebcam.sliceLast 10 (CornerWebcam.events w)
         ++ loggedEvents calls) \/
    (loggedEvents calls = [] /\
     CornerWebcam.events (fold_left CornerWebcam.deliver calls w)
     = CornerWebcam.events w).
Proof.
  induction calls as [|c calls IH]; intros w; cbn [fold_left].
  - right. split; reflexivity.
  - destruct c as [e|total attention|message|what];
      cbn [CornerWebcam.deliver loggedEvents flat_map app].
    + left.
      assert (E : CornerWebcam.events (CornerWebcam.setEvents e w)
                  = CornerWebcam.sliceLast 10 (CornerWebcam.events w ++ [e])).
      { cbn [CornerWebcam.setEvents CornerWebcam.events].
        apply sliceLast_snoc. }
      destruct (IH (CornerWebcam.setEvents e w)) as [H|[N H]]; rewrite H.
      * rewrite E. rewrite !sliceLast_app.
        rewrite <- app_assoc. reflexivity.
      * change (loggedEvents calls) with
          (flat_map
             (fun c => match c with onLogEvent e0 => [e0] | _ => [] end)
             calls) in N.
        rewrite N, E, sliceLast_app. reflexivity.
    + exact (IH (CornerWebcam.setViolations total attention w)).
    + exact (IH w).
    + exact (IH w).
Qed.

(** X22. The event list of the monitoring widget outlives the objects
    the page builds. Whatever list of at most ten events the widget
    shows, after it has been handed further calls, by one object or by
    several in turn, it shows the last ten of its former list followed by
    the events handed to [onLogEvent], oldest first: all of them while
    there are at most ten, never more than ten. On a new page the former
    list is empty, and the widget shows the last ten events of all the
    objects the page has built. *)
Theorem widget_lists_the_last_ten_events :
  forall (w : CornerWebcam.Widget) (calls : list ExternalCall),
    List.length (CornerWebcam.events w) <= 10 ->
    let listed :=
      CornerWebcam.events (fold_left CornerWebcam.deliver calls w) in
    let handed := CornerWebcam.events w ++ loggedEvents calls in
    listed = skipn (List.length handed - 10) handed /\
    List.length listed <= 10 /\
    (List.length handed <= 10 -> listed = handed).
Proof.
  intros w calls B listed handed.
  assert (E : listed = CornerWebcam.sliceLast 10 handed).
  { unfold listed, handed.
    destruct (widget_events calls w) as [H|[N H]]; rewrite H.
    - rewrite sliceLast_app. reflexivity.
    - rewrite N, app_nil_r. symmetry. apply sliceLast_all. exact B. }
  split; [exact E|]. split.
  - rewrite E, sliceLast_length. lia.
  - intros L. rewrite E. apply sliceLast_all. exact L.
Qed.

Lemma widget_lists_the_last_ten_events_witness :
  List.length (CornerWebcam.events usedWidget) <= 10 /\
  List.length
    (CornerWebcam.events
       (fold_left CornerWebcam.deliver (external afterTwoViolations)
          usedWidget)) <= 10 /\
  CornerWebcam.events
    (fold_left CornerWebcam.deliver (external afterTwoViolations) usedWidget)
  = skipn 2
      (CornerWebcam.events usedWidget
       ++ loggedEvents (external afterTwoViolations)).
Proof.
  assert (B : List.length (CornerWebcam.events usedWidget) <= 10)
    by (vm_compute; repeat constructor).
  split; [exact B|].
  destruct (widget_lists_the_last_ten_events usedWidget
              (external afterTwoViolations) B) as (E & L & _).
  split; [exact L|].
  rewrite E. vm_compute. reflexivity.
Defined.

(** ** The session clock of the widget *)

Lemma decimal_one_digit n : n < 10 -> String.length (decimal n) = 1.
Proof.
  intros L. unfold decimal. cbn [digits_fuel].
  rewrite (Nat.div_small n 10 L). reflexivity.
Qed.

Lemma decimal_two_digits n :
  10 <= n -> n < 100 -> String.length (decimal n) = 2.
Proof.
  intros L H. unfold decimal. cbn [digits_fuel].
  destruct (n / 10 =? 0) eqn:Z.
  - apply Nat.eqb_eq in Z. apply Nat.div_small_iff in Z; lia.
  - destruct n as [|m]; [lia|]. cbn [digits_fuel].
    assert (S m / 10 < 10) by (apply Nat.Div0.div_lt_upper_bound; lia).
    rewrite (Nat.div_small (S m / 10) 10) by assumption.
    reflexivity.
Qed.

Lemma padStart2_decimal n :
  n < 100 -> String.length (CornerWebcam.padStart2 (decimal n)) = 2.
Proof.
  intros H. unfold CornerWebcam.padStart2.
  destruct (Nat.lt_ge_cases n 10) as [L|L].
  - pose proof (@decimal_one_digit n L) as D.
    destruct (decimal n) as [|c [|d rest]]; try discriminate. reflexivity.
  - pose proof (@decimal_two_digits n L H) as D.
    rewrite D. exact D.
Qed.

(** X23. For a session that has lasted [elapsed] milliseconds, the clock
    of the widget shows the whole seconds elapsed as minutes and seconds:
    the minutes are the seconds divided by 60, the seconds the rest, each
    padded to two digits with a colon between them; under 100 minutes
    the text is exactly five characters long. *)
Theorem session_clock_shows_minutes_and_seconds :
  forall (elapsed : Z),
    (0 <= elapsed)%Z ->
    let whole := Z.to_nat (elapsed / 1000) in
    CornerWebcam.formatSessionTime elapsed
    = (CornerWebcam.padStart2 (decimal (whole / 60)) ++ ":"
       ++ CornerWebcam.padStart2 (decimal (whole mod 60)))%string /\
    ((elapsed < 6000000)%Z ->
     String.length (CornerWebcam.formatSessionTime elapsed) = 5).
Proof.
  intros elapsed P whole.
  assert (Mi : Z.to_nat (elapsed / 60000) = whole / 60).
  { unfold whole. apply Nat2Z.inj.
    rewrite Nat2Z.inj_div, !Z2Nat.id
      by (apply Z.div_pos; lia).
    change (Z.of_nat 60) with 60%Z.
    rewrite Z.div_div by lia. reflexivity. }
  assert (Se : Z.to_nat (Z.rem elapsed 60000 / 1000) = whole mod 60).
  { unfold whole. apply Nat2Z.inj.
    rewrite Nat2Z.inj_mod, !Z2Nat.id
      by (try apply Z.div_pos; try apply Z.rem_nonneg; lia).
    change (Z.of_nat 60) with 60%Z.
    rewrite Z.rem_mod_nonneg by lia.
    pose proof (Z.div_mod elapsed 60000).
    pose proof (Z.mod_pos_bound elapsed 60000).
    pose proof (Z.div_mod (elapsed mod 60000) 1000).
    pose proof (Z.mod_pos_bound (elapsed mod 60000) 1000).
    pose proof (Z.div_mod elapsed 1000).
    pose proof (Z.mod_pos_bound elapsed 1000).
    pose proof (Z.div_mod (elapsed / 1000) 60).
    pose proof (Z.mod_pos_bound (elapsed / 1000) 60).
    nia. }
  assert (F : CornerWebcam.formatSessionTime elapsed
              = (CornerWebcam.padStart2 (decimal (whole / 60)) ++ ":"
                 ++ CornerWebcam.padStart2 (decimal (whole mod 60)))%string).
  { unfold CornerWebcam.formatSessionTime, CornerWebcam.numberToString.
    cbv zeta.
    assert (N1 : (elapsed / 60000 <? 0)%Z = false)
      by (apply Z.ltb_ge, Z.div_pos; lia).
    assert (N2 : (Z.rem elapsed 60000 / 1000 <? 0)%Z = false).
    { apply Z.ltb_ge, Z.div_pos; [apply Z.rem_nonneg|]; lia. }
    rewrite N1, N2, Mi, Se. reflexivity. }
  split; [exact F|].
  intros B. rewrite F, !length_append.
  assert (W : (Z.of_nat whole < 6000)%Z).
  { unfold whole. rewrite Z2Nat.id by (apply Z.div_pos; lia).
    apply Z.div_lt_upper_bound; lia. }
  rewrite !padStart2_decimal; [reflexivity| |].
  - pose proof (Nat.mod_upper_bound whole 60). lia.
  - apply Nat.Div0.div_lt_upper_bound. lia.
Qed.

Lemma session_clock_shows_minutes_and_seconds_witness :
  (0 <= 754321)%Z /\
  CornerWebcam.formatSessionTime 754321 = "12:34"%string.
Proof.
  assert (P : (0 <= 754321)%Z) by lia.
  split; [exact P|].
  rewrite (proj1 (@session_clock_shows_minutes_and_seconds 754321 P)).
  vm_compute. reflexivity.
Defined.

(** ** The images of the enrolment page *)

Lemma filterIndex_keeps (A : Type) (target : nat) (l : list A) :
  forall k,
    target < k ->
    EnrollmentPage.filterIndex (fun i => negb (i =? target)) k l = l.
Proof.
  induction l as [|a rest IH]; intros k L; [reflexivity|].
  cbn [EnrollmentPage.filterIndex].
  replace (k =? target) with false by (symmetry; apply Nat.eqb_neq; lia).
  cbn [negb]. rewrite IH by lia. reflexivity.
Qed.

Lemma filterIndex_removes (A : Type) (index : nat) :
  forall (l : list A) (offset : nat),
    EnrollmentPage.filterIndex (fun i => negb (i =? offset + index)) offset l
    = firstn index l ++ skipn (S index) l.
Proof.
  induction index as [|index IH]; intros [|a rest] offset;
    try reflexivity; cbn [EnrollmentPage.filterIndex].
  - replace (offset =? offset + 0) with true
      by (symmetry; apply Nat.eqb_eq; lia).
    cbn [negb firstn skipn app]. apply filterIndex_keeps. lia.
  - replace (offset =? offset + S index) with false
      by (symmetry; apply Nat.eqb_neq; lia).
    cbn [negb]. change (firstn (S index) (a :: rest)) with
      (a :: firstn index rest).
    change (skipn (S (S index)) (a :: rest)) with (skipn (S index) rest).
    cbn [app]. f_equal.
    replace (offset + S index) with (S offset + index) by lia.
    apply IH.
Qed.

Lemma retakeImage_firstn_skipn index images :
  EnrollmentPage.retakeImage index images
  = firstn index images ++ skipn (S index) images.
Proof.
  unfold EnrollmentPage.retakeImage.
  exact (@filterIndex_removes _ index images 0).
Qed.

(** X24. [retakeImage] removes the image at the given position and
    nothing else: the images before it and after it stay, in order; a
    position past the end removes nothing. *)
Theorem retakeImage_removes_one_image :
  forall (index : nat) (images : list EnrollmentPage.Image),
    EnrollmentPage.retakeImage index images
    = firstn index images ++ skipn (S index) images /\
    (index < List.length images ->
     List.length (EnrollmentPage.retakeImage index images)
     = List.length images - 1) /\
    (List.length images <= index ->
     EnrollmentPage.retakeImage index images = images).
Proof.
  intros index images.
  pose proof (retakeImage_firstn_skipn index images) as E.
  split; [exact E|]. split.
  - intros L. rewrite E, length_app, length_firstn, length_skipn. lia.
  - intros L. rewrite E, firstn_all2, skipn_all2 by lia.
    apply app_nil_r.
Qed.

Lemma retakeImage_removes_one_image_witness :
  1 < List.length ["a"; "b"; "c"]%string /\
  List.length (EnrollmentPage.retakeImage 1 ["a"; "b"; "c"]%string)
  = List.length ["a"; "b"; "c"]%string - 1.
Proof.
  assert (L : 1 < List.length ["a"; "b"; "c"]%string) by (cbn; lia).
  split; [exact L|].
  exact (proj1 (proj2 (retakeImage_removes_one_image 1
                         ["a"; "b"; "c"]%string)) L).
Defined.

Lemma act_bound images a :
  List.length images <= 3 ->
  List.length (EnrollmentPage.act images a) <= 3.
Proof.
  intros L. destruct a as [[[|c rest]|]|index|];
    cbn [EnrollmentPage.act EnrollmentPage.captureImage
         EnrollmentPage.clearAll List.length]; try lia.
  - destruct (List.length images <? 3) eqn:B; [|exact L].
    apply Nat.ltb_lt in B. rewrite length_app. cbn. lia.
  - rewrite retakeImage_firstn_skipn, length_app, length_firstn,
      length_skipn. lia.
Qed.

Lemma collect_bound outcomes :
  forall descriptors collected,
    EnrollmentPage.collect outcomes descriptors = Some collected ->
    List.length descriptors <= List.length collected /\
    List.length collected <= List.length descriptors + List.length outcomes.
Proof.
  induction outcomes as [|o outcomes IH]; intros descriptors collected;
    cbn [EnrollmentPage.collect List.length].
  - intros E. injection E as <-. lia.
  - destruct o as [| |d]; [discriminate| |]; intros E;
      apply IH in E; rewrite ?length_app in E; cbn [List.length] in E; lia.
Qed.

(** X25. The enrolment page never holds more than three images, whatever
    is captured, retaken or cleared; and when [proceed] stores an
    enrolment, the models were loaded, exactly three images were held,
    between one and three descriptors are stored, and the stored counts
    are the number of descriptors and three. *)
Theorem enrolment_stores_one_to_three_descriptors :
  forall (actions : list EnrollmentPage.Action) (modelsLoaded : bool)
         (analyse : EnrollmentPage.Image -> EnrollmentPage.ImageOutcome),
    let images := fold_left EnrollmentPage.act actions [] in
    List.length images <= 3 /\
    forall descriptors descriptorCount totalImages,
      EnrollmentPage.proceed modelsLoaded analyse images
      = EnrollmentPage.Stored descriptors descriptorCount totalImages ->
      modelsLoaded = true /\
      List.length images = 3 /\
      1 <= List.length descriptors <= 3 /\
      descriptorCount = List.length descriptors /\
      totalImages = 3.
Proof.
  intros actions modelsLoaded analyse images.
  assert (B : List.length images <= 3).
  { unfold images.
    assert (G : forall start,
               List.length start <= 3 ->
               List.length (fold_left EnrollmentPage.act actions start) <= 3).
    { induction actions as [|a actions IH]; intros start L; [exact L|].
      cbn [fold_left]. apply IH. apply act_bound. exact L. }
    apply G. cbn. lia. }
  split; [exact B|].
  intros descriptors descriptorCount totalImages.
  unfold EnrollmentPage.proceed.
  destruct (List.length images <? 3) eqn:L; [discriminate|].
  destruct modelsLoaded; [|discriminate]. cbn [negb orb].
  apply Nat.ltb_ge in L.
  destruct (EnrollmentPage.collect (map analyse images) []) as [collected|]
    eqn:C; [|discriminate].
  destruct (0 <? List.length collected) eqn:P; [|discriminate].
  apply Nat.ltb_lt in P.
  intros E. injection E as <- <- <-.
  apply collect_bound in C. rewrite length_map in C. cbn [List.length] in C.
  repeat split; lia.
Qed.

Lemma enrolment_stores_one_to_three_descriptors_witness :
  let images :=
    fold_left EnrollmentPage.act
      [EnrollmentPage.Capture (Some "a"%string);
       EnrollmentPage.Capture (Some "b"%string);
       EnrollmentPage.Capture (Some "c"%string);
       EnrollmentPage.Capture (Some "d"%string)] [] in
  EnrollmentPage.proceed true
    (fun image =>
       if String.eqb image "b" then EnrollmentPage.NoFace
       else EnrollmentPage.Face [0%Q; 0%Q]) images
  = EnrollmentPage.Stored [[0%Q; 0%Q]; [0%Q; 0%Q]] 2 3 /\
  List.length images = 3.
Proof.
  assert (E : EnrollmentPage.proceed true
                (fun image =>
                   if String.eqb image "b" then EnrollmentPage.NoFace
                   else EnrollmentPage.Face [0%Q; 0%Q])
                (fold_left EnrollmentPage.act
                   [EnrollmentPage.Capture (Some "a"%string);
                    EnrollmentPage.Capture (Some "b"%string);
                    EnrollmentPage.Capture (Some "c"%string);
                    EnrollmentPage.Capture (Some "d"%string)] [])
              = EnrollmentPage.Stored [[0%Q; 0%Q]; [0%Q; 0%Q]] 2 3)
    by (vm_compute; reflexivity).
  split; [exact E|].
  exact (proj1 (proj2 (proj2 (enrolment_stores_one_to_three_descriptors
                                _ _ _) _ _ _ E))).
Defined.
